(** * aw_nas: the DPU hardware compiler and the bbssp search-space plugin

    A shallow embedding of

    - [aw_nas/hardware/compiler/dpu.py]: the [DPUCompiler] class, which
      chains a PyTorch-to-Caffe converter, the [deephi_fix] calibration
      tool and the [dnnc] compiler;
    - [examples/research/bbssp/ssp_plugin/ssp_plugin.py]: [weights_init],
      [WeightInitDiffSuperNet], the block classes and the registered
      primitives, [CosineDecayLR], [LatencyObjective] and [FBNetPlugin].

    Conventions.  Python strings are [string]; Python [int]s are [Z];
    [None]-able arguments are [option]s; a Python exception is the
    [Raise] outcome of a computation.  File contents are byte strings.
    Calls of [self.logger.info] are left out: they only format a message.
    Floating-point values are elements of an abstract type with abstract
    operations (class [FloatOps]), so that every statement about them is
    a statement about which operations the code applies to which values,
    in which order. *)

From Stdlib Require Import ZArith Ascii QArith.
From stdpp Require Import gmap strings list fin_maps pretty.

Local Open Scope string_scope.
Local Open Scope list_scope.

#[local] Set Warnings "-register-all".

(** ** Python strings and paths *)

Module Py.

Definition nl : string := String "010"%char "".
Definition cr : string := String "013"%char "".
Definition dq : string := String "034"%char "".

Fixpoint drop (n : nat) (s : string) : string :=
  match n, s with
  | O, _ => s
  | S _, EmptyString => EmptyString
  | S k, String _ s' => drop k s'
  end.

(** [pat in s] *)
Fixpoint contains (pat s : string) : bool :=
  String.prefix pat s ||
  match s with
  | EmptyString => false
  | String _ s' => contains pat s'
  end.

(** [s.replace(old, new)] for a non-empty [old]: the non-overlapping
    occurrences are replaced from left to right.  [skip] counts the
    characters of a matched occurrence that are still to be dropped. *)
Fixpoint replace_from (old new : string) (skip : nat) (s : string) : string :=
  match s with
  | EmptyString => EmptyString
  | String c s' =>
      match skip with
      | S k => replace_from old new k s'
      | O =>
          if String.prefix old s
          then new +:+ replace_from old new (String.length old - 1) s'
          else String c (replace_from old new 0 s')
      end
  end.

Fixpoint intersperse_after (new s : string) : string :=
  match s with
  | EmptyString => EmptyString
  | String c s' => String c (new +:+ intersperse_after new s')
  end.

Definition replace (old new s : string) : string :=
  match old with
  | EmptyString => new +:+ intersperse_after new s
  | _ => replace_from old new 0 s
  end.

(** [repr(s)] for a [str] of ASCII characters: in single quotes, or in
    double quotes when [s] has a single quote and no double quote; the
    backslash, the quote in use, the line feed, the carriage return and
    the tab are escaped with a backslash, the other control characters
    are written [\xhh]. *)
Definition sq : string := "'".
Definition backslash : string := String "092"%char "".

Definition hex_digit (n : nat) : ascii :=
  if (n <? 10)%nat then ascii_of_nat (48 + n) else ascii_of_nat (87 + n).

Definition hex2 (n : nat) : string :=
  String (hex_digit (n / 16)) (String (hex_digit (n mod 16)) "").

Definition escape_char (quote c : ascii) : string :=
  if Ascii.eqb c "092" then backslash +:+ backslash
  else if Ascii.eqb c quote then backslash +:+ String quote ""
  else if Ascii.eqb c "010" then backslash +:+ "n"
  else if Ascii.eqb c "013" then backslash +:+ "r"
  else if Ascii.eqb c "009" then backslash +:+ "t"
  else if (nat_of_ascii c <? 32)%nat || (nat_of_ascii c =? 127)%nat
       then backslash +:+ "x" +:+ hex2 (nat_of_ascii c)
  else String c "".

Fixpoint escape (quote : ascii) (s : string) : string :=
  match s with
  | EmptyString => EmptyString
  | String c s' => escape_char quote c +:+ escape quote s'
  end.

Definition repr (s : string) : string :=
  if contains sq s && negb (contains dq s)
  then dq +:+ escape "034" s +:+ dq
  else sq +:+ escape "'" s +:+ sq.

(** [str(n)] for an [int]. *)
Definition str_int (n : Z) : string := pretty n.

Arguments str_int : simpl never.

(** [str(x)] for an [int] or [None]. *)
Definition str_opt_int (x : option Z) : string :=
  match x with
  | Some n => str_int n
  | None => "None"
  end.

(** [str(x)] for a [str] or [None]. *)
Definition str_opt_str (x : option string) : string :=
  match x with
  | Some s => s
  | None => "None"
  end.

Definition startswith_sep (b : string) : bool :=
  match b with
  | String c _ => Ascii.eqb c "/"
  | EmptyString => false
  end.

Fixpoint endswith_sep (a : string) : bool :=
  match a with
  | EmptyString => false
  | String c EmptyString => Ascii.eqb c "/"
  | String _ a' => endswith_sep a'
  end.

(** [os.path.join(a, b)] (posixpath). *)
Definition os_path_join (a b : string) : string :=
  if startswith_sep b then b
  else if String.eqb a "" || endswith_sep a then a +:+ b
  else a +:+ "/" +:+ b.

Arguments os_path_join : simpl never.

End Py.

(** ** Exceptions and computations with state *)

Inductive exn : Type :=
| ConfigException (msg : string)
| CalledProcessError (cmd : string)
| FileNotFoundError (path : string)
| TypeError (msg : string)
| RuntimeError (msg : string)
| AssertionError
| ZeroDivisionError
| ValueError (msg : string)
| IndexError
| AttributeError (msg : string)
| UnicodeDecodeError
| PermissionError (path : string)
| IsADirectoryError (path : string)
| NotADirectoryError (path : string)
| FileExistsError (path : string)
| OSError (path : string).

Inductive outcome (A : Type) : Type :=
| Ok (a : A)
| Raise (e : exn).
Arguments Ok {A} a.
Arguments Raise {A} e.

(** A computation on a mutable state [S]: when it raises, the state is
    what the statements executed so far made of it. *)
Definition SE (S A : Type) : Type := S → outcome A * S.

Definition ret {S A} (a : A) : SE S A := λ s, (Ok a, s).

Definition raise {S A} (e : exn) : SE S A := λ s, (Raise e, s).

Definition bind {S A B} (c : SE S A) (k : A → SE S B) : SE S B :=
  λ s, match c s with
       | (Ok a, s') => k a s'
       | (Raise e, s') => (Raise e, s')
       end.

Definition get {S} : SE S S := λ s, (Ok s, s).

Definition modify {S} (f : S → S) : SE S unit := λ s, (Ok tt, f s).

Definition lift_outcome {S A} (o : outcome A) : SE S A := λ s, (o, s).

Definition when {S} (b : bool) (c : SE S unit) : SE S unit :=
  if b then c else ret tt.

Notation "'do' x <- c1 ; c2" := (bind c1 (λ x, c2))
  (at level 10, x name, c1 at level 100, c2 at level 200).
Notation "'do' ' pat <- c1 ; c2" := (bind c1 (λ x, match x with pat => c2 end))
  (at level 10, pat pattern, c1 at level 100, c2 at level 200).
Notation "'run' c1 ; c2" := (bind c1 (λ _, c2))
  (at level 10, c1 at level 100, c2 at level 200).

(** ** Text files as Python and the shell tools see them *)

Module Text.

(** The lines of a text, each with its terminating newline when it has
    one (only the last line can lack it). *)
Fixpoint split_lines (s : string) : list string :=
  match s with
  | EmptyString => []
  | String c s' =>
      if Ascii.eqb c "010" then Py.nl :: split_lines s'
      else match split_lines s' with
           | [] => [String c EmptyString]
           | l :: ls => String c l :: ls
           end
  end.

Definition join_lines (ls : list string) : string := foldr String.append "" ls.

Fixpoint has_nl (s : string) : bool :=
  match s with
  | EmptyString => false
  | String c s' => Ascii.eqb c "010" || has_nl s'
  end.

(** Lists of lines as [split_lines] makes them: no line is empty, and a
    line feed can only be the last character of a line, which every
    line but the last has. *)
Inductive lines_ok : list string → Prop :=
| lines_nil : lines_ok []
| lines_last l : l ≠ "" → has_nl l = false → lines_ok [l]
| lines_cons b ls : has_nl b = false → lines_ok ls → lines_ok ((b +:+ Py.nl) :: ls).

(** [sed '/pat/d'] for a pattern without regular-expression operators:
    the lines in which [pat] occurs are deleted. *)
Definition sed_delete (pat : string) (s : string) : string :=
  join_lines (filter (λ l, Py.contains pat l = false) (split_lines s)).

(** The first occurrence of [old] in a line is replaced. *)
Fixpoint replace_first (old new : string) (l : string) : string :=
  match l with
  | EmptyString => EmptyString
  | String c l' =>
      if String.prefix old l then new +:+ Py.drop (String.length old) l
      else String c (replace_first old new l')
  end.

(** [sed 's/old/new/'] (no [g] flag) for a pattern without
    regular-expression operators. *)
Definition sed_subst (old new : string) (s : string) : string :=
  join_lines (replace_first old new <$> split_lines s).

(** What [read()] returns for a file opened in text mode with the
    default [newline=None]: every line ending becomes a line feed. *)
Fixpoint universal_newlines (s : string) : string :=
  match s with
  | EmptyString => EmptyString
  | String c s' =>
      if Ascii.eqb c "013" then
        match s' with
        | String c' _ =>
            if Ascii.eqb c' "010" then universal_newlines s'
            else Py.nl +:+ universal_newlines s'
        | EmptyString => Py.nl
        end
      else String c (universal_newlines s')
  end.

Definition word_char (c : ascii) : bool :=
  let n := nat_of_ascii c in
  (48 <=? n)%nat && (n <=? 57)%nat
  || (65 <=? n)%nat && (n <=? 90)%nat
  || (97 <=? n)%nat && (n <=? 122)%nat
  || Py.contains (String c EmptyString) "/._-+,:@".

Fixpoint all_chars (p : ascii → bool) (s : string) : bool :=
  match s with
  | EmptyString => true
  | String c s' => p c && all_chars p s'
  end.

(** A path that [sh] reads as one literal word, and that no tool takes
    for an option. *)
Definition shell_word (s : string) : bool :=
  match s with
  | EmptyString => false
  | String c _ =>
      negb (Ascii.eqb c "-") && all_chars word_char s
  end.

End Text.

(** ** dpu.py *)

Module DPU.

(** The template up to its one [INPUT_SIZE], and after it. *)
Definition data_layer_head : string :=
  Py.nl +:+
  "layer {" +:+ Py.nl +:+
  "  name: " +:+ Py.dq +:+ "data" +:+ Py.dq +:+ Py.nl +:+
  "  type: " +:+ Py.dq +:+ "ImageData" +:+ Py.dq +:+ Py.nl +:+
  "  top: " +:+ Py.dq +:+ "data" +:+ Py.dq +:+ Py.nl +:+
  "  top: " +:+ Py.dq +:+ "label" +:+ Py.dq +:+ Py.nl +:+
  "  transform_param {" +:+ Py.nl +:+
  "    crop_size: ".

Definition data_layer_tail : string :=
  Py.nl +:+
  "    mean_value: 103.53" +:+ Py.nl +:+
  "    mean_value: 116.28" +:+ Py.nl +:+
  "    mean_value: 123.675" +:+ Py.nl +:+
  "    use_standard_std: true" +:+ Py.nl +:+
  "  }" +:+ Py.nl +:+
  "  image_data_param {" +:+ Py.nl +:+
  "    source: " +:+ Py.dq +:+ "/datasets/imgNet/imagenet1k_valid_source.txt"
    +:+ Py.dq +:+ Py.nl +:+
  "    root_folder: " +:+ Py.dq +:+ "/datasets/imgNet/imagenet1k_valid_dataset/"
    +:+ Py.dq +:+ Py.nl +:+
  "    batch_size: 50" +:+ Py.nl +:+
  "    new_height: 256" +:+ Py.nl +:+
  "    new_width: 256" +:+ Py.nl +:+
  "  }" +:+ Py.nl +:+
  "}" +:+ Py.nl.

Definition CAFFE_DATA_LAYER_STR : string :=
  data_layer_head +:+ "INPUT_SIZE" +:+ data_layer_tail.

(** *** The file system and the trace of external actions *)

Record fsys : Type := Fsys {
  files : gmap string string;
  dirs : gset string
}.

Definition fs_exists (p : string) (f : fsys) : bool :=
  bool_decide (is_Some (files f !! p)) || bool_decide (p ∈ dirs f).

Definition fs_write (p c : string) (f : fsys) : fsys :=
  Fsys (<[p := c]> (files f)) (dirs f).

Definition fs_mkdir (p : string) (f : fsys) : fsys :=
  Fsys (files f) ({[p]} ∪ dirs f).

(** *** The refusals of the operating system

    Whether a file can be opened, read or written depends on more than
    the files and the directories recorded here (the directories above
    it, the permissions, the space left).  The refusals are taken as
    they come, each with the error number and the file name that Python
    makes its exception of. *)
Inductive errno : Type :=
| ENOENT
| EACCES
| EISDIR
| ENOTDIR
| EEXIST
| EOTHER.

(** Opening a file and reading it; opening a file for writing, which
    makes or empties it; writing a text to the file just opened and
    closing it. *)
Inductive io_op : Type :=
| OpenRead (path : string)
| OpenWrite (path : string)
| WriteText (path : string).

(** The subclass of [OSError] that Python raises for an error number. *)
Definition os_exception (e : errno * string) : exn :=
  match e with
  | (ENOENT, path) => FileNotFoundError path
  | (EACCES, path) => PermissionError path
  | (EISDIR, path) => IsADirectoryError path
  | (ENOTDIR, path) => NotADirectoryError path
  | (EEXIST, path) => FileExistsError path
  | (EOTHER, path) => OSError path
  end.

Definition is_ascii (c : ascii) : bool := (nat_of_ascii c <? 128)%nat.

Section Run.

(** The final model and the configuration it is built from belong to
    the framework; the compiler only passes them on and formats them. *)
Context {Model NetCfg SearchSpace : Type}.

(** A value passed where Python does not fix the type. *)
Inductive pyval : Type :=
| PyStr (s : string)
| PyModel (m : Model).

Inductive event : Type :=
| EvInitSearchSpace (cfg : NetCfg)
| EvInitFinalModel (cfg : NetCfg) (device : string)
| EvRedirectStdout
| EvRestoreStdout
| EvTransNet (net : pyval) (input_size : Z) (name : pyval)
| EvMakedir (path : string)
| EvSavePrototxt (path : string)
| EvSaveCaffemodel (path : string)
| EvShell (cmd : string)
| EvWrite (path content : string)
| EvMakedirs (path : string)
| EvCopy (src dst : string).

Record world : Type := World {
  fs : fsys;
  trace : list event
}.

Definition M (A : Type) : Type := SE world A.

Definition emit (e : event) : M unit :=
  modify (λ w, World (fs w) (trace w ++ [e])).

Definition get_fs : M fsys := do w <- get; ret (fs w).

Definition put_fs (f : fsys) : M unit := modify (λ w, World f (trace w)).

Definition lift_fs {A} (c : fsys → outcome A * fsys) : M A :=
  λ w, let '(o, f) := c (fs w) in (o, World f (trace w)).

(** *** What the compiler calls and the sources do not contain

    [expect], [utils.makedir], [_init_component] and the log level are
    framework code outside these sources; [pytorch_to_caffe] and the
    programs run through the shell are third-party.  They are taken
    as they come: [None] from [sh] is a non-zero exit status.  So are
    the operating system, which can refuse to open a file ([os_error]),
    and the default encoding of text files, which is the locale's:
    [valid_text] tells which texts with bytes from 128 on it decodes. *)
Record externals : Type := Externals {
  model_str : Model → string;
  LEVEL : Z;
  expect : bool → string → (string → exn) → outcome unit;
  utils_makedir : string → fsys → outcome string * fsys;
  init_search_space : NetCfg → outcome SearchSpace;
  init_final_model : NetCfg → SearchSpace → string → outcome Model;
  trans_net : pyval → Z → pyval → outcome unit;
  converted_prototxt : pyval → pyval → string;
  converted_caffemodel : pyval → pyval → string;
  sh : string → fsys → option fsys;
  os_error : io_op → fsys → option (errno * string);
  valid_text : string → bool
}.

Variable X : externals.

(** ["{}".format(v)] *)
Definition format (v : pyval) : string :=
  match v with
  | PyStr s => s
  | PyModel m => model_str X m
  end.

Definition logging_DEBUG : Z := 10.

Record DPUCompiler : Type := Build_DPUCompiler {
  dcf : option string;
  mode : string;
  calib_iter : Z;
  _debug_output : bool;
  gpu : Z;
  input_size : option Z
}.

(** [__init__(self, dcf=None, mode="debug", calib_iter=0, gpu=0,
    input_size=None)], after [BaseHardwareCompiler.__init__], which is
    the framework's and is taken to return. *)
Definition __init__ (dcf : option string) (mode : string) (calib_iter gpu : Z)
    (input_size : option Z) : outcome DPUCompiler :=
  match expect X (bool_decide (dcf ≠ None)) "must specificy dcf file" ConfigException with
  | Raise e => Raise e
  | Ok _ =>
      match expect X (bool_decide (input_size ≠ None))
              "must specificy `input_size`" ConfigException with
      | Raise e => Raise e
      | Ok _ =>
          Ok (Build_DPUCompiler dcf mode calib_iter (LEVEL X <=? logging_DEBUG)%Z
                gpu input_size)
      end
  end.

(** [subprocess.check_call(cmd, shell=True)] for a command the model
    does not interpret: what it does to the files (its output included,
    where that is redirected to one) is [sh]'s. *)
Definition check_call (cmd : string) : M unit :=
  run emit (EvShell cmd);
  do f <- get_fs;
  match sh X cmd f with
  | Some f' => put_fs f'
  | None => raise (CalledProcessError cmd)
  end.

(** [torch.ones([1, 3, input_size, input_size])]; the result is
    determined by [input_size]. *)
Definition torch_ones_1_3 (input_size : option Z) : M Z :=
  match input_size with
  | None => raise (TypeError "ones(): argument 'size' must be tuple of ints")
  | Some n =>
      if (n <? 0)%Z
      then raise (RuntimeError "Trying to create tensor with negative dimension")
      else ret n
  end.

Definition makedir (path : string) : M string :=
  run emit (EvMakedir path);
  lift_fs (utils_makedir X path).

Definition _run_pytorch_to_caffe (model name : pyval) (output_dir : string)
    (input_size : option Z) (debug : bool) : M (string * string) :=
  do inputs <- torch_ones_1_3 input_size;
  run when (negb debug) (emit EvRedirectStdout);
  run emit (EvTransNet model inputs name);
  run lift_outcome (trans_net X model inputs name);
  run when (negb debug) (emit EvRestoreStdout);
  run makedir output_dir;
  let out_proto := output_dir +:+ "/" +:+ format name +:+ ".prototxt" in
  let out_caffemodel := output_dir +:+ "/" +:+ format name +:+ ".caffemodel" in
  run emit (EvSavePrototxt out_proto);
  do f <- get_fs;
  run put_fs (fs_write out_proto (converted_prototxt X model name) f);
  run emit (EvSaveCaffemodel out_caffemodel);
  do f <- get_fs;
  run put_fs (fs_write out_caffemodel (converted_caffemodel X model name) f);
  ret (out_proto, out_caffemodel).

Definition sed_command (prototxt input_prototxt : string) : string :=
  "cat " +:+ prototxt +:+ " | sed '/ceil_mode/d' | sed '/input_dim/d' |"
  +:+ " sed '/input:/d' | sed 's/" +:+ Py.dq +:+ "blob1" +:+ Py.dq +:+ "/"
  +:+ Py.dq +:+ "data" +:+ Py.dq +:+ "/' > " +:+ input_prototxt.

(** What the four [sed] processes of [sed_command] make of the text
    that [cat] feeds them. *)
Definition sed_pipeline (content : string) : string :=
  Text.sed_subst (Py.dq +:+ "blob1" +:+ Py.dq) (Py.dq +:+ "data" +:+ Py.dq)
    (Text.sed_delete "input:"
       (Text.sed_delete "input_dim"
          (Text.sed_delete "ceil_mode" content))).

(** A line that none of the three deletions removes. *)
Definition kept (l : string) : Prop :=
  Py.contains "ceil_mode" l = false
  ∧ Py.contains "input_dim" l = false
  ∧ Py.contains "input:" l = false.


(** The same with the first ["blob1"] of each line replaced. *)
Definition first_blob1_replaced (content : string) : string :=
  Text.join_lines
    (Text.replace_first (Py.dq +:+ "blob1" +:+ Py.dq) (Py.dq +:+ "data" +:+ Py.dq)
       <$> filter kept (Text.split_lines content)).

(** The two quoted names of the substitution. *)
Definition blob1 : string := Py.dq +:+ "blob1" +:+ Py.dq.
Definition data : string := Py.dq +:+ "data" +:+ Py.dq.

(** What [cat] writes into the pipe: nothing when it cannot read the
    file. *)
Definition cat (path : string) (f : fsys) : string :=
  match os_error X (OpenRead path) f with
  | Some _ => ""
  | None => default "" (files f !! path)
  end.

(** The first [check_call] of [_caffe_fix].  When both paths are plain
    words the shell opens the output file for the last [sed]: when it
    cannot, that [sed] is not run and the status of the pipeline, which
    is that of its last command, is not zero; otherwise the pipeline
    runs on what [cat] gives it, whether [cat] could read or not.  With
    any other path the command line means something else and is left
    to [sh]. *)
Definition run_sed (prototxt input_prototxt : string) : M unit :=
  let cmd := sed_command prototxt input_prototxt in
  if Text.shell_word prototxt && Text.shell_word input_prototxt then
    run emit (EvShell cmd);
    do f <- get_fs;
    match os_error X (OpenWrite input_prototxt) f with
    | Some _ => raise (CalledProcessError cmd)
    | None => put_fs (fs_write input_prototxt (sed_pipeline (cat prototxt f)) f)
    end
  else check_call cmd.

(** Whether [read()] can decode the bytes of a file: bytes below 128
    stand for themselves in every encoding that a locale gives; for
    other bytes it is the encoding's matter.  The text read is kept as
    its bytes, which is what [write] makes of it again. *)
Definition decodable (c : string) : bool :=
  Text.all_chars is_ascii c || valid_text X c.

(** [open(path, "r").read()] *)
Definition read_text (path : string) : M string :=
  do f <- get_fs;
  match os_error X (OpenRead path) f with
  | Some e => raise (os_exception e)
  | None =>
      match files f !! path with
      | Some c =>
          if decodable c then ret (Text.universal_newlines c)
          else raise UnicodeDecodeError
      | None => raise (FileNotFoundError path)
      end
  end.

(** [open(path, "w")]: the file is created or emptied. *)
Definition open_w (path : string) : M unit :=
  do f <- get_fs;
  match os_error X (OpenWrite path) f with
  | Some e => raise (os_exception e)
  | None => put_fs (fs_write path "" f)
  end.


(** [with open(path, "w") as w_f: w_f.write(content)] *)
Definition write_text (path content : string) : M unit :=
  run open_w path;
  run emit (EvWrite path content);
  do f <- get_fs;
  match os_error X (WriteText path) f with
  | Some e => raise (os_exception e)
  | None => put_fs (fs_write path content f)
  end.

(** [os.makedirs(path)] on a path that does not exist (parent
    directories are not tracked). *)
Definition makedirs (path : string) : M unit :=
  run emit (EvMakedirs path);
  do f <- get_fs;
  put_fs (fs_mkdir path f).

(** [shutil.copy(src, dst)] onto a file path. *)
Definition shutil_copy (src dst : string) : M unit :=
  run emit (EvCopy src dst);
  do f <- get_fs;
  match files f !! src with
  | Some c => put_fs (fs_write dst c f)
  | None => raise (FileNotFoundError src)
  end.

Definition deephi_fix_command (calib_iter gpu : Z)
    (input_prototxt caffemodel output_dir : string) : string :=
  "/home/foxfi/projects/caffe_dev/build/tools/deephi_fix fix -calib_iter "
  +:+ Py.str_int calib_iter +:+ " "
  +:+ "-gpu " +:+ Py.str_int gpu +:+ " -model " +:+ input_prototxt
  +:+ " -weights " +:+ caffemodel +:+ " -output_dir " +:+ output_dir.

Definition _caffe_fix (prototxt caffemodel output_dir : string) (gpu calib_iter : Z)
    (input_size : option Z) (debug : bool) : M (string * string) :=
  let input_prototxt := prototxt +:+ ".tofix.prototxt" in
  run run_sed prototxt input_prototxt;
  do r_f_read <- read_text input_prototxt;
  let content :=
    Py.replace "INPUT_SIZE" (Py.str_opt_int input_size) CAFFE_DATA_LAYER_STR
    +:+ r_f_read in
  run write_text input_prototxt content;
  do f <- get_fs;
  run when (negb (fs_exists output_dir f)) (makedirs output_dir);
  let log_file := Py.os_path_join output_dir "run_fix.log" in
  run open_w log_file;
  run check_call
        (deephi_fix_command calib_iter gpu input_prototxt caffemodel output_dir);
  let output_prototxt := Py.os_path_join output_dir "deploy.prototxt" in
  let mod_output_prototxt := Py.os_path_join output_dir "deploy_dnnc.prototxt" in
  let output_caffemodel := Py.os_path_join output_dir "deploy.caffemodel" in
  run shutil_copy output_prototxt mod_output_prototxt;
  run check_call ("python modify_for_dnnc.py " +:+ mod_output_prototxt);
  ret (mod_output_prototxt, output_caffemodel).

Definition dnnc_command (name prototxt caffemodel output_dir : string)
    (dcf : option string) (mode : string) (debug : bool) : string :=
  "dnnc --mode " +:+ mode +:+ " --cpu_arch arm64 --save_kernel --prototxt "
  +:+ prototxt +:+ " --caffemodel " +:+ caffemodel +:+ "  --output_dir "
  +:+ output_dir +:+ " --dcf " +:+ Py.str_opt_str dcf +:+ " "
  +:+ "--net_name " +:+ name +:+ (if debug then " --dump=all" else "").

Definition _run_dnnc (name prototxt caffemodel output_dir : string)
    (dcf : option string) (mode : string) (debug : bool) : M string :=
  do f <- get_fs;
  run when (negb (fs_exists output_dir f)) (makedirs output_dir);
  run check_call (dnnc_command name prototxt caffemodel output_dir dcf mode debug);
  let output_elf := Py.os_path_join output_dir ("dpu_" +:+ name +:+ ".elf") in
  ret output_elf.

Definition compile (self : DPUCompiler) (compile_name : string) (net_cfg : NetCfg)
    (result_dir : string) : M unit :=
  run emit (EvInitSearchSpace net_cfg);
  do search_space <- lift_outcome (init_search_space X net_cfg);
  let device := "cuda:" +:+ Py.str_int (gpu self) in
  run emit (EvInitFinalModel net_cfg device);
  do model <- lift_outcome (init_final_model X net_cfg search_space device);
  let input_size := input_size self in
  do ptc_out_dir <- makedir (Py.os_path_join result_dir "pytorch_to_caffe");
  do ' (proto, caffemodel) <-
    _run_pytorch_to_caffe (PyStr compile_name) (PyModel model) ptc_out_dir
      input_size (_debug_output self);
  let fix_out_dir := Py.os_path_join result_dir "fix" in
  do ' (proto, caffemodel) <-
    _caffe_fix proto caffemodel fix_out_dir (gpu self) (calib_iter self)
      input_size (_debug_output self);
  let dnnc_out_dir := Py.os_path_join result_dir ("dnnc_" +:+ mode self) in
  run _run_dnnc compile_name proto caffemodel dnnc_out_dir (dcf self) (mode self)
        (_debug_output self);
  ret tt.

(** A computation that only adds events at the end of the trace, and
    one that adds exactly [evs], however it ends. *)
Definition appends {A} (c : M A) : Prop :=
  ∀ w, ∃ evs, trace (c w).2 = trace w ++ evs.

Definition emits {A} (c : M A) (evs : list event) : Prop :=
  ∀ w o w', c w = (o, w') → trace w' = trace w ++ evs.

End Run.

Arguments sed_command : simpl never.
Arguments deephi_fix_command : simpl never.
Arguments dnnc_command : simpl never.

End DPU.

(** ** Exceptions without state *)

Definition obind {A B} (o : outcome A) (k : A → outcome B) : outcome B :=
  match o with
  | Ok a => k a
  | Raise e => Raise e
  end.

Notation "'try' x <- c1 ; c2" := (obind c1 (λ x, c2))
  (at level 10, x name, c1 at level 100, c2 at level 200).

(** [l[i]] for [0 <= i] *)
Definition subscript {A} (l : list A) (i : nat) : outcome A :=
  match l !! i with
  | Some x => Ok x
  | None => Raise IndexError
  end.

(** [[f(x) for x in l]] *)
Fixpoint for_list {A B} (f : A → outcome B) (l : list A) : outcome (list B) :=
  match l with
  | [] => Ok []
  | x :: l' =>
      try y <- f x;
      try ys <- for_list f l';
      Ok (y :: ys)
  end.

(** ** Floating-point numbers

    The numbers of the plugin are Python [float]s and the elements of
    torch tensors.  Their operations are a parameter; the only law used
    is that multiplying by [1.0] changes nothing.  A Python [int] that
    meets a [float] is converted by [float_of_int]. *)

Class FloatOps (F : Type) : Type := {
  float_of_int : Z → F;
  fadd : F → F → F;
  fsub : F → F → F;
  fmul : F → F → F;
  fdiv : F → F → F;
  fpow : F → F → F;
  fcos : F → F;
  fpi : F;
  fis_zero : F → bool;
  flt : F → F → bool;
  fgt : F → F → bool;
  int_of_float : F → outcome Z;
  fmul_1_l : ∀ x, fmul (float_of_int 1) x = x
}.

(** ** ssp_plugin.py *)

Module Plugin.

(** *** weights_init *)

(** A [torch.nn] module, by the classes that [weights_init] tells
    apart; [OtherModule] is any other [nn.Module], with its children. *)
Inductive module : Type :=
| Conv2d (bias : bool)
| Linear (bias : bool)
| BatchNorm2d
| ReLU
| OtherModule (children : list module).

Inductive pyobj : Type :=
| NNModule (m : module)
| NotAModule (class_name : string).

(** [m.modules()]: the module itself, then the modules of each child. *)
Fixpoint modules (m : module) : list module :=
  m :: match m with
       | OtherModule children =>
           (fix of_children (cs : list module) : list module :=
              match cs with
              | [] => []
              | c :: cs' => (modules c ++ of_children cs')%list
              end) children
       | _ => []
       end.

Inductive init_action : Type :=
| KaimingUniformWeight
| ConstantZeroBias
| NormalWeight
| ZeroBias.

(** What a call did: the initialisations in order, and how deep the
    calls below it were nested (0 when it made none). *)
Definition report : Type := list init_action * nat.

(** The loop [for m_ in ...: weights_init(m_, deepth)]; it ends at the
    first call that raises. [None] is a call that ran out of fuel. *)
Fixpoint for_each (call : module → option (outcome report)) (ms : list module)
    : option (outcome report) :=
  match ms with
  | [] => Some (Ok ([], O))
  | m_ :: ms' =>
      match call m_ with
      | None => None
      | Some (Raise e) => Some (Raise e)
      | Some (Ok (a1, d1)) =>
          match for_each call ms' with
          | None => None
          | Some (Raise e) => Some (Raise e)
          | Some (Ok (a2, d2)) => Some (Ok ((a1 ++ a2)%list, Nat.max (S d1) d2))
          end
      end
  end.

Definition default_deepth : Z := 0.
Definition default_max_depth : Z := 2.

(** [fuel] bounds the number of nested activations, this one included.
    The recursive call passes [deepth] only, so that its [max_depth] is
    the default. *)
Fixpoint weights_init (fuel : nat) (m : pyobj) (deepth max_depth : Z)
    : option (outcome report) :=
  match fuel with
  | O => None
  | S fuel' =>
      if (deepth >? max_depth)%Z then Some (Ok ([], O))
      else
        match m with
        | NNModule (Conv2d bias) =>
            Some (Ok (KaimingUniformWeight :: (if bias then [ConstantZeroBias] else []), O))
        | NNModule (Linear bias) =>
            Some (Ok (NormalWeight :: (if bias then [ZeroBias] else []), O))
        | NNModule BatchNorm2d => Some (Ok ([], O))
        | NNModule ReLU => Some (Ok ([], O))
        | NNModule (OtherModule _ as m') =>
            let deepth := (deepth + 1)%Z in
            for_each (λ m_, weights_init fuel' (NNModule m_) deepth default_max_depth)
              (modules m')
        | NotAModule class_name => Some (Raise (ValueError (class_name +:+ " is unk")))
        end
  end.

(** *** The blocks and their registration *)

Local Open Scope Z_scope.

(** [expansion]: [1] is [Ratio 1 1], [1./3] is [Ratio 1 3]. *)
Inductive ratio : Type := Ratio (num den : Z).

(** A block, by the constructor call that makes it. *)
Inductive block : Type :=
| MobileBlock (C_in C_out kernel_size stride : Z) (expansion : ratio)
| ResBlock (C_in C_out kernel_size stride : Z) (expansion : ratio)
| VGGBlock (C_in C_out : Z) (kernel_list : list Z) (stride : Z) (bn : bool).

Definition primitive : Type := Z → Z → Z → bool → block.

Definition VGGblock_0 : primitive := λ C_in C_out stride affine, VGGBlock C_in C_out [1] stride true.
Definition VGGblock_1 : primitive := λ C_in C_out stride affine, VGGBlock C_in C_out [3] stride true.
Definition VGGblock_2 : primitive := λ C_in C_out stride affine, VGGBlock C_in C_out [1; 3] stride true.
Definition VGGblock_3 : primitive := λ C_in C_out stride affine, VGGBlock C_in C_out [5] stride true.
Definition VGGblock_4 : primitive := λ C_in C_out stride affine, VGGBlock C_in C_out [1; 5] stride true.
Definition VGGblock_5 : primitive := λ C_in C_out stride affine, VGGBlock C_in C_out [3; 3] stride true.
Definition VGGblock_6 : primitive := λ C_in C_out stride affine, VGGBlock C_in C_out [1; 3; 3] stride true.
Definition VGGblock_7 : primitive := λ C_in C_out stride affine, VGGBlock C_in C_out [7] stride true.
Definition VGGblock_8 : primitive := λ C_in C_out stride affine, VGGBlock C_in C_out [1; 7] stride true.
Definition VGGblock_9 : primitive := λ C_in C_out stride affine, VGGBlock C_in C_out [3; 5] stride true.
Definition VGGblock_10 : primitive := λ C_in C_out stride affine, VGGBlock C_in C_out [1; 3; 5] stride true.
Definition VGGblock_11 : primitive := λ C_in C_out stride affine, VGGBlock C_in C_out [3; 3; 3] stride true.
Definition VGGblock_12 : primitive := λ C_in C_out stride affine, VGGBlock C_in C_out [1; 3; 3; 3] stride true.

Definition Resblock_0 : primitive := λ C_in C_out stride affine, ResBlock C_in C_out 3 stride (Ratio 1 1).
Definition Resblock_1 : primitive := λ C_in C_out stride affine, ResBlock C_in C_out 5 stride (Ratio 1 1).
Definition Resblock_2 : primitive := λ C_in C_out stride affine, ResBlock C_in C_out 7 stride (Ratio 1 1).
Definition Resblock_3 : primitive := λ C_in C_out stride affine, ResBlock C_in C_out 3 stride (Ratio 1 2).
Definition Resblock_4 : primitive := λ C_in C_out stride affine, ResBlock C_in C_out 5 stride (Ratio 1 2).
Definition Resblock_5 : primitive := λ C_in C_out stride affine, ResBlock C_in C_out 7 stride (Ratio 1 2).
Definition Resblock_6 : primitive := λ C_in C_out stride affine, ResBlock C_in C_out 3 stride (Ratio 1 4).
Definition Resblock_7 : primitive := λ C_in C_out stride affine, ResBlock C_in C_out 5 stride (Ratio 1 4).
Definition Resblock_8 : primitive := λ C_in C_out stride affine, ResBlock C_in C_out 7 stride (Ratio 1 4).

Definition Mobileblock_0 : primitive := λ C_in C_out stride affine, MobileBlock C_in C_out 3 stride (Ratio 1 1).
Definition Mobileblock_1 : primitive := λ C_in C_out stride affine, MobileBlock C_in C_out 5 stride (Ratio 1 1).
Definition Mobileblock_2 : primitive := λ C_in C_out stride affine, MobileBlock C_in C_out 7 stride (Ratio 1 1).
Definition Mobileblock_3 : primitive := λ C_in C_out stride affine, MobileBlock C_in C_out 3 stride (Ratio 1 3).
Definition Mobileblock_4 : primitive := λ C_in C_out stride affine, MobileBlock C_in C_out 5 stride (Ratio 1 3).
Definition Mobileblock_5 : primitive := λ C_in C_out stride affine, MobileBlock C_in C_out 7 stride (Ratio 1 3).
Definition Mobileblock_6 : primitive := λ C_in C_out stride affine, MobileBlock C_in C_out 3 stride (Ratio 1 6).
Definition Mobileblock_7 : primitive := λ C_in C_out stride affine, MobileBlock C_in C_out 5 stride (Ratio 1 6).
Definition Mobileblock_8 : primitive := λ C_in C_out stride affine, MobileBlock C_in C_out 7 stride (Ratio 1 6).

(** The calls [register_primitive(name, func)] that importing the
    module makes, in order. *)
Definition register_primitive_calls : list (string * primitive) :=
  [ ("Mobileblock_0", Mobileblock_0); ("Mobileblock_1", Mobileblock_1);
    ("Mobileblock_2", Mobileblock_2); ("Mobileblock_3", Mobileblock_3);
    ("Mobileblock_4", Mobileblock_4); ("Mobileblock_5", Mobileblock_5);
    ("Mobileblock_6", Mobileblock_6); ("Mobileblock_7", Mobileblock_7);
    ("Mobileblock_8", Mobileblock_8);
    ("Resblock_0", Resblock_0); ("Resblock_1", Resblock_1);
    ("Resblock_2", Resblock_2); ("Resblock_3", Resblock_3);
    ("Resblock_4", Resblock_4); ("Resblock_5", Resblock_5);
    ("Resblock_6", Resblock_6); ("Resblock_7", Resblock_7);
    ("Resblock_8", Resblock_8);
    ("VGGblock_0", VGGblock_0); ("VGGblock_1", VGGblock_1);
    ("VGGblock_2", VGGblock_2); ("VGGblock_3", VGGblock_3);
    ("VGGblock_4", VGGblock_4); ("VGGblock_5", VGGblock_5);
    ("VGGblock_6", VGGblock_6); ("VGGblock_7", VGGblock_7);
    ("VGGblock_8", VGGblock_8); ("VGGblock_9", VGGblock_9);
    ("VGGblock_10", VGGblock_10); ("VGGblock_11", VGGblock_11);
    ("VGGblock_12", VGGblock_12) ].

(** The component classes that the module defines. *)
Inductive component : Type :=
| WeightInitDiffSuperNet
| LatencyObjective.

Definition NAME (c : component) : string :=
  match c with
  | WeightInitDiffSuperNet => "fb_diff_supernet"
  | LatencyObjective => "latency"
  end.

Record AwnasPlugin : Type := {
  plugin_NAME : string;
  objective_list : list component;
  weights_manager_list : list component
}.

Definition FBNetPlugin : AwnasPlugin := {|
  plugin_NAME := "fbnet";
  objective_list := [LatencyObjective];
  weights_manager_list := [WeightInitDiffSuperNet]
|}.

End Plugin.

(** *** CosineDecayLR *)

Module CosineDecayLR.

Section Scheduler.

Context {F : Type} `{FloatOps F}.

Local Open Scope Z_scope.

(** A Python number: [t_mul] is the [int] 2 by default and can be
    given as a [float]. *)
Inductive number : Type :=
| Int (n : Z)
| Float (x : F).

Record t : Type := Build {
  T_max : Z;
  alpha : F;
  t_mul : number;
  lr_mul : F;
  warmup_step : Z;
  last_restart_step : Z;
  flag : bool;
  last_epoch : Z;
  base_lrs : list F;
  min_lrs : list F;
  rise_lrs : list F
}.

Definition set_T_max (v : Z) (s : t) : t :=
  Build v (alpha s) (t_mul s) (lr_mul s) (warmup_step s) (last_restart_step s)
    (flag s) (last_epoch s) (base_lrs s) (min_lrs s) (rise_lrs s).

Definition set_last_restart_step (v : Z) (s : t) : t :=
  Build (T_max s) (alpha s) (t_mul s) (lr_mul s) (warmup_step s) v
    (flag s) (last_epoch s) (base_lrs s) (min_lrs s) (rise_lrs s).

Definition set_flag (v : bool) (s : t) : t :=
  Build (T_max s) (alpha s) (t_mul s) (lr_mul s) (warmup_step s) (last_restart_step s)
    v (last_epoch s) (base_lrs s) (min_lrs s) (rise_lrs s).

Definition set_base_lrs (v : list F) (s : t) : t :=
  Build (T_max s) (alpha s) (t_mul s) (lr_mul s) (warmup_step s) (last_restart_step s)
    (flag s) (last_epoch s) v (min_lrs s) (rise_lrs s).

Definition set_min_lrs (v : list F) (s : t) : t :=
  Build (T_max s) (alpha s) (t_mul s) (lr_mul s) (warmup_step s) (last_restart_step s)
    (flag s) (last_epoch s) (base_lrs s) v (rise_lrs s).

Definition set_rise_lrs (v : list F) (s : t) : t :=
  Build (T_max s) (alpha s) (t_mul s) (lr_mul s) (warmup_step s) (last_restart_step s)
    (flag s) (last_epoch s) (base_lrs s) (min_lrs s) v.

(** [x / n] for a [float] [x] and an [int] [n] *)
Definition div_by_int (x : F) (n : Z) : outcome F :=
  if n =? 0 then Raise ZeroDivisionError else Ok (fdiv x (float_of_int n)).

(** [int(n * m)] for an [int] [n] *)
Definition int_of_product (n : Z) (m : number) : outcome Z :=
  match m with
  | Int k => Ok (n * k)
  | Float x => int_of_float (fmul (float_of_int n) x)
  end.

(** [1.0 * (b - m) / self.warmup_step] *)
Definition rise_lr (warmup_step : Z) (bm : F * F) : outcome F :=
  div_by_int (fmul (float_of_int 1) (fsub (fst bm) (snd bm))) warmup_step.

(** [self.alpha + (base_lr - self.alpha) *
     (1 + math.cos(math.pi * self.last_epoch / self.T_max)) / 2] *)
Definition cosine_lr (self : t) (base_lr : F) : outcome F :=
  try phase <- div_by_int (fmul fpi (float_of_int (last_epoch self))) (T_max self);
  Ok (fadd (alpha self)
        (fdiv (fmul (fsub base_lr (alpha self))
                 (fadd (float_of_int 1) (fcos phase)))
           (float_of_int 2))).

(** [min_lr + rise_lr * T_cur] *)
Definition rising_lr (T_cur : Z) (lrs : F * F * F) : F :=
  let '(base_lr, min_lr, rise_lr) := lrs in
  fadd min_lr (fmul rise_lr (float_of_int T_cur)).

Definition zip3 (a b c : list F) : list (F * F * F) := zip (zip a b) c.

(** The branch of the warm-up: the rising rates, and the end of the
    warm-up when [T_cur] has reached [warmup_step]. *)
Definition warmup_lrs (T_cur : Z) : SE t (list F) :=
  do self <- get;
  let lrs := rising_lr T_cur <$> zip3 (base_lrs self) (min_lrs self) (rise_lrs self) in
  run when (T_cur =? warmup_step self)
        (run modify (set_last_restart_step (last_epoch self));
         modify (set_flag true));
  ret lrs.

(** The block under [if T_cur == self.T_max]. *)
Definition restart : SE t unit :=
  do self <- get;
  run modify (set_last_restart_step (last_epoch self));
  run modify (set_min_lrs ((λ b_lr, fmul b_lr (alpha self)) <$> base_lrs self));
  run modify (set_base_lrs ((λ b_lr, fmul b_lr (lr_mul self)) <$> base_lrs self));
  do self <- get;
  do rise_lrs <- lift_outcome
      (for_list (rise_lr (warmup_step self)) (zip (base_lrs self) (min_lrs self)));
  run modify (set_rise_lrs rise_lrs);
  do T_max' <- lift_outcome (int_of_product (T_max self) (t_mul self));
  run modify (set_T_max T_max');
  modify (set_flag false).

(** The local list that the source calls [base_lrs] is [lrs] here. *)
Definition get_lr : SE t (list F) :=
  do self <- get;
  let T_cur := last_epoch self - last_restart_step self in
  run (if 0 <=? T_cur then ret tt else raise AssertionError);
  do lrs <-
    (if (T_cur <=? warmup_step self) && negb (flag self) then warmup_lrs T_cur
     else lift_outcome (for_list (cosine_lr self) (base_lrs self)));
  do self <- get;
  run when (T_cur =? T_max self) restart;
  ret lrs.

(** [[1.0 * (b - m) / self.warmup_step
      for (b, m) in zip(self.base_lrs, self.min_lrs)]] *)
Definition rise_lrs_of (self : t) : outcome (list F) :=
  for_list (rise_lr (warmup_step self)) (zip (base_lrs self) (min_lrs self)).

(** [__init__].  [_LRScheduler.__init__] is torch's: it takes
    [base_lrs] from the [initial_lr] of the parameter groups of the
    optimizer (here [initial_lrs]) and ends with a [step()], which
    moves [last_epoch] one on and calls [get_lr()] (the rates go to the
    optimizer).  At that call [flag] is set and [last_restart_step] is
    0, while [min_lrs] and [rise_lrs] do not exist yet: the call does
    not read them, and they stand as empty lists until the restart in
    [get_lr] or the last two assignments of [__init__] make them. *)
Definition __init__ (initial_lrs : list F) (last_epoch : Z) (T_max : Z) (alpha : F)
    (t_mul : number) (lr_mul : F) (warmup_step : Z) : outcome t :=
  let self := Build T_max alpha t_mul lr_mul warmup_step 0 true (last_epoch + 1)
                initial_lrs [] [] in
  match get_lr self with
  | (Raise e, _) => Raise e
  | (Ok _, self) =>
      let self := set_min_lrs ((λ b_lr, fmul b_lr alpha) <$> base_lrs self) self in
      try rise_lrs <- rise_lrs_of self;
      Ok (set_rise_lrs rise_lrs self)
  end.

(** The three lists of rates have one element for each parameter
    group. *)
Definition same_groups (s : t) : Prop :=
  length (min_lrs s) = length (base_lrs s) ∧ length (rise_lrs s) = length (base_lrs s).


(** The calls of [get_lr] that take the branch of the cosine: the flag
    is set, or the warm-up is over. *)
Definition in_cosine_branch (s : t) : Prop :=
  flag s = true ∨ warmup_step s < last_epoch s - last_restart_step s.

End Scheduler.

End CosineDecayLR.

(** *** LatencyObjective *)

Module LatencyObjective.

Section Objective.

Context {F : Type} `{FloatOps F}.

(** The network outputs and the targets are the framework's; the
    objective hands them to [accuracy] (the top-k accuracies, in per
    cent) and to [nn.CrossEntropyLoss()]. *)
Context {Outputs Targets : Type}.
Variable accuracy : Outputs → Targets → list F.
Variable CrossEntropyLoss : Outputs → Targets → F.

Record search_space : Type := {
  cell_shared_primitives : list (list string);
  cell_layout : list nat
}.

(** An entry of [cand_net.genotypes]: the edges [(primitive, from, to)]
    of a cell in the first half, the concat nodes in the second. *)
Inductive genotype : Type :=
| Cell (edges : list (string * nat * nat))
| Concat (nodes : list nat).

(** [arch[0]], a tensor of one or of two dimensions. *)
Inductive tensor : Type :=
| T1 (v : list F)
| T2 (rows : list (list F)).

Record cand_net : Type := {
  genotypes : list genotype;
  (** each [arch] by its slices [arch[0]], [arch[1]], ... *)
  arch : list (list tensor)
}.

Record t : Type := Build {
  search_space_ : search_space;
  alpha : F;
  beta : F;
  lamb : option F;
  latency_lut : list (list F);
  _min_lat : F;
  _max_lat : F
}.

(** [sum(l)]: the built-in starts from the [int] 0. *)
Definition py_sum (l : list F) : F := fold_left fadd l (float_of_int 0).

(** [min(l)] and [max(l)]: the first of the smallest (largest). *)
Definition py_min (l : list F) : outcome F :=
  match l with
  | [] => Raise (ValueError "min() arg is an empty sequence")
  | x :: l' => Ok (fold_left (λ m y, if flt y m then y else m) l' x)
  end.

Definition py_max (l : list F) : outcome F :=
  match l with
  | [] => Raise (ValueError "max() arg is an empty sequence")
  | x :: l' => Ok (fold_left (λ m y, if fgt y m then y else m) l' x)
  end.

(** [__init__], from the rows of numbers read in [latency_file]. *)
Definition __init__ (ss : search_space) (alpha beta : F) (lamb : option F)
    (latency_lut : list (list F)) : outcome t :=
  try mins <- for_list py_min latency_lut;
  try maxs <- for_list py_max latency_lut;
  Ok (Build ss alpha beta lamb latency_lut (py_sum mins) (py_sum maxs)).

(** [x / y] for [float]s *)
Definition div_float (x y : F) : outcome F :=
  if fis_zero y then Raise ZeroDivisionError else Ok (fdiv x y).

(** [prims.index(prim)] *)
Fixpoint index (prim : string) (prims : list string) : outcome nat :=
  match prims with
  | [] => Raise (ValueError (Py.repr prim +:+ " is not in list"))
  | p :: prims' => if String.eqb p prim then Ok O else try i <- index prim prims'; Ok (S i)
  end.

(** [geno[0][0]] *)
Definition geno_0_0 (geno : genotype) : outcome string :=
  match geno with
  | Cell [] => Raise IndexError
  | Cell ((prim, _, _) :: _) => Ok prim
  | Concat [] => Raise IndexError
  | Concat (_ :: _) => Raise (TypeError "'int' object is not subscriptable")
  end.

(** The body of the loop over [enumerate(prim_types)]: the number
    that is added to [latency_penalty]. *)
Definition prim_latency (self : t) (i_layer : nat) (geno : genotype) : outcome F :=
  let ss := search_space_ self in
  try prim <- geno_0_0 geno;
  try cell_group <- subscript (cell_layout ss) i_layer;
  try prims <- subscript (cell_shared_primitives ss) cell_group;
  try row <- subscript (latency_lut self) i_layer;
  try idx <- index prim prims;
  subscript row idx.

Fixpoint penalty_loop (self : t) (i_layer : nat) (prim_types : list genotype)
    (latency_penalty : F) : outcome F :=
  match prim_types with
  | [] => Ok latency_penalty
  | geno :: rest =>
      try x <- prim_latency self i_layer geno;
      penalty_loop self (S i_layer) rest (fadd latency_penalty x)
  end.

Definition get_reward (self : t) (outputs : Outputs) (targets : Targets)
    (cand_net : cand_net) : outcome F :=
  try top1 <- subscript (accuracy outputs targets) 0;
  let acc := fdiv top1 (float_of_int 100) in
  match lamb self with
  | Some lamb =>
      let num_cells := (length (genotypes cand_net) / 2)%nat in
      let prim_types := take num_cells (genotypes cand_net) in
      try latency_penalty <- penalty_loop self 0 prim_types (float_of_int 0);
      try a <- div_float (float_of_int 1) latency_penalty;
      try b <- div_float (float_of_int 1) (_max_lat self);
      Ok (fadd acc (fmul lamb (fsub a b)))
  | None => Ok acc
  end.

(** [t.sum()], adding from the first element on. *)
Definition tensor_sum (l : list F) : F := fold_left fadd l (float_of_int 0).

(** [v * row] for a vector [v] and the tensor of a row of the table,
    with torch's broadcasting of a dimension of size one. *)
Definition broadcast_mul (v row : list F) : outcome (list F) :=
  if (length v =? length row)%nat then Ok (zip_with fmul v row)
  else match v, row with
       | [x], _ => Ok (fmul x <$> row)
       | _, [y] => Ok ((λ x, fmul x y) <$> v)
       | _, _ => Raise (RuntimeError "The size of tensor a must match the size of tensor b")
       end.

(** The body of the loop over [enumerate(cand_net.arch)]: the tensor
    that is added to [latency_loss]. *)
Definition arch_latency (self : t) (i_layer : nat) (arch : list tensor) : outcome F :=
  try arch_0 <- subscript arch 0;
  try row <- subscript (latency_lut self) i_layer;
  match arch_0 with
  | T1 v =>
      try prod <- broadcast_mul v row;
      Ok (tensor_sum prod)
  | T2 rows =>
      try prod <- for_list (λ v, broadcast_mul v row) rows;
      Ok (fdiv (tensor_sum (concat prod)) (float_of_int (Z.of_nat (length rows))))
  end.

(** [latency_loss] is the [float] [0.] until a tensor is added. *)
Inductive accumulator : Type :=
| PyFloat (x : F)
| Tensor (x : F).

Definition add_tensor (acc : accumulator) (x : F) : accumulator :=
  match acc with
  | PyFloat a => Tensor (fadd a x)
  | Tensor a => Tensor (fadd a x)
  end.

Fixpoint loss_loop (self : t) (i_layer : nat) (archs : list (list tensor))
    (latency_loss : accumulator) : outcome accumulator :=
  match archs with
  | [] => Ok latency_loss
  | arch :: rest =>
      try latency <- arch_latency self i_layer arch;
      loss_loop self (S i_layer) rest (add_tensor latency_loss latency)
  end.

(** [x.pow(beta)] *)
Definition pow (x : accumulator) (beta : F) : outcome F :=
  match x with
  | PyFloat _ => Raise (AttributeError "'float' object has no attribute 'pow'")
  | Tensor a => Ok (fpow a beta)
  end.

Definition get_loss (self : t) (outputs : Outputs) (targets : Targets)
    (cand_net : cand_net)
    (add_controller_regularization add_evaluator_regularization : bool)
    : outcome F :=
  let loss := CrossEntropyLoss outputs targets in
  if add_controller_regularization then
    try latency_loss <- loss_loop self 0 (arch cand_net) (PyFloat (float_of_int 0));
    try p <- pow latency_loss (beta self);
    Ok (fmul (fmul loss (alpha self)) p)
  else Ok loss.

(** *** get_perfs *)

Definition perf_names : list string := ["acc"; "mean_latency"].

(** The body of the loop over [enumerate(cand_net.arch)] in [get_perfs]:
    [.item()] makes the sum a Python [float], so that dividing it by a
    [shape[0]] of 0 raises. *)
Definition perf_arch_latency (self : t) (i_layer : nat) (arch : list tensor) : outcome F :=
  try arch_0 <- subscript arch 0;
  try row <- subscript (latency_lut self) i_layer;
  match arch_0 with
  | T1 v =>
      try prod <- broadcast_mul v row;
      Ok (tensor_sum prod)
  | T2 rows =>
      try prod <- for_list (λ v, broadcast_mul v row) rows;
      let latency := tensor_sum (concat prod) in
      if (length rows =? 0)%nat then Raise ZeroDivisionError
      else Ok (fdiv latency (float_of_int (Z.of_nat (length rows))))
  end.

Fixpoint perfs_loop (self : t) (i_layer : nat) (archs : list (list tensor))
    (total_latency : F) : outcome F :=
  match archs with
  | [] => Ok total_latency
  | arch :: rest =>
      try latency <- perf_arch_latency self i_layer arch;
      perfs_loop self (S i_layer) rest (fadd total_latency latency)
  end.

(** [rollout_type] is [cand_net.super_net.rollout_type]. *)
Definition get_perfs (self : t) (outputs : Outputs) (targets : Targets)
    (cand_net : cand_net) (rollout_type : string) : outcome (list F) :=
  try top1 <- subscript (accuracy outputs targets) 0;
  let acc := fdiv top1 (float_of_int 100) in
  if String.eqb rollout_type "discrete" then
    let num_cells := (length (genotypes cand_net) / 2)%nat in
    let prim_types := take num_cells (genotypes cand_net) in
    try total_latency <- penalty_loop self 0 prim_types (float_of_int 0);
    Ok [acc; total_latency]
  else
    try total_latency <- perfs_loop self 0 (arch cand_net) (float_of_int 0);
    Ok [acc; total_latency].

(** *** The quantities as the sentences on the objective name them *)





(** The inner product of a vector with a row of the table. *)
Definition inner_product (v row : list F) : F := tensor_sum (zip_with fmul v row).

(** The inner product of [arch[0]] with a row: over all the entries of
    a tensor of two dimensions, and then divided by [shape[0]]. *)
Definition stated_latency (arch_0 : tensor) (row : list F) : F :=
  match arch_0 with
  | T1 v => inner_product v row
  | T2 rows =>
      fdiv (tensor_sum (concat ((λ v, zip_with fmul v row) <$> rows)))
        (float_of_int (Z.of_nat (length rows)))
  end.

(** [arch[0]] has as many columns as the row has entries. *)
Definition conforms (arch_0 : tensor) (row : list F) : Prop :=
  match arch_0 with
  | T1 v => length v = length row
  | T2 rows => Forall (λ v, length v = length row) rows
  end.


End Objective.

End LatencyObjective.

(** *** WeightInitDiffSuperNet *)

Module SuperNet.

Import Plugin.

(** What [fn] did on the modules visited so far. *)
Definition sequence (r1 r2 : option (outcome (list init_action)))
    : option (outcome (list init_action)) :=
  match r1 with
  | None => None
  | Some (Raise e) => Some (Raise e)
  | Some (Ok a1) =>
      match r2 with
      | None => None
      | Some (Raise e) => Some (Raise e)
      | Some (Ok a2) => Some (Ok (a1 ++ a2))
      end
  end.

(** [m.apply(fn)] of [torch.nn.Module]: [fn] on the modules below each
    child and on the child, child after child, then on [m] itself. *)
Fixpoint apply (fn : module → option (outcome (list init_action))) (m : module)
    : option (outcome (list init_action)) :=
  sequence
    match m with
    | OtherModule children =>
        (fix on_children (cs : list module) : option (outcome (list init_action)) :=
           match cs with
           | [] => Some (Ok [])
           | c :: cs' => sequence (apply fn c) (on_children cs')
           end) children
    | _ => Some (Ok [])
    end
    (fn m).

(** [fn(module)] for [fn = weights_init]: the other two arguments are
    the defaults. *)
Definition weights_init_of (fuel : nat) (m : module) : option (outcome (list init_action)) :=
  match weights_init fuel (NNModule m) default_deepth default_max_depth with
  | None => None
  | Some (Raise e) => Some (Raise e)
  | Some (Ok (actions, _)) => Some (Ok actions)
  end.

(** [self.apply(weights_init)] at the end of [__init__], on the net
    that [DiffSuperNet.__init__] (the framework's) has built. *)
Definition __init__ (fuel : nat) (net : module) : option (outcome (list init_action)) :=
  apply (weights_init_of fuel) net.

Definition is_conv (m : module) : bool :=
  match m with
  | Conv2d _ => true
  | _ => false
  end.

Definition is_linear (m : module) : bool :=
  match m with
  | Linear _ => true
  | _ => false
  end.

Definition is_kaiming (a : init_action) : bool :=
  match a with
  | KaimingUniformWeight => true
  | _ => false
  end.

Definition is_normal (a : init_action) : bool :=
  match a with
  | NormalWeight => true
  | _ => false
  end.

(** How many elements of a list pass a test. *)
Definition count {A} (p : A → bool) (l : list A) : nat := length (List.filter p l).

(** What [weights_init] does within the default depth tells on which
    module it was called: [hit] picks a class and [p] its
    initialisation. *)
Definition marks (hit : module → bool) (p : init_action → bool) : Prop :=
  ∀ fuel deepth a d m,
    (deepth ≤ default_max_depth)%Z →
    weights_init fuel (NNModule m) deepth default_max_depth = Some (Ok (a, d)) →
    hit m = true → (1 ≤ count p a)%nat.

End SuperNet.

(** *** MobileBlock, ResBlock and VGGBlock *)

Module Blocks.

Section Blocks.

Context {F : Type} `{FloatOps F}.

Local Open Scope Z_scope.

(** The layers of the [nn.Sequential]s, by their constructor calls;
    what [torch] makes of the arguments is not part of this. *)
Inductive layer : Type :=
| Conv2d (C_in C_out kernel_size stride padding : Z) (bias : bool)
| BatchNorm2d (num_features : Z)
| ReLU
| MaxPool2d (kernel_size stride : Z).

(** The chain of [if kernel_size == ...] of [MobileBlock] and
    [ResBlock]. *)
Definition padding_of (kernel_size : Z) : outcome Z :=
  if kernel_size =? 1 then Ok 0
  else if kernel_size =? 3 then Ok 1
  else if kernel_size =? 5 then Ok 2
  else if kernel_size =? 7 then Ok 3
  else Raise (ValueError ("Not supported kernel_size " +:+ Py.str_int kernel_size)).

(** [inner_dim = int(C_in * expansion)], and 1 in the place of 0. *)
Definition inner_dim_of (C_in : Z) (expansion : CosineDecayLR.number) : outcome Z :=
  try inner_dim <- CosineDecayLR.int_of_product C_in expansion;
  Ok (if inner_dim =? 0 then 1 else inner_dim).

(** The three convolutions with their normalisations, which [MobileBlock]
    has as [op] and [ResBlock] as [opa]. *)
Definition bottleneck (C_in C_out inner_dim kernel_size stride padding : Z)
    (bias_flag : bool) : list layer :=
  [ Conv2d C_in inner_dim 1 1 0 bias_flag;
    BatchNorm2d inner_dim;
    ReLU;
    Conv2d inner_dim inner_dim kernel_size stride padding bias_flag;
    BatchNorm2d inner_dim;
    ReLU;
    Conv2d inner_dim C_out 1 1 0 bias_flag;
    BatchNorm2d C_out ].

Record MobileBlock : Type := {
  op : list layer;
  res_flag : bool
}.

Definition MobileBlock__init__ (C_in C_out kernel_size stride : Z)
    (expansion : CosineDecayLR.number) (bn : bool) : outcome MobileBlock :=
  let bias_flag := negb bn in
  try padding <- padding_of kernel_size;
  try inner_dim <- inner_dim_of C_in expansion;
  Ok {| op := bottleneck C_in C_out inner_dim kernel_size stride padding bias_flag;
        res_flag := (C_in =? C_out) && (stride =? 1) |}.

Record ResBlock : Type := {
  opa : list layer;
  opb : list layer
}.

Definition ResBlock__init__ (C_in C_out kernel_size stride : Z)
    (expansion : CosineDecayLR.number) (bn : bool) : outcome ResBlock :=
  let bias_flag := negb bn in
  try padding <- padding_of kernel_size;
  try inner_dim <- inner_dim_of C_in expansion;
  Ok {| opa := bottleneck C_in C_out inner_dim kernel_size stride padding bias_flag;
        opb := [ Conv2d C_in C_in kernel_size stride padding bias_flag;
                 BatchNorm2d C_in;
                 ReLU;
                 Conv2d C_in C_out 1 1 0 bias_flag;
                 BatchNorm2d C_out ] |}.

(** [int((kernel_size - 1) / 2)] *)
Definition vgg_padding (kernel_size : Z) : outcome Z :=
  int_of_float (fdiv (float_of_int (kernel_size - 1)) (float_of_int 2)).

(** The loop over [kernel_list], which goes on with [C_in = C_out]. *)
Fixpoint vgg_layers (C_in C_out : Z) (kernel_list : list Z) (bias_flag : bool)
    : outcome (list layer) :=
  match kernel_list with
  | [] => Ok []
  | kernel_size :: rest =>
      try padding <- vgg_padding kernel_size;
      try tmp_block <- vgg_layers C_out C_out rest bias_flag;
      Ok (Conv2d C_in C_out kernel_size 1 padding bias_flag
          :: BatchNorm2d C_out :: ReLU :: tmp_block)
  end.

Definition VGGBlock__init__ (C_in C_out : Z) (kernel_list : list Z) (stride : Z)
    (bn : bool) : outcome (list layer) :=
  let bias_flag := negb bn in
  try tmp_block <- vgg_layers C_in C_out kernel_list bias_flag;
  Ok (if stride =? 2 then tmp_block ++ [MaxPool2d 2 stride] else tmp_block).

(** [expansion] as the primitives write it: the [int] 1, or [1./den]. *)
Definition number_of_ratio (r : Plugin.ratio) : CosineDecayLR.number :=
  match r with
  | Plugin.Ratio num den =>
      if den =? 1 then CosineDecayLR.Int num
      else CosineDecayLR.Float (fdiv (float_of_int num) (float_of_int den))
  end.

(** The [nn.Sequential]s that a constructor call makes. *)
Definition construct (b : Plugin.block) : outcome (list (list layer)) :=
  match b with
  | Plugin.MobileBlock C_in C_out kernel_size stride expansion =>
      try m <- MobileBlock__init__ C_in C_out kernel_size stride
                 (number_of_ratio expansion) true;
      Ok [op m]
  | Plugin.ResBlock C_in C_out kernel_size stride expansion =>
      try r <- ResBlock__init__ C_in C_out kernel_size stride
                 (number_of_ratio expansion) true;
      Ok [opa r; opb r]
  | Plugin.VGGBlock C_in C_out kernel_list stride bn =>
      try o <- VGGBlock__init__ C_in C_out kernel_list stride bn;
      Ok [o]
  end.

(** The number of channels that a chain of layers makes of [c] channels,
    when each convolution and normalisation is made for the number of
    channels that reaches it. *)
Fixpoint channels_through (c : Z) (layers : list layer) : option Z :=
  match layers with
  | [] => Some c
  | Conv2d C_in C_out _ _ _ _ :: rest =>
      if c =? C_in then channels_through C_out rest else None
  | BatchNorm2d num_features :: rest =>
      if c =? num_features then channels_through c rest else None
  | ReLU :: rest => channels_through c rest
  | MaxPool2d _ _ :: rest => channels_through c rest
  end.

(** A layer that can change the height and the width: a convolution or
    a pooling with a stride other than 1. *)
Definition strided (l : layer) : bool :=
  match l with
  | Conv2d _ _ _ stride _ _ => negb (stride =? 1)
  | MaxPool2d _ stride => negb (stride =? 1)
  | _ => false
  end.

(** The convolutions of a chain that are not pointwise (kernel 1,
    stride 1, no padding) and its poolings, by kernel, stride and
    padding: the layers that decide the height and the width of the
    output. *)
Fixpoint spatial (layers : list layer) : list (Z * Z * Z) :=
  match layers with
  | [] => []
  | Conv2d _ _ kernel_size stride padding _ :: rest =>
      if (kernel_size =? 1) && (stride =? 1) && (padding =? 0) then spatial rest
      else (kernel_size, stride, padding) :: spatial rest
  | MaxPool2d kernel_size stride :: rest => (kernel_size, stride, 0) :: spatial rest
  | _ :: rest => spatial rest
  end.

(** A convolution with a bias. *)
Definition conv_bias (l : layer) : bool :=
  match l with
  | Conv2d _ _ _ _ _ bias => bias
  | _ => false
  end.

Definition convolution (l : layer) : bool :=
  match l with
  | Conv2d _ _ _ _ _ _ => true
  | _ => false
  end.

Definition pooling (l : layer) : bool :=
  match l with
  | MaxPool2d _ _ => true
  | _ => false
  end.

(** The kernel sizes of the convolutions of a chain, in their order. *)
Fixpoint kernel_sizes (layers : list layer) : list Z :=
  match layers with
  | [] => []
  | Conv2d _ _ kernel_size _ _ _ :: rest => kernel_size :: kernel_sizes rest
  | _ :: rest => kernel_sizes rest
  end.

(** The [float]s that a constructor call hands to [int]:
    [C_in * expansion] when [expansion] is a [float], and
    [(kernel_size - 1) / 2] for each kernel of a [VGGBlock]. *)
Definition converted (b : Plugin.block) : list F :=
  match b with
  | Plugin.MobileBlock C_in _ _ _ expansion
  | Plugin.ResBlock C_in _ _ _ expansion =>
      match number_of_ratio expansion with
      | CosineDecayLR.Int _ => []
      | CosineDecayLR.Float x => [fmul (float_of_int C_in) x]
      end
  | Plugin.VGGBlock _ _ kernel_list _ _ =>
      (λ kernel_size, fdiv (float_of_int (kernel_size - 1)) (float_of_int 2))
        <$> kernel_list
  end.

(** Sequences that take [C_in] channels to [C_out] and have no bias in
    a convolution. *)
Definition well_formed (C_in C_out : Z) (seqs : list (list layer)) : Prop :=
  Forall (λ layers, channels_through C_in layers = Some C_out
                    ∧ existsb conv_bias layers = false) seqs.

End Blocks.

End Blocks.

(** ** Concrete instances, on which the definitions run *)

Module Examples.

Local Open Scope Z_scope.

(** Integer arithmetic in the place of floating point: every operation
    is exact, division truncates, [fcos] is the series cut after the
    square. *)
Definition Z_ops : FloatOps Z := {|
  float_of_int := λ n, n;
  fadd := Z.add;
  fsub := Z.sub;
  fmul := Z.mul;
  fdiv := Z.div;
  fpow := Z.pow;
  fcos := λ x, 1 - x * x / 2;
  fpi := 3;
  fis_zero := λ x, x =? 0;
  flt := Z.ltb;
  fgt := Z.gtb;
  int_of_float := Ok;
  fmul_1_l := Z.mul_1_l
|}.

Definition Qmult_1_l (x : Q) : Qmult (inject_Z 1) x = x :=
  match x with
  | Qmake Z0 d => eq_refl
  | Qmake (Zpos n) d => eq_refl
  | Qmake (Zneg n) d => eq_refl
  end.

(** [int(x)]: the whole part, towards zero. *)
Definition Qtruncate (x : Q) : Z := Z.quot (Qnum x) (Zpos (Qden x)).

(** Exact arithmetic on fractions in the place of floating point:
    nothing is rounded, [int] cuts off towards zero as Python's does,
    [fpow] takes the whole part of the exponent, [fcos] is the series
    cut after the square. *)
Definition Q_ops : FloatOps Q := {|
  float_of_int := inject_Z;
  fadd := Qplus;
  fsub := Qminus;
  fmul := Qmult;
  fdiv := Qdiv;
  fpow := λ x y, Qpower x (Qtruncate y);
  fcos := λ x, Qminus (inject_Z 1) (Qdiv (Qmult x x) (inject_Z 2));
  fpi := Qmake 355 113;
  fis_zero := λ x, Qnum x =? 0;
  flt := λ x y, negb (Qle_bool y x);
  fgt := λ x y, negb (Qle_bool x y);
  int_of_float := λ x, Ok (Qtruncate x);
  fmul_1_l := Qmult_1_l
|}.

(** A converter output in which one line names ["blob1"] twice. *)
Definition two_blobs : string :=
  "input: " +:+ Py.dq +:+ "blob1" +:+ Py.dq +:+ Py.nl +:+
  "layer { bottom: " +:+ Py.dq +:+ "blob1" +:+ Py.dq +:+
  " top: " +:+ Py.dq +:+ "blob1" +:+ Py.dq +:+ " }" +:+ Py.nl.

(** A converter output with none of the words that the pipeline
    looks for. *)
Definition plain_layer : string :=
  "layer {" +:+ Py.nl +:+
  "  name: " +:+ Py.dq +:+ "conv1" +:+ Py.dq +:+ Py.nl +:+
  "  bottom: " +:+ Py.dq +:+ "data" +:+ Py.dq +:+ Py.nl +:+
  "}" +:+ Py.nl.

(** A world in which every external step succeeds: the final model
    prints as [Net], the converter writes [two_blobs], and every shell
    command leaves [deploy.prototxt] in [out/fix]. *)
Definition tools : @DPU.externals string unit unit := {|
  DPU.model_str := λ m, m;
  DPU.LEVEL := 20;
  DPU.expect := λ b msg ex, if b then Ok tt else Raise (ex msg);
  DPU.utils_makedir := λ p f, (Ok p, DPU.fs_mkdir p f);
  DPU.init_search_space := λ _, Ok tt;
  DPU.init_final_model := λ _ _ _, Ok "Net";
  DPU.trans_net := λ _ _ _, Ok tt;
  DPU.converted_prototxt := λ _ _, two_blobs;
  DPU.converted_caffemodel := λ _ _, "weights";
  DPU.sh := λ cmd f, Some (DPU.fs_write "out/fix/deploy.prototxt" "deploy" f);
  DPU.os_error := λ _ _, None;
  DPU.valid_text := λ _, true
|}.

(** The same world with a converter that raises, and with a
    [deephi_fix] that fails. *)
Definition broken_converter : @DPU.externals string unit unit := {|
  DPU.model_str := DPU.model_str tools;
  DPU.LEVEL := DPU.LEVEL tools;
  DPU.expect := DPU.expect tools;
  DPU.utils_makedir := DPU.utils_makedir tools;
  DPU.init_search_space := DPU.init_search_space tools;
  DPU.init_final_model := DPU.init_final_model tools;
  DPU.trans_net := λ _ _ _, Raise (RuntimeError "unsupported layer");
  DPU.converted_prototxt := DPU.converted_prototxt tools;
  DPU.converted_caffemodel := DPU.converted_caffemodel tools;
  DPU.sh := DPU.sh tools;
  DPU.os_error := DPU.os_error tools;
  DPU.valid_text := DPU.valid_text tools
|}.

Definition is_deephi_fix (cmd : string) : bool :=
  String.prefix "/home/foxfi/projects/caffe_dev/build/tools/deephi_fix" cmd.

Definition failing_fix : @DPU.externals string unit unit := {|
  DPU.model_str := DPU.model_str tools;
  DPU.LEVEL := DPU.LEVEL tools;
  DPU.expect := DPU.expect tools;
  DPU.utils_makedir := DPU.utils_makedir tools;
  DPU.init_search_space := DPU.init_search_space tools;
  DPU.init_final_model := DPU.init_final_model tools;
  DPU.trans_net := DPU.trans_net tools;
  DPU.converted_prototxt := DPU.converted_prototxt tools;
  DPU.converted_caffemodel := DPU.converted_caffemodel tools;
  DPU.sh := λ cmd f, if is_deephi_fix cmd then None else Some f;
  DPU.os_error := DPU.os_error tools;
  DPU.valid_text := DPU.valid_text tools
|}.

Definition empty_world : @DPU.world string unit :=
  DPU.World (DPU.Fsys ∅ ∅) [].

Definition world_with (path content : string) : @DPU.world string unit :=
  DPU.World (DPU.Fsys {[ path := content ]} ∅) [].

Definition dpu : DPU.DPUCompiler :=
  DPU.Build_DPUCompiler (Some "dpu.dcf") "debug" 0 false 0 (Some 224).

(** A scheduler at the end of its first period of 4 steps, and one in
    the first step of a warm-up. *)
Definition at_restart : @CosineDecayLR.t Z :=
  CosineDecayLR.Build 4 2 (CosineDecayLR.Int 2) 3 2 0 true 4
    [100; 200] [200; 400] [-50; -100].


(** A scheduler in the first period, and one at the last step of a
    warm-up. *)
Definition cooling : @CosineDecayLR.t Z :=
  CosineDecayLR.Build 4 2 (CosineDecayLR.Int 2) 3 2 0 true 1
    [100; 200] [200; 400] [-50; -100].

Definition warmed_up : @CosineDecayLR.t Z :=
  CosineDecayLR.Build 8 2 (CosineDecayLR.Int 2) 3 2 4 false 6
    [300; 600] [200; 400] [50; 100].

(** Two layers that choose among three primitives, with their table. *)
Definition two_layers : LatencyObjective.search_space := {|
  LatencyObjective.cell_shared_primitives :=
    [["Mobileblock_0"; "Resblock_0"; "VGGblock_0"]];
  LatencyObjective.cell_layout := [0%nat; 0%nat]
|}.

Definition lut : list (list Z) := [[10; 20; 30]; [15; 25; 35]].

(** The objective that [__init__] makes of them, for a given [lamb]. *)
Definition objective (lamb : option Z) : @LatencyObjective.t Z :=
  LatencyObjective.Build two_layers 2 3 lamb lut 25 65.

Definition candidate : @LatencyObjective.cand_net Z := {|
  LatencyObjective.genotypes :=
    [LatencyObjective.Cell [("Resblock_0", 0%nat, 1%nat)];
     LatencyObjective.Cell [("VGGblock_0", 1%nat, 2%nat)];
     LatencyObjective.Concat [1%nat];
     LatencyObjective.Concat [2%nat]];
  LatencyObjective.arch :=
    [[LatencyObjective.T1 [1; 0; 0]];
     [LatencyObjective.T2 [[0; 1; 0]; [0; 0; 1]]]]
|}.

Definition accuracy (outputs targets : unit) : list Z := [90].





Definition cross_entropy (outputs targets : unit) : Z := 7.

(** A net of a stem convolution, a cell of a convolution with its
    normalisation, and a classifier. *)
Definition small_net : Plugin.module :=
  Plugin.OtherModule
    [ Plugin.Conv2d false;
      Plugin.OtherModule [Plugin.Conv2d false; Plugin.BatchNorm2d; Plugin.ReLU];
      Plugin.Linear true ].

End Examples.

(** * Properties *)

(** ** DPUCompiler.__init__ *)

(** C9. [DPUCompiler.__init__] raises [ConfigException] exactly when [dcf]
    or [input_size] is [None]; when neither is, it returns the object
    with [dcf], [mode], [calib_iter], [gpu] and [input_size] stored as
    given.  [expect] is the framework's: it raises the given exception
    when its condition is false. *)
Theorem DPUCompiler_init_config_exception
    {Model NetCfg SearchSpace : Type} (X : @DPU.externals Model NetCfg SearchSpace)
    (Hexpect : ∀ b msg ex, DPU.expect X b msg ex = if b then Ok tt else Raise (ex msg))
    (dcf : option string) (mode : string) (calib_iter gpu : Z) (input_size : option Z) :
  ((∃ msg, DPU.__init__ X dcf mode calib_iter gpu input_size = Raise (ConfigException msg))
     ↔ (dcf = None ∨ input_size = None))
  ∧ (dcf ≠ None → input_size ≠ None →
     ∃ self, DPU.__init__ X dcf mode calib_iter gpu input_size = Ok self
       ∧ DPU.dcf self = dcf ∧ DPU.mode self = mode
       ∧ DPU.calib_iter self = calib_iter ∧ DPU.gpu self = gpu
       ∧ DPU.input_size self = input_size).
Proof.
  unfold DPU.__init__. rewrite !Hexpect.
  destruct dcf as [d|], input_size as [n|]; cbn; split.
  - split; [intros [msg Hm]; discriminate | intros [?|?]; discriminate].
  - intros _ _. eexists. repeat split.
  - split; [intros _; by right | intros _; by eexists].
  - intros _ Hn. by destruct Hn.
  - split; [intros _; by left | intros _; by eexists].
  - intros Hd. by destruct Hd.
  - split; [intros _; by left | intros _; by eexists].
  - intros Hd. by destruct Hd.
Qed.

Lemma DPUCompiler_init_config_exception_witness :
  (∃ msg, DPU.__init__ Examples.tools None "debug" 0 0 (Some 224%Z)
          = Raise (ConfigException msg))
  ∧ (∃ self, DPU.__init__ Examples.tools (Some "dpu.dcf") "debug" 0 0 (Some 224%Z) = Ok self
       ∧ DPU.dcf self = Some "dpu.dcf" ∧ DPU.input_size self = Some 224%Z).
Proof.
  split.
  - apply (DPUCompiler_init_config_exception Examples.tools (λ _ _ _, eq_refl)
             None "debug" 0 0 (Some 224%Z)).
    by left.
  - destruct (DPUCompiler_init_config_exception Examples.tools (λ _ _ _, eq_refl)
                (Some "dpu.dcf") "debug" 0 0 (Some 224%Z)) as [_ Hok].
    destruct Hok as (self & Hself & Hd & _ & _ & _ & Hi); [done | done |].
    exists self. auto.
Defined.

(** ** The registered primitives and the plugin class *)

(** C7. Importing the plugin module calls [register_primitive] 31 times,
    with the distinct names [Mobileblock_0] to [Mobileblock_8],
    [Resblock_0] to [Resblock_8] and [VGGblock_0] to [VGGblock_12];
    [FBNetPlugin.objective_list] is [[LatencyObjective]] and
    [FBNetPlugin.weights_manager_list] is [[WeightInitDiffSuperNet]]. *)
Theorem plugin_registers_31_primitives :
  length Plugin.register_primitive_calls = 31
  ∧ Plugin.register_primitive_calls.*1 =
      ((λ i : nat, "Mobileblock_" +:+ pretty i) <$> seq 0 9)
      ++ ((λ i : nat, "Resblock_" +:+ pretty i) <$> seq 0 9)
      ++ ((λ i : nat, "VGGblock_" +:+ pretty i) <$> seq 0 13)
  ∧ NoDup (Plugin.register_primitive_calls.*1)
  ∧ Plugin.objective_list Plugin.FBNetPlugin = [Plugin.LatencyObjective]
  ∧ Plugin.weights_manager_list Plugin.FBNetPlugin = [Plugin.WeightInitDiffSuperNet].
Proof.
  split; [reflexivity |].
  split; [vm_compute; reflexivity |].
  split; [| split; reflexivity].
  apply (bool_decide_unpack _). vm_compute. exact I.
Qed.

(** ** weights_init *)

Section WeightsInit.

Import Plugin.
Local Open Scope nat_scope.

Lemma for_each_bounded (call : module → option (outcome report)) (n : nat)
    (ms : list module) :
  (∀ m, ∃ a d, call m = Some (Ok (a, d)) ∧ d ≤ n) →
  ∃ a d, for_each call ms = Some (Ok (a, d)) ∧ d ≤ S n.
Proof.
  intros Hcall. induction ms as [|m ms IH]; cbn.
  - exists [], 0. split; [done | lia].
  - destruct (Hcall m) as (a1 & d1 & -> & Hd1).
    destruct IH as (a2 & d2 & -> & Hd2).
    eexists _, _. split; [done | lia].
Qed.

Lemma for_each_mono (call call' : module → option (outcome report))
    (ms : list module) (r : outcome report) :
  (∀ m r, call m = Some r → call' m = Some r) →
  for_each call ms = Some r → for_each call' ms = Some r.
Proof.
  intros Hmono. revert r. induction ms as [|m ms IH]; cbn; [done |].
  intros r. destruct (call m) as [[[a1 d1]|e]|] eqn:Hm; [| |done].
  - rewrite (Hmono _ _ Hm).
    destruct (for_each call ms) as [[[a2 d2]|e]|]; [| |done].
    + by rewrite (IH _ eq_refl).
    + by rewrite (IH _ eq_refl).
  - by rewrite (Hmono _ _ Hm).
Qed.

(** More fuel does not change what a call returns. *)
Lemma weights_init_mono (fuel : nat) :
  ∀ (m : pyobj) (deepth max_depth : Z) (r : outcome report),
    weights_init fuel m deepth max_depth = Some r →
    ∀ fuel', fuel ≤ fuel' → weights_init fuel' m deepth max_depth = Some r.
Proof.
  induction fuel as [|fuel IH]; intros m deepth max_depth r Hr fuel' Hle; [done |].
  destruct fuel' as [|fuel']; [lia |].
  cbn in *. destruct (deepth >? max_depth)%Z; [done |].
  destruct m as [[b|b| | |cs]|cls]; try done.
  eapply for_each_mono; [| exact Hr].
  intros m_ r_ Hm. eapply IH; [exact Hm | lia].
Qed.

(** Below a call, where [max_depth] is the default: [n] nested calls are
    enough once [deepth] is within [n] of 3. *)
Lemma weights_init_below (n : nat) :
  ∀ (m : module) (deepth : Z) (fuel : nat),
    (3 - deepth ≤ Z.of_nat n)%Z → S n ≤ fuel →
    ∃ a d, weights_init fuel (NNModule m) deepth default_max_depth = Some (Ok (a, d))
           ∧ d ≤ n.
Proof.
  unfold default_max_depth.
  induction n as [|n IH]; intros m deepth fuel Hd Hfuel;
    (destruct fuel as [|fuel]; [lia |]); cbn.
  - destruct (Z.gtb_spec deepth 2); [| lia].
    exists [], 0. split; [done | lia].
  - destruct (Z.gtb_spec deepth 2).
    { exists [], 0. split; [done | lia]. }
    destruct m as [b|b| | |cs]; try (eexists _, 0; split; [done | lia]).
    apply for_each_bounded. intros m_.
    apply IH; lia.
Qed.

(** Every call on a module returns; from [deepth >= 0] the calls below
    it are nested at most 3 deep, whatever [max_depth] it was given. *)
Lemma weights_init_returns (m : module) (deepth max_depth : Z) :
  ∃ a d, ∀ fuel, 2 + Z.to_nat (2 - deepth) ≤ fuel →
    weights_init fuel (NNModule m) deepth max_depth = Some (Ok (a, d))
    ∧ ((0 ≤ deepth)%Z → d ≤ 3).
Proof.
  set (n := Z.to_nat (2 - deepth)).
  assert (Hat : ∃ a d, weights_init (2 + n) (NNModule m) deepth max_depth = Some (Ok (a, d))
                       ∧ ((0 ≤ deepth)%Z → d ≤ 3)).
  { cbn. destruct (Z.gtb_spec deepth max_depth).
    { exists [], 0. split; [done | lia]. }
    destruct m as [b|b| | |cs]; try (eexists _, 0; split; [done | lia]).
    destruct (for_each_bounded
                (λ m_, weights_init (S n) (NNModule m_) (deepth + 1) default_max_depth)
                n (modules (OtherModule cs))) as (a & d & Hr & Hd).
    { intros m_. apply weights_init_below; lia. }
    exists a, d. split; [exact Hr | lia]. }
  destruct Hat as (a & d & Hr & Hd). exists a, d. intros fuel Hfuel.
  split; [| exact Hd].
  eapply weights_init_mono; [exact Hr | lia].
Qed.

(** An object that is not a module makes the first call raise. *)
Lemma weights_init_not_a_module (cls : string) (deepth max_depth : Z) (fuel : nat) :
  1 ≤ fuel →
  weights_init fuel (NotAModule cls) deepth max_depth =
    Some (if (deepth >? max_depth)%Z then Ok ([], 0)
          else Raise (ValueError (cls +:+ " is unk"))).
Proof.
  intros Hfuel. destruct fuel as [|fuel]; [lia |]. cbn.
  by destruct (deepth >? max_depth)%Z.
Qed.

(** With the default arguments the nesting is within [max_depth + 1]. *)
Lemma weights_init_default_depth (m : module) :
  ∃ a d, weights_init 4 (NNModule m) default_deepth default_max_depth = Some (Ok (a, d))
         ∧ (Z.of_nat d ≤ default_max_depth + 1)%Z.
Proof.
  destruct (weights_init_returns m default_deepth default_max_depth) as (a & d & Hr).
  destruct (Hr 4) as [Hr4 Hd]; [unfold default_deepth; simpl; lia |].
  exists a, d. split; [exact Hr4 |].
  unfold default_max_depth. specialize (Hd ltac:(done)). lia.
Qed.

End WeightsInit.

(** C10. A call [weights_init(m, 0, max_depth=0)] on a module of a class
    that the function does not single out (here one without children)
    nests its recursive calls 3 deep, not [max_depth + 1 = 1]: the
    recursive call does not pass [max_depth] on, and the calls below the
    first stop at the default 2. *)
Theorem weights_init_max_depth_not_passed_on :
  Plugin.weights_init 4 (Plugin.NNModule (Plugin.OtherModule [])) 0 0 = Some (Ok ([], 3))
  ∧ ¬ (Z.of_nat 3 ≤ 0 + 1)%Z
  ∧ Plugin.weights_init 3 (Plugin.NNModule (Plugin.OtherModule [])) 0 0 = None.
Proof.
  split; [reflexivity |]. split; [lia | reflexivity].
Qed.

(** ** Text *)

Section TextFacts.

Import Text.

Lemma append_cons (c : ascii) (s t : string) : String c s +:+ t = String c (s +:+ t).
Proof. reflexivity. Qed.

Lemma append_nil_r (s : string) : s +:+ "" = s.
Proof. induction s as [|c s IH]; [done |]. by rewrite append_cons, IH. Qed.

Lemma append_assoc (a b c : string) : (a +:+ b) +:+ c = a +:+ b +:+ c.
Proof. induction a as [|x a IH]; [done |]. by rewrite !append_cons, IH. Qed.

Lemma split_lines_ok (s : string) : lines_ok (split_lines s).
Proof.
  induction s as [|c s IH]; simpl; [constructor |].
  destruct (Ascii.eqb c "010") eqn:Hc.
  - apply (lines_cons ""); [done | exact IH].
  - inversion IH as [Hnil | l Hl Hnl Hone | b ls Hb Hls Hcons].
    + apply lines_last; [done |]. simpl. by rewrite Hc.
    + apply lines_last; [done |]. simpl. by rewrite Hc, Hnl.
    + apply (lines_cons (String c b)); [| exact Hls].
      simpl. by rewrite Hc, Hb.
Qed.

Lemma split_lines_line (b rest : string) :
  has_nl b = false →
  split_lines (b +:+ Py.nl +:+ rest) = (b +:+ Py.nl) :: split_lines rest.
Proof.
  induction b as [|c b IH]; [done |].
  rewrite !append_cons. simpl.
  intros [Hc Hb]%orb_false_elim. rewrite Hc, (IH Hb). done.
Qed.

Lemma split_lines_last (l : string) :
  l ≠ "" → has_nl l = false → split_lines l = [l].
Proof.
  induction l as [|c l IH]; [done |]. intros _. simpl.
  intros [Hc Hl]%orb_false_elim. rewrite Hc.
  destruct l as [|c' l']; [done |]. by rewrite IH.
Qed.

(** Joining the lines of a text gives the text back. *)
Lemma join_split_lines (s : string) : join_lines (split_lines s) = s.
Proof.
  induction s as [|c s IH]; [done |]. simpl.
  destruct (Ascii.eqb_spec c "010") as [->|Hc].
  - simpl. by rewrite IH.
  - destruct (split_lines s) as [|l ls]; simpl in *.
    + by rewrite <- IH.
    + by rewrite <- IH.
Qed.

(** Splitting what was joined gives the lines back. *)
Lemma split_join_lines (ls : list string) :
  lines_ok ls → split_lines (join_lines ls) = ls.
Proof.
  unfold join_lines.
  induction 1 as [|l Hl Hnl|b ls Hb Hls IH]; simpl.
  - done.
  - rewrite append_nil_r. by apply split_lines_last.
  - by rewrite append_assoc, split_lines_line, IH.
Qed.

Lemma lines_ok_filter (P : string → Prop) `{∀ l, Decision (P l)} (ls : list string) :
  lines_ok ls → lines_ok (filter P ls).
Proof.
  induction 1 as [|l Hl Hnl|b ls Hb Hls IH].
  - constructor.
  - rewrite filter_cons, filter_nil. case_decide; by constructor.
  - rewrite filter_cons. case_decide; [by constructor | done].
Qed.

Lemma sed_delete_lines (pat s : string) :
  split_lines (sed_delete pat s) =
    filter (λ l, Py.contains pat l = false) (split_lines s).
Proof.
  unfold sed_delete. apply split_join_lines, lines_ok_filter, split_lines_ok.
Qed.

(** The four [sed] processes do in turn what one pass over the lines
    does. *)
Lemma sed_pipeline_one_pass (content : string) :
  DPU.sed_pipeline content = DPU.first_blob1_replaced content.
Proof.
  unfold DPU.sed_pipeline, DPU.first_blob1_replaced, sed_subst.
  rewrite !sed_delete_lines. rewrite !list_filter_filter.
  do 2 f_equal. apply list_filter_iff. intros l. unfold DPU.kept. tauto.
Qed.



Lemma contains_cr_cons (c : ascii) (s : string) :
  Py.contains Py.cr (String c s) = Ascii.eqb c "013" || Py.contains Py.cr s.
Proof.
  change (Py.contains Py.cr (String c s))
    with (String.prefix Py.cr (String c s) || Py.contains Py.cr s).
  f_equal. unfold Py.cr, String.prefix.
  destruct (Ascii.ascii_dec "013" c) as [<-|Hc].
  - by destruct s.
  - symmetry. apply Ascii.eqb_neq. congruence.
Qed.

(** A text without carriage returns is read as it is. *)
Lemma universal_newlines_no_cr (s : string) :
  Py.contains Py.cr s = false → universal_newlines s = s.
Proof.
  induction s as [|c s IH]; [done |].
  rewrite contains_cr_cons. intros [Hc Hs]%orb_false_elim.
  simpl. rewrite Hc. by rewrite (IH Hs).
Qed.

(** The data layer with the input size in the place of its one
    [INPUT_SIZE]. *)
Lemma data_layer_input_size (size : string) :
  Py.replace "INPUT_SIZE" size DPU.CAFFE_DATA_LAYER_STR =
    DPU.data_layer_head +:+ size +:+ DPU.data_layer_tail
  ∧ Py.contains "INPUT_SIZE" DPU.data_layer_head = false
  ∧ Py.contains "INPUT_SIZE" DPU.data_layer_tail = false.
Proof.
  split; [| split; vm_compute; reflexivity].
  vm_compute. reflexivity.
Qed.

End TextFacts.

(** ** Runs of the compiler *)

Lemma bind_ok_inv {S A B} (c : SE S A) (k : A → SE S B) (s s' : S) (b : B) :
  bind c k s = (Ok b, s') → ∃ a s1, c s = (Ok a, s1) ∧ k a s1 = (Ok b, s').
Proof.
  unfold bind. destruct (c s) as [[a|e] s1]; [eauto | discriminate].
Qed.

Lemma bind_ok {S A B} (c : SE S A) (k : A → SE S B) (s s1 : S) (a : A) :
  c s = (Ok a, s1) → bind c k s = k a s1.
Proof. unfold bind. by intros ->. Qed.

Lemma ret_inv {S A} (a b : A) (s s' : S) : ret a s = (Ok b, s') → b = a ∧ s' = s.
Proof. unfold ret. by intros [= -> ->]. Qed.

Create HintDb appends.

Section DPUFacts.

Context {Model NetCfg SearchSpace : Type}.
Variable X : @DPU.externals Model NetCfg SearchSpace.

Import DPU.

#[local] Abbreviation world := (@DPU.world Model NetCfg).
#[local] Abbreviation event := (@DPU.event Model NetCfg).
#[local] Abbreviation M := (@DPU.M Model NetCfg).

Lemma appends_ret {A} (a : A) : appends (ret a : M A).
Proof. intros w. exists []. by rewrite app_nil_r. Qed.

Lemma appends_raise {A} (e : exn) : appends (raise e : M A).
Proof. intros w. exists []. by rewrite app_nil_r. Qed.

Lemma appends_bind {A B} (c : M A) (k : A → M B) :
  appends c → (∀ a, appends (k a)) → appends (bind c k).
Proof.
  intros Hc Hk w. unfold bind. destruct (Hc w) as [evs Hevs].
  destruct (c w) as [[a|e] w1]; simpl in *.
  - destruct (Hk a w1) as [evs' Hevs']. exists (evs ++ evs').
    by rewrite Hevs', Hevs, app_assoc.
  - by exists evs.
Qed.

Lemma appends_emit (e : event) : appends (emit e).
Proof. intros w. by exists [e]. Qed.

Lemma appends_get_fs : appends (get_fs : M fsys).
Proof. intros w. exists []. by rewrite app_nil_r. Qed.

Lemma appends_put_fs (f : fsys) : appends (put_fs f : M unit).
Proof. intros w. exists []. by rewrite app_nil_r. Qed.

Lemma appends_lift_outcome {A} (o : outcome A) : appends (lift_outcome o : M A).
Proof. intros w. exists []. by rewrite app_nil_r. Qed.

Lemma appends_lift_fs {A} (c : fsys → outcome A * fsys) : appends (lift_fs c : M A).
Proof.
  intros w. exists []. unfold lift_fs. destruct (c (fs w)). by rewrite app_nil_r.
Qed.

Lemma appends_when (b : bool) (c : M unit) : appends c → appends (when b c).
Proof. intros Hc. destruct b; [done | apply appends_ret]. Qed.

#[local] Hint Resolve appends_ret appends_raise appends_emit appends_get_fs appends_put_fs
  appends_lift_outcome appends_lift_fs : appends.

Ltac appends :=
  repeat first
    [ solve [auto with appends]
    | apply appends_when
    | apply appends_bind; [| intros ?]
    | match goal with
      | |- appends (match ?x with _ => _ end) => destruct x
      end ].

Lemma appends_check_call (cmd : string) : appends (check_call X cmd).
Proof. unfold check_call. appends. Qed.

Lemma appends_run_dnnc name prototxt caffemodel output_dir dcf mode debug :
  appends (_run_dnnc X name prototxt caffemodel output_dir dcf mode debug).
Proof. unfold _run_dnnc, makedirs, check_call. appends. Qed.

Lemma appends_caffe_fix prototxt caffemodel output_dir gpu calib_iter input_size debug :
  appends (_caffe_fix X prototxt caffemodel output_dir gpu calib_iter input_size debug).
Proof.
  unfold _caffe_fix, run_sed, read_text, write_text, open_w, makedirs, shutil_copy,
    check_call.
  appends.
Qed.

Lemma appends_run_pytorch_to_caffe model name output_dir input_size debug :
  appends (_run_pytorch_to_caffe X model name output_dir input_size debug).
Proof. unfold _run_pytorch_to_caffe, torch_ones_1_3, makedir. appends. Qed.

#[local] Hint Resolve appends_check_call appends_run_dnnc appends_caffe_fix
  appends_run_pytorch_to_caffe : appends.

Ltac emits_by_cases :=
  intros ?w ?o ?w' Hrun;
  unfold run_sed, read_text, write_text, open_w, makedirs, shutil_copy, check_call,
    makedir, lift_fs, get_fs, put_fs, emit, when, bind, get, modify, ret, raise,
    lift_outcome in Hrun;
  simpl in Hrun; repeat case_match; simplify_eq; simpl;
  rewrite <- ?app_assoc, ?app_nil_r; reflexivity.

Lemma emits_run_sed p q : emits (run_sed X p q) [EvShell (sed_command p q)].
Proof. emits_by_cases. Qed.

Lemma emits_read_text p : emits (read_text X p) [].
Proof. emits_by_cases. Qed.

Lemma write_text_ok p c (w w' : world) (u : unit) :
  write_text X p c w = (Ok u, w') → trace w' = trace w ++ [EvWrite p c].
Proof.
  unfold write_text, open_w, get_fs, put_fs, emit, bind, get, modify, ret, raise.
  simpl. destruct (os_error X (OpenWrite p) (fs w)); [done |]. simpl.
  destruct (os_error X (WriteText p) _); [done |]. by intros [= _ <-].
Qed.

Lemma emits_get_fs : emits (get_fs : M fsys) [].
Proof. emits_by_cases. Qed.

Lemma emits_put_fs f : emits (put_fs f : M unit) [].
Proof. emits_by_cases. Qed.

Lemma emits_open_w p : emits (open_w X p) [].
Proof. emits_by_cases. Qed.

Lemma emits_check_call cmd : emits (check_call X cmd) [EvShell cmd].
Proof. emits_by_cases. Qed.

Lemma emits_shutil_copy src dst : emits (shutil_copy src dst : M unit) [EvCopy src dst].
Proof. emits_by_cases. Qed.

Lemma emits_when_makedirs (b : bool) p :
  emits (when b (makedirs p) : M unit) (if b then [EvMakedirs p] else []).
Proof. destruct b; emits_by_cases. Qed.

Lemma emits_when_emit (b : bool) (e : event) :
  emits (when b (emit e)) (if b then [e] else []).
Proof. destruct b; emits_by_cases. Qed.

Lemma emits_makedir p : emits (makedir X p) [EvMakedir p].
Proof. emits_by_cases. Qed.

Lemma emits_emit (e : event) : emits (emit e) [e].
Proof. emits_by_cases. Qed.

Lemma emits_lift_outcome {A} (o : outcome A) : emits (lift_outcome o : M A) [].
Proof. emits_by_cases. Qed.

Lemma emit_inv (e : event) (w w' : world) (o : outcome unit) :
  emit e w = (o, w') → fs w' = fs w ∧ trace w' = trace w ++ [e].
Proof. unfold emit, modify. by intros [= <- <-]. Qed.

Lemma lift_outcome_inv {A} (o : outcome A) (a : A) (w w' : world) :
  lift_outcome o w = (Ok a, w') → o = Ok a ∧ w' = w.
Proof. unfold lift_outcome. by intros [= -> ->]. Qed.

Ltac next H x w1 Hx :=
  apply bind_ok_inv in H as (x & w1 & Hx & H).

(** The events of a call of [_caffe_fix] that returns. *)
Lemma caffe_fix_ok prototxt caffemodel output_dir gpu calib_iter input_size debug
    (w w' : world) (r : string * string) :
  _caffe_fix X prototxt caffemodel output_dir gpu calib_iter input_size debug w
    = (Ok r, w') →
  ∃ content mk,
    (mk = [] ∨ mk = [EvMakedirs output_dir])
    ∧ r = (Py.os_path_join output_dir "deploy_dnnc.prototxt",
           Py.os_path_join output_dir "deploy.caffemodel")
    ∧ trace w' =
        trace w
        ++ [EvShell (sed_command prototxt (prototxt +:+ ".tofix.prototxt"));
            EvWrite (prototxt +:+ ".tofix.prototxt") content]
        ++ mk
        ++ [EvShell (deephi_fix_command calib_iter gpu (prototxt +:+ ".tofix.prototxt")
                       caffemodel output_dir);
            EvCopy (Py.os_path_join output_dir "deploy.prototxt")
              (Py.os_path_join output_dir "deploy_dnnc.prototxt");
            EvShell ("python modify_for_dnnc.py "
                     +:+ Py.os_path_join output_dir "deploy_dnnc.prototxt")].
Proof.
  unfold _caffe_fix. intros Hrun.
  next Hrun u1 w1 Hsed. next Hrun r_f w2 Hread. next Hrun u3 w3 Hwrite.
  next Hrun f w4 Hget. next Hrun u5 w5 Hmk. next Hrun u6 w6 Hopen.
  next Hrun u7 w7 Hfix. next Hrun u8 w8 Hcopy. next Hrun u9 w9 Hmod.
  apply ret_inv in Hrun as [-> ->].
  apply emits_run_sed in Hsed. apply emits_read_text in Hread.
  apply write_text_ok in Hwrite. apply emits_get_fs in Hget.
  apply emits_when_makedirs in Hmk. apply emits_open_w in Hopen.
  apply emits_check_call in Hfix. apply emits_shutil_copy in Hcopy.
  apply emits_check_call in Hmod.
  exists (Py.replace "INPUT_SIZE" (Py.str_opt_int input_size) CAFFE_DATA_LAYER_STR
          +:+ r_f),
    (if negb (fs_exists output_dir f) then [EvMakedirs output_dir] else []).
  split; [destruct (negb _); auto |]. split; [reflexivity |].
  rewrite Hmod, Hcopy, Hfix, Hopen, Hmk, Hget, Hwrite, Hread, Hsed.
  rewrite <- !app_assoc, ?app_nil_r. reflexivity.
Qed.

(** The events of a call of [_run_dnnc], however it ends, and what it
    returns. *)
Lemma run_dnnc_events name prototxt caffemodel output_dir dcf mode debug (w : world) :
  ∃ mk,
    (mk = [] ∨ mk = [EvMakedirs output_dir])
    ∧ trace (_run_dnnc X name prototxt caffemodel output_dir dcf mode debug w).2 =
        trace w ++ mk
        ++ [EvShell (dnnc_command name prototxt caffemodel output_dir dcf mode debug)]
    ∧ ∀ elf, (_run_dnnc X name prototxt caffemodel output_dir dcf mode debug w).1 = Ok elf →
        elf = Py.os_path_join output_dir ("dpu_" +:+ name +:+ ".elf").
Proof.
  exists (if negb (fs_exists output_dir (fs w)) then [EvMakedirs output_dir] else []).
  split; [destruct (negb _); auto |].
  unfold _run_dnnc, check_call, makedirs, get_fs, put_fs, emit, when, bind, get,
    modify, ret, raise.
  simpl. destruct (negb (fs_exists output_dir (fs w))); simpl.
  - destruct (sh X _ _); simpl; split;
      [by rewrite <- app_assoc | congruence | by rewrite <- app_assoc | done].
  - destruct (sh X _ _); simpl; split; [done | congruence | done | done].
Qed.

(** The events of a call of [_run_pytorch_to_caffe] that returns. *)
Lemma run_pytorch_to_caffe_ok model name output_dir input_size debug
    (w w' : world) (r : string * string) :
  _run_pytorch_to_caffe X model name output_dir input_size debug w = (Ok r, w') →
  ∃ n,
    input_size = Some n
    ∧ r = (output_dir +:+ "/" +:+ format X name +:+ ".prototxt",
           output_dir +:+ "/" +:+ format X name +:+ ".caffemodel")
    ∧ trace w' =
        trace w
        ++ (if negb debug then [EvRedirectStdout] else [])
        ++ [EvTransNet model n name]
        ++ (if negb debug then [EvRestoreStdout] else [])
        ++ [EvMakedir output_dir;
            EvSavePrototxt (output_dir +:+ "/" +:+ format X name +:+ ".prototxt");
            EvSaveCaffemodel (output_dir +:+ "/" +:+ format X name +:+ ".caffemodel")].
Proof.
  unfold _run_pytorch_to_caffe. intros Hrun.
  next Hrun n w1 Hones. next Hrun u2 w2 Hred. next Hrun u3 w3 Htrans.
  next Hrun u4 w4 Hnet. next Hrun u5 w5 Hres. next Hrun d w6 Hmk.
  next Hrun u7 w7 Hsp. next Hrun f1 w8 Hg1. next Hrun u9 w9 Hp1.
  next Hrun u10 w10 Hsc. next Hrun f2 w11 Hg2. next Hrun u12 w12 Hp2.
  apply ret_inv in Hrun as [-> ->].
  assert (input_size = Some n ∧ w1 = w) as [-> ->].
  { unfold torch_ones_1_3, raise, ret in Hones.
    destruct input_size as [k|]; [| discriminate].
    destruct (k <? 0)%Z; [discriminate |]. by injection Hones as -> ->. }
  apply emits_when_emit in Hred. apply emits_emit in Htrans.
  apply emits_lift_outcome in Hnet. apply emits_when_emit in Hres.
  apply emits_makedir in Hmk. apply emits_emit in Hsp. apply emits_get_fs in Hg1.
  apply emits_put_fs in Hp1. apply emits_emit in Hsc. apply emits_get_fs in Hg2.
  apply emits_put_fs in Hp2.
  exists n. split; [done |]. split; [done |].
  rewrite Hp2, Hg2, Hsc, Hp1, Hg1, Hsp, Hmk, Hres, Hnet, Htrans, Hred.
  rewrite <- !app_assoc, ?app_nil_r. reflexivity.
Qed.

(** The events of a call of [compile] that returns: the three stages in
    order, the converter's files named after the printed model. *)
Lemma compile_ok (self : DPUCompiler) (compile_name : string) (net_cfg : NetCfg)
    (result_dir : string) (w w' : world) (u : unit) :
  compile X self compile_name net_cfg result_dir w = (Ok u, w') →
  ∃ ss m d n content mk1 mk2,
    let ptc_proto := d +:+ "/" +:+ model_str X m +:+ ".prototxt" in
    let ptc_caffemodel := d +:+ "/" +:+ model_str X m +:+ ".caffemodel" in
    let fix_out_dir := Py.os_path_join result_dir "fix" in
    let dnnc_out_dir := Py.os_path_join result_dir ("dnnc_" +:+ mode self) in
    init_search_space X net_cfg = Ok ss
    ∧ init_final_model X net_cfg ss ("cuda:" +:+ Py.str_int (gpu self)) = Ok m
    ∧ (utils_makedir X (Py.os_path_join result_dir "pytorch_to_caffe") (fs w)).1 = Ok d
    ∧ input_size self = Some n
    ∧ (mk1 = [] ∨ mk1 = [EvMakedirs fix_out_dir])
    ∧ (mk2 = [] ∨ mk2 = [EvMakedirs dnnc_out_dir])
    ∧ trace w' =
        trace w
        ++ [EvInitSearchSpace net_cfg;
            EvInitFinalModel net_cfg ("cuda:" +:+ Py.str_int (gpu self));
            EvMakedir (Py.os_path_join result_dir "pytorch_to_caffe")]
        ++ (if negb (_debug_output self) then [EvRedirectStdout] else [])
        ++ [EvTransNet (PyStr compile_name) n (PyModel m)]
        ++ (if negb (_debug_output self) then [EvRestoreStdout] else [])
        ++ [EvMakedir d; EvSavePrototxt ptc_proto; EvSaveCaffemodel ptc_caffemodel]
        ++ [EvShell (sed_command ptc_proto (ptc_proto +:+ ".tofix.prototxt"));
            EvWrite (ptc_proto +:+ ".tofix.prototxt") content]
        ++ mk1
        ++ [EvShell (deephi_fix_command (calib_iter self) (gpu self)
                       (ptc_proto +:+ ".tofix.prototxt") ptc_caffemodel fix_out_dir);
            EvCopy (Py.os_path_join fix_out_dir "deploy.prototxt")
              (Py.os_path_join fix_out_dir "deploy_dnnc.prototxt");
            EvShell ("python modify_for_dnnc.py "
                     +:+ Py.os_path_join fix_out_dir "deploy_dnnc.prototxt")]
        ++ mk2
        ++ [EvShell (dnnc_command compile_name
                       (Py.os_path_join fix_out_dir "deploy_dnnc.prototxt")
                       (Py.os_path_join fix_out_dir "deploy.caffemodel")
                       dnnc_out_dir (dcf self) (mode self) (_debug_output self))].
Proof.
  unfold compile. intros Hrun.
  next Hrun u1 w1 He1. next Hrun ss w2 Hss. next Hrun u3 w3 He2.
  next Hrun m w4 Hm. next Hrun d w5 Hmk.
  next Hrun r1 w6 Hptc. destruct r1 as [proto caffemodel].
  next Hrun r2 w7 Hfix. destruct r2 as [proto' caffemodel'].
  next Hrun elf w8 Hdnnc.
  apply ret_inv in Hrun as [_ ->].
  apply run_pytorch_to_caffe_ok in Hptc as (n & Hn & [= -> ->] & Hptc).
  apply caffe_fix_ok in Hfix as (content & mk1 & Hmk1 & [= -> ->] & Hfix).
  destruct (run_dnnc_events compile_name
              (Py.os_path_join (Py.os_path_join result_dir "fix") "deploy_dnnc.prototxt")
              (Py.os_path_join (Py.os_path_join result_dir "fix") "deploy.caffemodel")
              (Py.os_path_join result_dir ("dnnc_" +:+ mode self))
              (dcf self) (mode self) (_debug_output self) w7)
    as (mk2 & Hmk2 & Hdnnc' & _).
  rewrite Hdnnc in Hdnnc'. simpl in Hdnnc'.
  apply emit_inv in He1 as [Hf1 Ht1].
  apply lift_outcome_inv in Hss as [Hss' ->].
  apply emit_inv in He2 as [Hf3 Ht3].
  apply lift_outcome_inv in Hm as [Hm' ->].
  assert ((utils_makedir X (Py.os_path_join result_dir "pytorch_to_caffe") (fs w)).1 = Ok d)
    as Hd.
  { unfold makedir, bind, emit, modify, lift_fs in Hmk. simpl in Hmk.
    rewrite Hf3, Hf1 in Hmk. destruct (utils_makedir X _ (fs w)) as [o f].
    by injection Hmk as -> _. }
  apply emits_makedir in Hmk.
  exists ss, m, d, n, content, mk1, mk2. simpl.
  repeat (split; [done |]).
  rewrite Hdnnc', Hfix, Hptc, Hmk, Ht3, Ht1.
  repeat rewrite <- app_assoc. by repeat rewrite <- app_comm_cons.
Qed.

(** A run that starts with a step that returns and adds [pre1], and
    goes on with [pre2]. *)
Lemma starts_step {A B} (c : M A) (k : A → M B) (w w1 : world) (a : A)
    (pre1 pre2 : list event) :
  c w = (Ok a, w1) → trace w1 = trace w ++ pre1 →
  (∃ rest, trace (k a w1).2 = trace w1 ++ pre2 ++ rest) →
  ∃ rest, trace (bind c k w).2 = trace w ++ (pre1 ++ pre2) ++ rest.
Proof.
  intros Hc Hw1 [rest Hrest]. exists rest.
  rewrite (bind_ok _ _ _ _ _ Hc), Hrest, Hw1. by rewrite <- !app_assoc.
Qed.

Lemma starts_appends {A} (c : M A) (w : world) :
  appends c → ∃ rest, trace (c w).2 = trace w ++ [] ++ rest.
Proof. intros Hc. exact (Hc w). Qed.

Lemma starts_bind {A B} (c : M A) (k : A → M B) (w : world) (pre : list event) :
  (∃ rest, trace (c w).2 = trace w ++ pre ++ rest) → (∀ a, appends (k a)) →
  ∃ rest, trace (bind c k w).2 = trace w ++ pre ++ rest.
Proof.
  intros [rest Hrest] Hk. unfold bind.
  destruct (c w) as [[a|e] w1]; simpl in *.
  - destruct (Hk a w1) as [evs Hevs]. exists (rest ++ evs).
    by rewrite Hevs, Hrest, <- !app_assoc.
  - by exists rest.
Qed.

(** What a call of [_run_pytorch_to_caffe] does first. *)
Lemma run_pytorch_to_caffe_starts model name output_dir (n : Z) debug (w : world) :
  (0 ≤ n)%Z →
  ∃ rest,
    trace (_run_pytorch_to_caffe X model name output_dir (Some n) debug w).2 =
      trace w
      ++ ((if negb debug then [EvRedirectStdout] else []) ++ [EvTransNet model n name])
      ++ rest.
Proof.
  intros Hn. unfold _run_pytorch_to_caffe.
  rewrite (bind_ok _ _ w w n); last first.
  { unfold torch_ones_1_3. destruct (Z.ltb_spec n 0); [lia | reflexivity]. }
  eapply (starts_step _ _ _
            (World (fs w) (trace w ++ (if negb debug then [EvRedirectStdout] else [])))
            tt).
  { destruct debug; simpl; [| reflexivity].
    unfold ret. destruct w. simpl. by rewrite app_nil_r. }
  { reflexivity. }
  rewrite <- (app_nil_r [EvTransNet model n name]).
  eapply (starts_step _ _ _ _ tt); [reflexivity | reflexivity |].
  apply starts_appends. unfold makedir. appends.
Qed.





(** What a call of [compile] does up to the conversion, when the
    components can be built. *)
Lemma compile_starts (self : DPUCompiler) (compile_name : string) (net_cfg : NetCfg)
    (result_dir : string) (w : world) ss m d f (n : Z) :
  init_search_space X net_cfg = Ok ss →
  init_final_model X net_cfg ss ("cuda:" +:+ Py.str_int (gpu self)) = Ok m →
  utils_makedir X (Py.os_path_join result_dir "pytorch_to_caffe") (fs w) = (Ok d, f) →
  input_size self = Some n → (0 ≤ n)%Z →
  ∃ rest,
    trace (compile X self compile_name net_cfg result_dir w).2 =
      trace w
      ++ ([EvInitSearchSpace net_cfg]
          ++ [EvInitFinalModel net_cfg ("cuda:" +:+ Py.str_int (gpu self))]
          ++ [EvMakedir (Py.os_path_join result_dir "pytorch_to_caffe")]
          ++ (if negb (_debug_output self) then [EvRedirectStdout] else [])
          ++ [EvTransNet (PyStr compile_name) n (PyModel m)])
      ++ rest.
Proof.
  intros Hss Hm Hd Hn Hn0. unfold compile.
  eapply (starts_step _ _ _ _ tt); [reflexivity | reflexivity |].
  rewrite Hss. rewrite <- (app_nil_l ([EvInitFinalModel _ _] ++ _)).
  eapply (starts_step _ _ _ _ ss); [reflexivity | by rewrite app_nil_r |].
  eapply (starts_step _ _ _ _ tt); [reflexivity | reflexivity |].
  rewrite Hm. rewrite <- (app_nil_l ([EvMakedir _] ++ _)).
  eapply (starts_step _ _ _ _ m); [reflexivity | by rewrite app_nil_r |].
  eapply (starts_step _ _ _ (World f _) d).
  { unfold makedir, bind, emit, modify, lift_fs. simpl. rewrite Hd. reflexivity. }
  { reflexivity. }
  apply starts_bind.
  - rewrite Hn. by apply run_pytorch_to_caffe_starts.
  - intros [proto caffemodel].
    appends.
Qed.

End DPUFacts.

(** C8. A call of [_caffe_fix] that returns has run, through the shell,
    the [deephi_fix fix] command line made of [calib_iter], [gpu], the
    fixed input prototxt, the caffemodel and the output directory,
    between the [sed] pipeline with the write of the fixed prototxt and
    the copy with [modify_for_dnnc.py]; a call of [_run_dnnc] runs the
    [dnnc] command line made of the mode, [--cpu_arch arm64],
    [--save_kernel], the prototxt, the caffemodel, the output directory,
    the dcf and the net name, to which [ --dump=all] is added exactly
    when [debug] is true. *)
Theorem vendor_command_lines {Model NetCfg SearchSpace : Type}
    (X : @DPU.externals Model NetCfg SearchSpace) :
  (∀ prototxt caffemodel output_dir gpu calib_iter input_size debug w r w',
     DPU._caffe_fix X prototxt caffemodel output_dir gpu calib_iter input_size debug w
       = (Ok r, w') →
     ∃ content mk,
       (mk = [] ∨ mk = [DPU.EvMakedirs output_dir])
       ∧ DPU.trace w' =
           DPU.trace w
           ++ [DPU.EvShell (DPU.sed_command prototxt (prototxt +:+ ".tofix.prototxt"));
               DPU.EvWrite (prototxt +:+ ".tofix.prototxt") content]
           ++ mk
           ++ [DPU.EvShell
                 ("/home/foxfi/projects/caffe_dev/build/tools/deephi_fix fix -calib_iter "
                  +:+ Py.str_int calib_iter +:+ " -gpu " +:+ Py.str_int gpu
                  +:+ " -model " +:+ (prototxt +:+ ".tofix.prototxt")
                  +:+ " -weights " +:+ caffemodel
                  +:+ " -output_dir " +:+ output_dir);
               DPU.EvCopy (Py.os_path_join output_dir "deploy.prototxt")
                 (Py.os_path_join output_dir "deploy_dnnc.prototxt");
               DPU.EvShell ("python modify_for_dnnc.py "
                            +:+ Py.os_path_join output_dir "deploy_dnnc.prototxt")])
  ∧ (∀ name prototxt caffemodel output_dir dcf mode debug w,
       ∃ mk,
         (mk = [] ∨ mk = [DPU.EvMakedirs output_dir])
         ∧ DPU.trace
             (DPU._run_dnnc X name prototxt caffemodel output_dir dcf mode debug w).2 =
             DPU.trace w ++ mk
             ++ [DPU.EvShell
                   (("dnnc --mode " +:+ mode
                     +:+ " --cpu_arch arm64 --save_kernel --prototxt " +:+ prototxt
                     +:+ " --caffemodel " +:+ caffemodel
                     +:+ "  --output_dir " +:+ output_dir
                     +:+ " --dcf " +:+ Py.str_opt_str dcf
                     +:+ " --net_name " +:+ name)
                    +:+ (if debug then " --dump=all" else ""))]).
Proof.
  split.
  - intros prototxt caffemodel output_dir gpu calib_iter input_size debug w r w' Hrun.
    destruct (caffe_fix_ok X _ _ _ _ _ _ _ _ _ _ Hrun) as (content & mk & Hmk & _ & Htrace).
    exists content, mk. split; [exact Hmk | exact Htrace].
  - intros name prototxt caffemodel output_dir dcf mode debug w.
    destruct (run_dnnc_events X name prototxt caffemodel output_dir dcf mode debug w)
      as (mk & Hmk & Htrace & _).
    exists mk. split; [exact Hmk |]. rewrite Htrace. do 3 f_equal.
    unfold DPU.dnnc_command. by rewrite !append_assoc.
Qed.

Lemma vendor_command_lines_witness :
  ∃ content mk,
    DPU.trace
      (DPU._caffe_fix Examples.tools "net.prototxt" "net.caffemodel" "out/fix" 0 8
         (Some 224%Z) false (Examples.world_with "net.prototxt" Examples.two_blobs)).2 =
      [DPU.EvShell (DPU.sed_command "net.prototxt" "net.prototxt.tofix.prototxt");
       DPU.EvWrite "net.prototxt.tofix.prototxt" content]
      ++ mk
      ++ [DPU.EvShell
            "/home/foxfi/projects/caffe_dev/build/tools/deephi_fix fix -calib_iter 8 -gpu 0 -model net.prototxt.tofix.prototxt -weights net.caffemodel -output_dir out/fix";
          DPU.EvCopy "out/fix/deploy.prototxt" "out/fix/deploy_dnnc.prototxt";
          DPU.EvShell "python modify_for_dnnc.py out/fix/deploy_dnnc.prototxt"].
Proof.
  destruct (proj1 (vendor_command_lines Examples.tools)
              "net.prototxt" "net.caffemodel" "out/fix" 0%Z 8%Z (Some 224%Z) false
              (Examples.world_with "net.prototxt" Examples.two_blobs)
              ("out/fix/deploy_dnnc.prototxt", "out/fix/deploy.caffemodel")
              (DPU._caffe_fix Examples.tools "net.prototxt" "net.caffemodel" "out/fix" 0 8
                 (Some 224%Z) false
                 (Examples.world_with "net.prototxt" Examples.two_blobs)).2)
    as (content & mk & _ & Htrace).
  - vm_compute. reflexivity.
  - exists content, mk. exact Htrace.
Defined.




(** C2. [_run_pytorch_to_caffe] hands its parameter [model] to
    [pytorch_to_caffe.trans_net] as the network and its parameter [name]
    as the name; [compile] calls it with [compile_name] in the place of
    [model] and the final model in the place of [name], so that the
    string [compile_name] is the network that [trans_net] is given. *)
Theorem compile_passes_compile_name_as_net {Model NetCfg SearchSpace : Type}
    (X : @DPU.externals Model NetCfg SearchSpace)
    (self : DPU.DPUCompiler) (compile_name : string) (net_cfg : NetCfg)
    (result_dir : string) (w : @DPU.world Model NetCfg)
    (ss : SearchSpace) (m : Model) (d : string) (f : DPU.fsys) (n : Z) :
  DPU.init_search_space X net_cfg = Ok ss →
  DPU.init_final_model X net_cfg ss ("cuda:" +:+ Py.str_int (DPU.gpu self)) = Ok m →
  DPU.utils_makedir X (Py.os_path_join result_dir "pytorch_to_caffe") (DPU.fs w)
    = (Ok d, f) →
  DPU.input_size self = Some n → (0 ≤ n)%Z →
  (∀ model name output_dir debug (w0 : @DPU.world Model NetCfg),
     ∃ rest,
       DPU.trace (DPU._run_pytorch_to_caffe X model name output_dir (Some n) debug w0).2 =
         DPU.trace w0
         ++ (if negb debug then [DPU.EvRedirectStdout] else [])
         ++ [DPU.EvTransNet model n name]
         ++ rest)
  ∧ ∃ rest,
      DPU.trace (DPU.compile X self compile_name net_cfg result_dir w).2 =
        DPU.trace w
        ++ [DPU.EvInitSearchSpace net_cfg;
            DPU.EvInitFinalModel net_cfg ("cuda:" +:+ Py.str_int (DPU.gpu self));
            DPU.EvMakedir (Py.os_path_join result_dir "pytorch_to_caffe")]
        ++ (if negb (DPU._debug_output self) then [DPU.EvRedirectStdout] else [])
        ++ [DPU.EvTransNet (DPU.PyStr compile_name) n (DPU.PyModel m)]
        ++ rest.
Proof.
  intros Hss Hm Hd Hn Hn0. split.
  - intros model name output_dir debug w0.
    destruct (run_pytorch_to_caffe_starts X model name output_dir n debug w0 Hn0)
      as [rest Hrest].
    exists rest. rewrite Hrest. by rewrite <- !app_assoc.
  - destruct (compile_starts X self compile_name net_cfg result_dir w ss m d f n
                Hss Hm Hd Hn Hn0) as [rest Hrest].
    exists rest. rewrite Hrest. by rewrite <- !app_assoc.
Qed.

Lemma compile_passes_compile_name_as_net_witness :
  ∃ rest,
    DPU.trace
      (DPU.compile Examples.tools Examples.dpu "resnet" tt "out" Examples.empty_world).2 =
      [DPU.EvInitSearchSpace tt; DPU.EvInitFinalModel tt "cuda:0";
       DPU.EvMakedir "out/pytorch_to_caffe"; DPU.EvRedirectStdout;
       DPU.EvTransNet (DPU.PyStr "resnet") 224 (DPU.PyModel "Net")]
      ++ rest.
Proof.
  destruct (compile_passes_compile_name_as_net Examples.tools Examples.dpu "resnet" tt
              "out" Examples.empty_world tt "Net" "out/pytorch_to_caffe"
              (DPU.fs_mkdir "out/pytorch_to_caffe" (DPU.fs Examples.empty_world)) 224%Z)
    as [_ [rest Hrest]].
  - reflexivity.
  - reflexivity.
  - reflexivity.
  - reflexivity.
  - lia.
  - exists rest. exact Hrest.
Defined.

(** C1. On a run of [compile] in which every stage succeeds, for the
    compile name [resnet] and a final model that prints as [Net], the
    stages run in the order conversion, calibration, [dnnc], and the
    calibration's [deploy_dnnc.prototxt] and [deploy.caffemodel] go to
    [dnnc] as they are; but the conversion writes [Net.prototxt] and
    [Net.caffemodel], and no [resnet.prototxt] or [resnet.caffemodel]
    exists afterwards: the converter's files are named after the model,
    which [compile] passes in the place of the name. *)
Theorem compile_names_converter_files_after_model :
  ∃ content,
    DPU.compile Examples.tools Examples.dpu "resnet" tt "out" Examples.empty_world
    = (Ok tt,
       DPU.World
         (DPU.fs (DPU.compile Examples.tools Examples.dpu "resnet" tt "out"
                    Examples.empty_world).2)
         [DPU.EvInitSearchSpace tt; DPU.EvInitFinalModel tt "cuda:0";
          DPU.EvMakedir "out/pytorch_to_caffe"; DPU.EvRedirectStdout;
          DPU.EvTransNet (DPU.PyStr "resnet") 224 (DPU.PyModel "Net");
          DPU.EvRestoreStdout; DPU.EvMakedir "out/pytorch_to_caffe";
          DPU.EvSavePrototxt "out/pytorch_to_caffe/Net.prototxt";
          DPU.EvSaveCaffemodel "out/pytorch_to_caffe/Net.caffemodel";
          DPU.EvShell
            (DPU.sed_command "out/pytorch_to_caffe/Net.prototxt"
               "out/pytorch_to_caffe/Net.prototxt.tofix.prototxt");
          DPU.EvWrite "out/pytorch_to_caffe/Net.prototxt.tofix.prototxt" content;
          DPU.EvMakedirs "out/fix";
          DPU.EvShell
            "/home/foxfi/projects/caffe_dev/build/tools/deephi_fix fix -calib_iter 0 -gpu 0 -model out/pytorch_to_caffe/Net.prototxt.tofix.prototxt -weights out/pytorch_to_caffe/Net.caffemodel -output_dir out/fix";
          DPU.EvCopy "out/fix/deploy.prototxt" "out/fix/deploy_dnnc.prototxt";
          DPU.EvShell "python modify_for_dnnc.py out/fix/deploy_dnnc.prototxt";
          DPU.EvMakedirs "out/dnnc_debug";
          DPU.EvShell
            "dnnc --mode debug --cpu_arch arm64 --save_kernel --prototxt out/fix/deploy_dnnc.prototxt --caffemodel out/fix/deploy.caffemodel  --output_dir out/dnnc_debug --dcf dpu.dcf --net_name resnet"])
    ∧ DPU.files
        (DPU.fs (DPU.compile Examples.tools Examples.dpu "resnet" tt "out"
                   Examples.empty_world).2)
      !! "out/pytorch_to_caffe/resnet.prototxt" = None
    ∧ DPU.files
        (DPU.fs (DPU.compile Examples.tools Examples.dpu "resnet" tt "out"
                   Examples.empty_world).2)
      !! "out/pytorch_to_caffe/resnet.caffemodel" = None
    ∧ DPU.files
        (DPU.fs (DPU.compile Examples.tools Examples.dpu "resnet" tt "out"
                   Examples.empty_world).2)
      !! "out/pytorch_to_caffe/Net.prototxt" = Some Examples.two_blobs.
Proof.
  eexists. split; [vm_compute; reflexivity |].
  repeat split; vm_compute; reflexivity.
Qed.

(** ** CosineDecayLR *)

Lemma for_list_Forall {A B} (f : A → outcome B) (g : A → B) (l : list A) :
  Forall (λ x, f x = Ok (g x)) l → for_list f l = Ok (g <$> l).
Proof.
  induction 1 as [|x l Hx Hl IH]; [done |].
  simpl. by rewrite Hx, IH.
Qed.

Lemma for_list_map {A B} (f : A → outcome B) (g : A → B) (l : list A) :
  (∀ x, f x = Ok (g x)) → for_list f l = Ok (g <$> l).
Proof.
  intros Hf. induction l as [|x l IH]; [done |].
  simpl. by rewrite Hf, IH.
Qed.

Section SchedulerFacts.

Context {F : Type} `{FloatOps F}.

Import CosineDecayLR.

Local Open Scope Z_scope.

#[local] Abbreviation t := (@CosineDecayLR.t F).


Lemma cosine_lrs_ok (s : t) (l : list F) :
  T_max s ≠ 0 →
  for_list (cosine_lr s) l =
    Ok ((λ base_lr,
           fadd (alpha s)
             (fdiv (fmul (fsub base_lr (alpha s))
                      (fadd (float_of_int 1)
                         (fcos (fdiv (fmul fpi (float_of_int (last_epoch s)))
                                  (float_of_int (T_max s))))))
                (float_of_int 2))) <$> l).
Proof.
  intros HT. apply for_list_map. intros b. unfold cosine_lr, div_by_int.
  by destruct (Z.eqb_spec (T_max s) 0).
Qed.


Lemma warmup_lrs_ok (s : t) (T_cur : Z) :
  warmup_lrs T_cur s =
    (Ok (rising_lr T_cur <$> zip3 (base_lrs s) (min_lrs s) (rise_lrs s)),
     if T_cur =? warmup_step s
     then set_flag true (set_last_restart_step (last_epoch s) s)
     else s).
Proof.
  unfold warmup_lrs, bind, get, when, modify, ret. simpl.
  by destruct (T_cur =? warmup_step s).
Qed.




Lemma for_list_length {A B} (f : A → outcome B) (l : list A) (l' : list B) :
  for_list f l = Ok l' → length l' = length l.
Proof.
  revert l'. induction l as [|x l IH]; intros l'; simpl.
  - by intros [= <-].
  - destruct (f x) as [y|e]; [| done]. simpl.
    destruct (for_list f l) as [ys|e]; [| done]. simpl.
    intros [= <-]. simpl. by rewrite (IH ys).
Qed.

(** [__init__] makes one rate of each kind for each group, and [get_lr]
    keeps it so. *)
Lemma init_same_groups initial_lrs last_epoch T_max alpha t_mul lr_mul warmup_step (s : t) :
  __init__ initial_lrs last_epoch T_max alpha t_mul lr_mul warmup_step = Ok s →
  same_groups s.
Proof.
  unfold __init__. destruct (get_lr _) as [[lrs|e] s1]; [| done].
  unfold rise_lrs_of. destruct (for_list _ _) as [rise|e] eqn:Hrise; [| done].
  simpl. intros [= <-]. apply for_list_length in Hrise.
  unfold same_groups. simpl in *. rewrite Hrise, length_zip, !length_fmap. lia.
Qed.

Lemma restart_same_groups (s s' : t) :
  restart s = (Ok tt, s') → same_groups s'.
Proof.
  unfold restart, bind, get, modify, lift_outcome. simpl.
  destruct (for_list _ _) as [rise|e] eqn:Hrise; [| done].
  simpl. destruct (int_of_product _ _) as [T'|e]; [| done].
  intros [= <-]. apply for_list_length in Hrise.
  unfold same_groups. simpl. rewrite Hrise, length_zip, !length_fmap. lia.
Qed.

Lemma get_lr_same_groups (s s' : t) (lrs : list F) :
  same_groups s → get_lr s = (Ok lrs, s') → same_groups s'.
Proof.
  intros Hs. unfold get_lr. unfold bind at 1, get at 1.
  intros Hrun.
  apply bind_ok_inv in Hrun as (u & s0 & Hassert & Hrun).
  assert (s0 = s) as ->.
  { destruct (0 <=? _); [by injection Hassert as _ <- | done]. }
  apply bind_ok_inv in Hrun as (lrs' & s1 & Hlrs & Hrun).
  assert (Hs1 : same_groups s1).
  { destruct (_ && _).
    - rewrite warmup_lrs_ok in Hlrs. injection Hlrs as _ <-.
      by destruct (_ =? _).
    - unfold lift_outcome in Hlrs. by injection Hlrs as _ <-. }
  unfold bind at 1, get at 1 in Hrun.
  apply bind_ok_inv in Hrun as ([] & s2 & Hwhen & Hrun).
  apply ret_inv in Hrun as [_ ->].
  destruct (_ =? _); simpl in Hwhen.
  - by apply restart_same_groups in Hwhen.
  - by injection Hwhen as <-.
Qed.

End SchedulerFacts.

(** ** LatencyObjective *)

Section ObjectiveFacts.

Context {F : Type} `{FloatOps F} {Outputs Targets : Type}.
Variable accuracy : Outputs → Targets → list F.
Variable CrossEntropyLoss : Outputs → Targets → F.

Import LatencyObjective.

#[local] Abbreviation t := (@LatencyObjective.t F).
#[local] Abbreviation cand_net := (@LatencyObjective.cand_net F).
#[local] Abbreviation tensor := (@LatencyObjective.tensor F).

Lemma subscript_ok {A} (l : list A) (i : nat) (x : A) :
  l !! i = Some x → subscript l i = Ok x.
Proof. unfold subscript. by intros ->. Qed.

Lemma subscript_inv {A} (l : list A) (i : nat) (x : A) :
  subscript l i = Ok x → l !! i = Some x.
Proof. unfold subscript. by destruct (l !! i); intros [= ->]. Qed.

Lemma obind_inv {A B} (o : outcome A) (k : A → outcome B) (b : B) :
  obind o k = Ok b → ∃ a, o = Ok a ∧ k a = Ok b.
Proof. destruct o as [a|e]; [eauto | discriminate]. Qed.









Lemma broadcast_mul_same (v row : list F) :
  length v = length row → broadcast_mul v row = Ok (zip_with fmul v row).
Proof. intros Hlen. unfold broadcast_mul. by rewrite Hlen, Nat.eqb_refl. Qed.

Lemma arch_latency_stated (self : t) (i : nat) (arch : list tensor) arch_0 row :
  arch !! 0%nat = Some arch_0 → latency_lut self !! i = Some row →
  conforms arch_0 row →
  arch_latency self i arch = Ok (stated_latency arch_0 row).
Proof.
  intros Harch Hrow Hconf. unfold arch_latency.
  rewrite (subscript_ok _ _ _ Harch), (subscript_ok _ _ _ Hrow). simpl.
  destruct arch_0 as [v|rows]; simpl in *.
  - by rewrite (broadcast_mul_same _ _ Hconf).
  - rewrite (for_list_Forall _ (λ v, zip_with fmul v row)); [done |].
    eapply Forall_impl; [exact Hconf |]. intros v Hv. by apply broadcast_mul_same.
Qed.

Lemma fold_add_tensor (l : list F) (x : F) :
  fold_left add_tensor l (Tensor x) = Tensor (fold_left fadd l x).
Proof. revert x. induction l as [|y l IH]; intros x; [done |]. simpl. by rewrite IH. Qed.

Lemma fold_add_tensor_float (l : list F) (x : F) :
  l ≠ [] → fold_left add_tensor l (PyFloat x) = Tensor (fold_left fadd l x).
Proof. destruct l as [|y l]; [done |]. intros _. simpl. by rewrite fold_add_tensor. Qed.

(** The loop of [get_loss] adds up the stated latencies of the layers
    [i], [i + 1], ... in this order. *)
Lemma loss_loop_sum (self : t) (archs : list (list tensor)) (arch_0s : list tensor) :
  Forall2 (λ arch arch_0, arch !! 0%nat = Some arch_0) archs arch_0s →
  ∀ (i : nat) (acc : accumulator),
    (∀ k arch_0, arch_0s !! k = Some arch_0 →
       ∃ row, latency_lut self !! (i + k)%nat = Some row ∧ conforms arch_0 row) →
    loss_loop self i archs acc =
      Ok (fold_left add_tensor
            (zip_with stated_latency arch_0s (drop i (latency_lut self))) acc).
Proof.
  induction 1 as [|arch arch_0 archs arch_0s Harch Harchs IH]; intros i acc Hrows.
  - done.
  - destruct (Hrows 0%nat arch_0 eq_refl) as (row & Hrow & Hconf).
    rewrite Nat.add_0_r in Hrow.
    simpl. rewrite (arch_latency_stated _ _ _ _ _ Harch Hrow Hconf). simpl.
    rewrite (drop_S _ _ _ Hrow). simpl. apply IH.
    intros k a0 Hk. destruct (Hrows (S k) a0 Hk) as (row' & Hrow' & Hconf').
    exists row'. split; [| done]. by replace (S i + k)%nat with (i + S k)%nat by lia.
Qed.

Lemma get_loss_regularized (self : t) outputs targets (cand : cand_net)
    (arch_0s : list tensor) (evaluator_regularization : bool) :
  Forall2 (λ arch arch_0, arch !! 0%nat = Some arch_0) (arch cand) arch_0s →
  arch_0s ≠ [] →
  (∀ i arch_0, arch_0s !! i = Some arch_0 →
     ∃ row, latency_lut self !! i = Some row ∧ conforms arch_0 row) →
  get_loss CrossEntropyLoss self outputs targets cand true evaluator_regularization =
    Ok (fmul (fmul (CrossEntropyLoss outputs targets) (alpha self))
          (fpow (tensor_sum (zip_with stated_latency arch_0s (latency_lut self)))
             (beta self))).
Proof.
  intros Harch Hne Hrows. unfold get_loss.
  rewrite (loss_loop_sum self _ _ Harch 0 _ Hrows), drop_0. simpl.
  rewrite fold_add_tensor_float; [done |].
  destruct arch_0s as [|a0 a0s]; [done |].
  destruct (Hrows 0%nat a0 eq_refl) as (row & Hrow & _).
  by destruct (latency_lut self).
Qed.

End ObjectiveFacts.





(** C4. With [add_controller_regularization] true, [get_loss] returns
    the cross-entropy loss multiplied by [alpha] and by [L ** beta],
    where [L] is the sum over the layers [i] of the inner product of
    [arch[0]] with row [i] of the table (divided by [arch[0].shape[0]]
    when [arch[0]] has two dimensions); with it false, it returns the
    cross-entropy loss.  The first call returns when there is a layer,
    every [arch] has an [arch[0]] of one or two dimensions, and row [i]
    exists with as many entries as [arch[0]] has columns. *)
Theorem get_loss_cross_entropy_and_latency {F : Type} `{FloatOps F}
    {Outputs Targets : Type} (CrossEntropyLoss : Outputs → Targets → F)
    (self : LatencyObjective.t) (outputs : Outputs) (targets : Targets)
    (cand_net : LatencyObjective.cand_net) (arch_0s : list LatencyObjective.tensor)
    (add_evaluator_regularization : bool) :
  (Forall2 (λ arch arch_0, arch !! 0%nat = Some arch_0)
     (LatencyObjective.arch cand_net) arch_0s →
   arch_0s ≠ [] →
   (∀ i arch_0, arch_0s !! i = Some arch_0 →
      ∃ row, LatencyObjective.latency_lut self !! i = Some row
             ∧ LatencyObjective.conforms arch_0 row) →
   LatencyObjective.get_loss CrossEntropyLoss self outputs targets cand_net true
     add_evaluator_regularization
   = Ok (fmul (fmul (CrossEntropyLoss outputs targets) (LatencyObjective.alpha self))
           (fpow
              (LatencyObjective.tensor_sum
                 (zip_with LatencyObjective.stated_latency arch_0s
                    (LatencyObjective.latency_lut self)))
              (LatencyObjective.beta self))))
  ∧ LatencyObjective.get_loss CrossEntropyLoss self outputs targets cand_net false
      add_evaluator_regularization
    = Ok (CrossEntropyLoss outputs targets).
Proof.
  split; [apply get_loss_regularized | reflexivity].
Qed.

Lemma get_loss_cross_entropy_and_latency_witness :
  @LatencyObjective.get_loss Z Examples.Z_ops unit unit Examples.cross_entropy
    (Examples.objective None) tt tt Examples.candidate true true
  = Ok (7 * 2 * (0 + (0 + 1 * 10 + 0 * 20 + 0 * 30)
                 + (0 + 0 * 15 + 1 * 25 + 0 * 35 + 0 * 15 + 0 * 25 + 1 * 35) / 2) ^ 3)%Z.
Proof.
  refine (proj1 (@get_loss_cross_entropy_and_latency Z Examples.Z_ops unit unit
                   Examples.cross_entropy (Examples.objective None) tt tt
                   Examples.candidate
                   [LatencyObjective.T1 [1; 0; 0]%Z;
                    LatencyObjective.T2 [[0; 1; 0]; [0; 0; 1]]%Z] true) _ _ _).
  - repeat constructor.
  - discriminate.
  - intros [|[|i]] arch_0 Hi; simpl in Hi; [| | discriminate Hi].
    + injection Hi as <-. exists [10; 20; 30]%Z. split; reflexivity.
    + injection Hi as <-. exists [15; 25; 35]%Z. split; [reflexivity |].
      repeat constructor.
Defined.

(** * Further properties of the code *)

(** ** weights_init and WeightInitDiffSuperNet.__init__ *)

Section InitialisationFacts.

Import Plugin SuperNet.
Local Open Scope nat_scope.

Lemma count_app {A} (p : A → bool) (l1 l2 : list A) :
  count p (l1 ++ l2) = count p l1 + count p l2.
Proof. unfold count. by rewrite List.filter_app, length_app. Qed.

(** Induction on a module with the modules below it. *)
Lemma module_tree_ind (P : module → Prop) :
  (∀ b, P (Conv2d b)) → (∀ b, P (Linear b)) → P BatchNorm2d → P ReLU →
  (∀ cs, Forall P cs → P (OtherModule cs)) →
  ∀ m, P m.
Proof.
  intros Hconv Hlin Hbn Hrelu Hother.
  fix IH 1. intros [b|b| | |cs]; [apply Hconv | apply Hlin | apply Hbn | apply Hrelu |].
  apply Hother. induction cs as [|c cs IHcs]; constructor; [apply IH | exact IHcs].
Qed.

Lemma marks_conv : marks is_conv is_kaiming.
Proof.
  intros fuel deepth a d m Hd Hr Hm. destruct m as [b| | | |]; try discriminate Hm.
  destruct fuel as [|fuel]; [discriminate Hr |]. cbn in Hr.
  destruct (Z.gtb_spec deepth default_max_depth); [lia |].
  injection Hr as <- _. by destruct b.
Qed.

Lemma marks_linear : marks is_linear is_normal.
Proof.
  intros fuel deepth a d m Hd Hr Hm. destruct m as [|b| | |]; try discriminate Hm.
  destruct fuel as [|fuel]; [discriminate Hr |]. cbn in Hr.
  destruct (Z.gtb_spec deepth default_max_depth); [lia |].
  injection Hr as <- _. by destruct b.
Qed.

Lemma for_each_count (call : module → option (outcome report))
    (hit : module → bool) (p : init_action → bool) (ms : list module) :
  (∀ m a d, call m = Some (Ok (a, d)) → hit m = true → 1 ≤ count p a) →
  ∀ a d, for_each call ms = Some (Ok (a, d)) → count hit ms ≤ count p a.
Proof.
  intros Hcall. induction ms as [|m ms IH]; intros a d; cbn.
  - intros [= <- _]. done.
  - destruct (call m) as [[[a1 d1]|e]|] eqn:Hm; [| done..].
    destruct (for_each call ms) as [[[a2 d2]|e]|]; [| done..].
    intros [= <- _]. rewrite count_app. specialize (IH a2 d2 eq_refl).
    pose proof (Hcall m a1 d1 Hm) as Hm1.
    unfold count in *. cbn.
    destruct (hit m); cbn; [specialize (Hm1 eq_refl) |]; lia.
Qed.

(** A call with the default arguments initialises each module of the
    class at least once. *)
Lemma weights_init_count (hit : module → bool) (p : init_action → bool) :
  marks hit p →
  ∀ fuel m a d,
    weights_init fuel (NNModule m) default_deepth default_max_depth = Some (Ok (a, d)) →
    count hit (modules m) ≤ count p a.
Proof.
  intros Hmarks fuel m a d Hr.
  destruct m as [b|b| | |cs] eqn:Em.
  1-4: destruct (hit m) eqn:Hhit; subst m;
       [ unfold count at 1; cbn; rewrite Hhit; cbn;
         by apply (Hmarks fuel default_deepth a d _ ltac:(done) Hr)
       | unfold count at 1; cbn; rewrite Hhit; cbn; lia ].
  destruct fuel as [|fuel]; [discriminate Hr |].
  cbn -[modules] in Hr.
  eapply for_each_count; [| exact Hr].
  intros m_ a_ d_ Hm_ Hhit. cbn beta in Hm_.
  by apply (Hmarks fuel (default_deepth + 1)%Z a_ d_ m_).
Qed.

Lemma weights_init_of_returns (fuel : nat) (m : module) :
  4 ≤ fuel →
  ∃ a d, weights_init fuel (NNModule m) default_deepth default_max_depth = Some (Ok (a, d))
         ∧ weights_init_of fuel m = Some (Ok a).
Proof.
  intros Hfuel.
  destruct (weights_init_returns m default_deepth default_max_depth) as (a & d & Hr).
  destruct (Hr fuel) as [Hrun _]; [unfold default_deepth; simpl; lia |].
  exists a, d. split; [exact Hrun |]. unfold weights_init_of. by rewrite Hrun.
Qed.

(** [apply] with a function that returns on every module returns, and
    has called it on every module of the tree. *)
Lemma apply_count (fn : module → option (outcome (list init_action)))
    (hit : module → bool) (p : init_action → bool) :
  (∀ m, ∃ a, fn m = Some (Ok a) ∧ (hit m = true → 1 ≤ count p a)) →
  ∀ m, ∃ a, apply fn m = Some (Ok a) ∧ count hit (modules m) ≤ count p a.
Proof.
  intros Hfn. induction m as [b|b| | |cs IH] using module_tree_ind.
  1-4: match goal with
       | |- ∃ a, apply _ ?m = _ ∧ _ =>
           destruct (Hfn m) as (a & Ha & Hhit); exists a; cbn; rewrite Ha;
           split; [done |]; unfold count at 1; cbn;
           destruct (hit m) eqn:Hm; cbn; [by apply Hhit | lia]
       end.
  assert (Hcs : ∃ a',
             (fix on_children (cs : list module) : option (outcome (list init_action)) :=
                match cs with
                | [] => Some (Ok [])
                | c :: cs' => sequence (apply fn c) (on_children cs')
                end) cs = Some (Ok a')
             ∧ count hit
                 ((fix of_children (cs : list module) : list module :=
                     match cs with
                     | [] => []
                     | c :: cs' => modules c ++ of_children cs'
                     end) cs) ≤ count p a').
  { induction IH as [|c cs Hc Hall IHcs].
    - by exists [].
    - destruct Hc as (ac & Hac & Hc). destruct IHcs as (a' & Ha' & Hcs).
      exists (ac ++ a'). rewrite Hac, Ha'. split; [done |].
      rewrite !count_app. lia. }
  destruct Hcs as (a' & Ha' & Hcount).
  destruct (Hfn (OtherModule cs)) as (a & Ha & Hhit).
  exists (a' ++ a). cbn -[modules]. rewrite Ha', Ha. split; [done |].
  rewrite count_app. unfold count in *. cbn.
  destruct (hit (OtherModule cs)); cbn; [specialize (Hhit eq_refl) |]; lia.
Qed.

End InitialisationFacts.

(** X1. A call of [weights_init] on a module returns without raising,
    whatever [deepth] and [max_depth] it is given and although
    [m.modules()] yields [m] itself again: the guard on the depth ends
    the recursion, within 3 nested calls from a [deepth] that is not
    negative. *)
Theorem weights_init_returns_on_every_module (m : Plugin.module) (deepth max_depth : Z) :
  ∃ (a : list Plugin.init_action) (d : nat),
    ∀ fuel : nat, (2 + Z.to_nat (2 - deepth) ≤ fuel)%nat →
      Plugin.weights_init fuel (Plugin.NNModule m) deepth max_depth = Some (Ok (a, d))
      ∧ ((0 ≤ deepth)%Z → (d ≤ 3)%nat).
Proof. exact (weights_init_returns m deepth max_depth). Qed.

Lemma weights_init_returns_on_every_module_witness :
  ∃ (a : list Plugin.init_action) (d : nat),
    Plugin.weights_init 4 (Plugin.NNModule Examples.small_net) 0 0 = Some (Ok (a, d))
    ∧ (d ≤ 3)%nat.
Proof.
  destruct (weights_init_returns_on_every_module Examples.small_net 0 0) as (a & d & Hr).
  destruct (Hr 4%nat) as [Hrun Hd]; [simpl; lia |].
  exists a, d. split; [exact Hrun | apply Hd; lia].
Defined.

(** X2. A call [weights_init(m)] with the default arguments runs the
    Kaiming initialisation at least once for every [Conv2d] among
    [m.modules()], and the normal initialisation at least once for every
    [Linear]. *)
Theorem weights_init_reaches_every_conv_and_linear (m : Plugin.module) :
  ∃ (a : list Plugin.init_action) (d : nat),
    (∀ fuel : nat, (4 ≤ fuel)%nat →
       Plugin.weights_init fuel (Plugin.NNModule m) Plugin.default_deepth
         Plugin.default_max_depth = Some (Ok (a, d)))
    ∧ (SuperNet.count SuperNet.is_conv (Plugin.modules m)
       ≤ SuperNet.count SuperNet.is_kaiming a)%nat
    ∧ (SuperNet.count SuperNet.is_linear (Plugin.modules m)
       ≤ SuperNet.count SuperNet.is_normal a)%nat.
Proof.
  destruct (weights_init_returns m Plugin.default_deepth Plugin.default_max_depth)
    as (a & d & Hr).
  exists a, d. split.
  - intros fuel Hfuel. apply Hr. unfold Plugin.default_deepth. simpl. lia.
  - destruct (Hr 4%nat) as [Hrun _]; [unfold Plugin.default_deepth; simpl; lia |].
    split.
    + exact (weights_init_count _ _ marks_conv _ _ _ _ Hrun).
    + exact (weights_init_count _ _ marks_linear _ _ _ _ Hrun).
Qed.

Lemma weights_init_reaches_every_conv_and_linear_witness :
  ∃ (a : list Plugin.init_action) (d : nat),
    Plugin.weights_init 4 (Plugin.NNModule Examples.small_net) 0 2 = Some (Ok (a, d))
    ∧ (2 ≤ SuperNet.count SuperNet.is_kaiming a)%nat
    ∧ (1 ≤ SuperNet.count SuperNet.is_normal a)%nat.
Proof.
  destruct (weights_init_reaches_every_conv_and_linear Examples.small_net)
    as (a & d & Hr & Hconv & Hlin).
  exists a, d. split; [apply Hr; lia | split; [exact Hconv | exact Hlin]].
Defined.

(** X3. [WeightInitDiffSuperNet.__init__], that is
    [self.apply(weights_init)], returns without raising on every net,
    and has then initialised every [Conv2d] and every [Linear] of the
    net at least once. *)
Theorem supernet_init_initialises_every_conv_and_linear (net : Plugin.module) (fuel : nat) :
  (4 ≤ fuel)%nat →
  ∃ a : list Plugin.init_action,
    SuperNet.__init__ fuel net = Some (Ok a)
    ∧ (SuperNet.count SuperNet.is_conv (Plugin.modules net)
       ≤ SuperNet.count SuperNet.is_kaiming a)%nat
    ∧ (SuperNet.count SuperNet.is_linear (Plugin.modules net)
       ≤ SuperNet.count SuperNet.is_normal a)%nat.
Proof.
  intros Hfuel. unfold SuperNet.__init__.
  destruct (apply_count (SuperNet.weights_init_of fuel) SuperNet.is_conv
              SuperNet.is_kaiming) with (m := net) as (a & Ha & Hconv).
  { intros m. destruct (weights_init_of_returns fuel m Hfuel) as (a & d & Hr & Hof).
    exists a. split; [exact Hof |]. intros Hm.
    by apply (marks_conv fuel Plugin.default_deepth a d m). }
  destruct (apply_count (SuperNet.weights_init_of fuel) SuperNet.is_linear
              SuperNet.is_normal) with (m := net) as (a' & Ha' & Hlin).
  { intros m. destruct (weights_init_of_returns fuel m Hfuel) as (a' & d & Hr & Hof).
    exists a'. split; [exact Hof |]. intros Hm.
    by apply (marks_linear fuel Plugin.default_deepth a' d m). }
  rewrite Ha in Ha'. injection Ha' as <-.
  exists a. auto.
Qed.

Lemma supernet_init_initialises_every_conv_and_linear_witness :
  ∃ a : list Plugin.init_action,
    SuperNet.__init__ 4 Examples.small_net = Some (Ok a)
    ∧ (2 ≤ SuperNet.count SuperNet.is_kaiming a)%nat
    ∧ (1 ≤ SuperNet.count SuperNet.is_normal a)%nat.
Proof.
  exact (supernet_init_initialises_every_conv_and_linear Examples.small_net 4
           (le_n 4)).
Defined.

(** ** MobileBlock, ResBlock and VGGBlock *)

Section BlockFacts.

Context {F : Type} `{FloatOps F}.

Import Blocks.

Local Open Scope Z_scope.

Lemma padding_of_supported (kernel_size : Z) :
  kernel_size = 1 ∨ kernel_size = 3 ∨ kernel_size = 5 ∨ kernel_size = 7 →
  ∃ padding, padding_of kernel_size = Ok padding.
Proof. intros [-> | [-> | [-> | ->]]]; by eexists. Qed.

Lemma padding_of_unsupported (kernel_size : Z) :
  kernel_size ≠ 1 → kernel_size ≠ 3 → kernel_size ≠ 5 → kernel_size ≠ 7 →
  padding_of kernel_size =
    Raise (ValueError ("Not supported kernel_size " +:+ Py.str_int kernel_size)).
Proof.
  intros H1 H3 H5 H7. unfold padding_of.
  destruct (Z.eqb_spec kernel_size 1); [done |].
  destruct (Z.eqb_spec kernel_size 3); [done |].
  destruct (Z.eqb_spec kernel_size 5); [done |].
  by destruct (Z.eqb_spec kernel_size 7).
Qed.

(** The chain of the three convolutions takes [C_in] channels to
    [C_out], and resamples as its middle convolution does. *)
Lemma bottleneck_shape (C_in C_out inner_dim kernel_size stride padding : Z)
    (bias_flag : bool) :
  let layers := bottleneck C_in C_out inner_dim kernel_size stride padding bias_flag in
  channels_through C_in layers = Some C_out
  ∧ existsb strided layers = negb (stride =? 1)
  ∧ spatial layers =
      (if (kernel_size =? 1) && (stride =? 1) && (padding =? 0) then []
       else [(kernel_size, stride, padding)])
  ∧ existsb conv_bias layers = bias_flag.
Proof.
  cbn. rewrite !Z.eqb_refl. cbn. repeat split.
  - by destruct (stride =? 1).
  - by destruct bias_flag.
Qed.

Lemma vgg_layers_shape (kernel_list : list Z) (bias_flag : bool) :
  ∀ (C_in C_out : Z) (layers : list layer),
    vgg_layers C_in C_out kernel_list bias_flag = Ok layers →
    channels_through C_in layers = Some (if kernel_list is [] then C_in else C_out)
    ∧ existsb strided layers = false
    ∧ (existsb conv_bias layers = true → bias_flag = true).
Proof.
  induction kernel_list as [|k ks IH]; intros C_in C_out layers; cbn.
  - by intros [= <-].
  - destruct (vgg_padding k) as [padding|e]; [| done]. cbn.
    destruct (vgg_layers C_out C_out ks bias_flag) as [rest|e] eqn:Hrest; [| done].
    cbn. intros [= <-]. cbn. rewrite !Z.eqb_refl.
    destruct (IH _ _ _ Hrest) as (Hch & Hstr & Hbias).
    split; [| split].
    + rewrite Hch. by destruct ks.
    + exact Hstr.
    + destruct bias_flag; [done | exact Hbias].
Qed.

Lemma vgg_layers_returns (kernel_list : list Z) (bias_flag : bool) :
  Forall (λ x, ∃ z, int_of_float x = Ok z)
    ((λ kernel_size, fdiv (float_of_int (kernel_size - 1)) (float_of_int 2))
       <$> kernel_list) →
  ∀ C_in C_out, ∃ layers, vgg_layers C_in C_out kernel_list bias_flag = Ok layers.
Proof.
  induction kernel_list as [|k ks IH]; intros Hint C_in C_out; cbn.
  - by eexists.
  - apply Forall_cons in Hint as [[z Hz] Hint].
    unfold vgg_padding. rewrite Hz. cbn.
    destruct (IH Hint C_out C_out) as [rest ->]. cbn. by eexists.
Qed.

Lemma inner_dim_of_returns (C_in : Z) (expansion : Plugin.ratio) :
  Forall (λ x, ∃ z, int_of_float x = Ok z)
    (match number_of_ratio expansion with
     | CosineDecayLR.Int _ => []
     | CosineDecayLR.Float x => [fmul (float_of_int C_in) x]
     end) →
  ∃ inner_dim, inner_dim_of C_in (number_of_ratio expansion) = Ok inner_dim.
Proof.
  unfold inner_dim_of. destruct (number_of_ratio expansion) as [n|x]; cbn.
  - by eexists.
  - intros Hint. apply Forall_cons in Hint as [[z ->] _]. cbn. by eexists.
Qed.

Lemma construct_mobile (C_in C_out kernel_size stride : Z) (expansion : Plugin.ratio) :
  Forall (λ x, ∃ z, int_of_float x = Ok z)
    (converted (Plugin.MobileBlock C_in C_out kernel_size stride expansion)) →
  kernel_size = 1 ∨ kernel_size = 3 ∨ kernel_size = 5 ∨ kernel_size = 7 →
  ∃ seqs, construct (Plugin.MobileBlock C_in C_out kernel_size stride expansion) = Ok seqs
          ∧ well_formed C_in C_out seqs.
Proof.
  intros Hint Hk. unfold construct, MobileBlock__init__.
  destruct (padding_of_supported _ Hk) as [padding ->].
  destruct (inner_dim_of_returns C_in expansion Hint) as [inner_dim ->]. cbn -[bottleneck].
  eexists. split; [done |]. constructor; [| constructor].
  destruct (bottleneck_shape C_in C_out inner_dim kernel_size stride padding false)
    as (Hch & _ & _ & Hbias).
  by split.
Qed.

Lemma construct_res (C_in C_out kernel_size stride : Z) (expansion : Plugin.ratio) :
  Forall (λ x, ∃ z, int_of_float x = Ok z)
    (converted (Plugin.ResBlock C_in C_out kernel_size stride expansion)) →
  kernel_size = 1 ∨ kernel_size = 3 ∨ kernel_size = 5 ∨ kernel_size = 7 →
  ∃ seqs, construct (Plugin.ResBlock C_in C_out kernel_size stride expansion) = Ok seqs
          ∧ well_formed C_in C_out seqs.
Proof.
  intros Hint Hk. unfold construct, ResBlock__init__.
  destruct (padding_of_supported _ Hk) as [padding ->].
  destruct (inner_dim_of_returns C_in expansion Hint) as [inner_dim ->]. cbn -[bottleneck].
  eexists. split; [done |]. constructor; [| constructor; [| constructor]].
  - destruct (bottleneck_shape C_in C_out inner_dim kernel_size stride padding false)
      as (Hch & _ & _ & Hbias).
    by split.
  - cbn. by rewrite !Z.eqb_refl.
Qed.

Lemma construct_vgg (C_in C_out : Z) (kernel_list : list Z) (stride : Z) :
  Forall (λ x, ∃ z, int_of_float x = Ok z)
    (converted (Plugin.VGGBlock C_in C_out kernel_list stride true)) →
  kernel_list ≠ [] →
  ∃ seqs, construct (Plugin.VGGBlock C_in C_out kernel_list stride true) = Ok seqs
          ∧ well_formed C_in C_out seqs.
Proof.
  intros Hint Hne. unfold construct, VGGBlock__init__.
  destruct (vgg_layers_returns kernel_list (negb true) Hint C_in C_out) as [layers Hl].
  rewrite Hl. cbn.
  destruct (vgg_layers_shape _ _ _ _ _ Hl) as (Hch & _ & Hbias).
  eexists. split; [done |]. constructor; [| constructor].
  assert (Hch' : channels_through C_in layers = Some C_out) by by destruct kernel_list.
  assert (Hbias' : existsb conv_bias layers = false).
  { destruct (existsb conv_bias layers); [by specialize (Hbias eq_refl) | done]. }
  destruct (stride =? 2); [| done].
  split.
  - clear Hl Hch Hbias Hbias'. revert Hch'. generalize C_in.
    induction layers as [|[ci co k s p b|n| |k s] rest IH]; intros c; cbn.
    + by intros [= ->].
    + destruct (c =? ci); [apply IH | done].
    + destruct (c =? n); [apply IH | done].
    + apply IH.
    + apply IH.
  - by rewrite existsb_app, Hbias'.
Qed.

(** The convolutions of a [VGGBlock]: one for each kernel, none of
    them strided, and no pooling among them. *)
Lemma vgg_layers_convolutions (kernel_list : list Z) (bias_flag : bool) :
  ∀ (C_in C_out : Z) (layers : list layer),
    vgg_layers C_in C_out kernel_list bias_flag = Ok layers →
    kernel_sizes layers = kernel_list
    ∧ Forall (λ l, convolution l = true → strided l = false) layers
    ∧ List.filter pooling layers = [].
Proof.
  induction kernel_list as [|k ks IH]; intros C_in C_out layers; cbn.
  - intros [= <-]. by repeat split.
  - destruct (vgg_padding k) as [padding|e]; [| done]. cbn.
    destruct (vgg_layers C_out C_out ks bias_flag) as [rest|e] eqn:Hrest; [| done].
    cbn. intros [= <-]. destruct (IH _ _ _ Hrest) as (Hks & Hconv & Hpool).
    cbn. rewrite Hks. split; [done |]. split; [| exact Hpool].
    repeat (constructor; [done |]). exact Hconv.
Qed.

Lemma kernel_sizes_app (l1 l2 : list layer) :
  kernel_sizes (l1 ++ l2) = kernel_sizes l1 ++ kernel_sizes l2.
Proof.
  induction l1 as [|[ci co k s p b|n| |k s] l1 IH]; cbn; [done | by rewrite IH | done..].
Qed.

End BlockFacts.

(** X4. [MobileBlock] and [ResBlock] raise [ValueError] for a
    [kernel_size] other than 1, 3, 5 and 7, before they look at
    [expansion]. *)
Theorem blocks_reject_unsupported_kernel_size {F : Type} `{FloatOps F}
    (C_in C_out kernel_size stride : Z) (expansion : CosineDecayLR.number) (bn : bool) :
  kernel_size ≠ 1%Z → kernel_size ≠ 3%Z → kernel_size ≠ 5%Z → kernel_size ≠ 7%Z →
  Blocks.MobileBlock__init__ C_in C_out kernel_size stride expansion bn
    = Raise (ValueError ("Not supported kernel_size " +:+ Py.str_int kernel_size))
  ∧ Blocks.ResBlock__init__ C_in C_out kernel_size stride expansion bn
    = Raise (ValueError ("Not supported kernel_size " +:+ Py.str_int kernel_size)).
Proof.
  intros H1 H3 H5 H7. unfold Blocks.MobileBlock__init__, Blocks.ResBlock__init__.
  by rewrite (padding_of_unsupported _ H1 H3 H5 H7).
Qed.

Lemma blocks_reject_unsupported_kernel_size_witness :
  @Blocks.MobileBlock__init__ Z Examples.Z_ops 16 32 4 1 (CosineDecayLR.Int 1) true
    = Raise (ValueError "Not supported kernel_size 4")
  ∧ @Blocks.ResBlock__init__ Z Examples.Z_ops 16 32 4 1 (CosineDecayLR.Int 1) true
    = Raise (ValueError "Not supported kernel_size 4").
Proof.
  apply (@blocks_reject_unsupported_kernel_size Z Examples.Z_ops 16 32 4 1
           (CosineDecayLR.Int 1) true); discriminate.
Defined.

(** X5. The [op] of a [MobileBlock] takes [C_in] channels to [C_out];
    [res_flag] is set exactly when [C_in == C_out] and [stride == 1],
    and then [op] keeps the channels of its input and has no strided
    layer, so that [op(x) + x] adds tensors of one shape. *)
Theorem mobile_block_residual_shapes {F : Type} `{FloatOps F}
    (C_in C_out kernel_size stride : Z) (expansion : CosineDecayLR.number) (bn : bool)
    (m : Blocks.MobileBlock) :
  Blocks.MobileBlock__init__ C_in C_out kernel_size stride expansion bn = Ok m →
  Blocks.channels_through C_in (Blocks.op m) = Some C_out
  ∧ (Blocks.res_flag m = true ↔ C_in = C_out ∧ stride = 1%Z)
  ∧ (Blocks.res_flag m = true →
     Blocks.channels_through C_in (Blocks.op m) = Some C_in
     ∧ existsb Blocks.strided (Blocks.op m) = false).
Proof.
  unfold Blocks.MobileBlock__init__. intros Hm.
  apply obind_inv in Hm as (padding & Hp & Hm).
  apply obind_inv in Hm as (inner_dim & Hd & [= <-]).
  cbn [Blocks.op Blocks.res_flag].
  destruct (bottleneck_shape C_in C_out inner_dim kernel_size stride padding (negb bn))
    as (Hch & Hstr & _).
  assert (Hflag : (C_in =? C_out)%Z && (stride =? 1)%Z = true ↔ C_in = C_out ∧ stride = 1%Z).
  { rewrite andb_true_iff, !Z.eqb_eq. done. }
  split; [exact Hch |]. split; [exact Hflag |].
  intros [-> ->]%Hflag. by rewrite Hch, Hstr.
Qed.

Lemma mobile_block_residual_shapes_witness :
  ∃ m, @Blocks.MobileBlock__init__ Z Examples.Z_ops 16 16 3 1 (CosineDecayLR.Int 1) true = Ok m
       ∧ Blocks.res_flag m = true
       ∧ Blocks.channels_through 16 (Blocks.op m) = Some 16%Z
       ∧ existsb Blocks.strided (Blocks.op m) = false.
Proof.
  eexists. split; [reflexivity |].
  destruct (@mobile_block_residual_shapes Z Examples.Z_ops 16 16 3 1 (CosineDecayLR.Int 1)
              true _ eq_refl) as (_ & Hflag & Hres).
  split; [by apply Hflag |]. apply Hres. by apply Hflag.
Defined.

(** X6. The two branches of a [ResBlock] both take [C_in] channels to
    [C_out], and the layers that decide the height and the width are
    the same in both (one convolution with [kernel_size], [stride] and
    the padding), so that [a + b] adds tensors of one shape. *)
Theorem res_block_branches_agree {F : Type} `{FloatOps F}
    (C_in C_out kernel_size stride : Z) (expansion : CosineDecayLR.number) (bn : bool)
    (r : Blocks.ResBlock) :
  Blocks.ResBlock__init__ C_in C_out kernel_size stride expansion bn = Ok r →
  Blocks.channels_through C_in (Blocks.opa r) = Some C_out
  ∧ Blocks.channels_through C_in (Blocks.opb r) = Some C_out
  ∧ Blocks.spatial (Blocks.opa r) = Blocks.spatial (Blocks.opb r).
Proof.
  unfold Blocks.ResBlock__init__. intros Hr.
  apply obind_inv in Hr as (padding & Hp & Hr).
  apply obind_inv in Hr as (inner_dim & Hd & [= <-]).
  cbn [Blocks.opa Blocks.opb].
  destruct (bottleneck_shape C_in C_out inner_dim kernel_size stride padding (negb bn))
    as (Hch & _ & Hsp & _).
  split; [exact Hch |]. split.
  - cbn. by rewrite !Z.eqb_refl.
  - rewrite Hsp. cbn. by destruct (_ && _).
Qed.

Lemma res_block_branches_agree_witness :
  ∃ r, @Blocks.ResBlock__init__ Z Examples.Z_ops 16 32 5 2 (CosineDecayLR.Int 1) true = Ok r
       ∧ Blocks.channels_through 16 (Blocks.opa r) = Some 32%Z
       ∧ Blocks.channels_through 16 (Blocks.opb r) = Some 32%Z
       ∧ Blocks.spatial (Blocks.opa r) = Blocks.spatial (Blocks.opb r).
Proof.
  eexists. split; [reflexivity |].
  exact (@res_block_branches_agree Z Examples.Z_ops 16 32 5 2 (CosineDecayLR.Int 1)
           true _ eq_refl).
Defined.

(** X7. A [VGGBlock] chains its convolutions from [C_in] to [C_out]
    channels.  It has one convolution for each entry of [kernel_list],
    with that kernel size and in that order, so that with an empty
    [kernel_list] it has no convolution and keeps the [C_in] channels.
    No convolution is strided: the only strided layer is the pooling
    [MaxPool2d(2, 2)], which is there, once, exactly when [stride == 2],
    so that any other [stride] leaves the height and the width as they
    are. *)
Theorem vgg_block_channels_and_stride {F : Type} `{FloatOps F}
    (C_in C_out : Z) (kernel_list : list Z) (stride : Z) (bn : bool)
    (layers : list Blocks.layer) :
  Blocks.VGGBlock__init__ C_in C_out kernel_list stride bn = Ok layers →
  Blocks.channels_through C_in layers
    = Some (if kernel_list is [] then C_in else C_out)
  ∧ existsb Blocks.strided layers = (stride =? 2)%Z
  ∧ (stride ≠ 2%Z → Forall (λ l, if l is Blocks.MaxPool2d _ _ then False else True) layers)
  ∧ Blocks.kernel_sizes layers = kernel_list
  ∧ Forall (λ l, Blocks.convolution l = true → Blocks.strided l = false) layers
  ∧ List.filter Blocks.pooling layers
    = (if (stride =? 2)%Z then [Blocks.MaxPool2d 2 2] else []).
Proof.
  unfold Blocks.VGGBlock__init__. intros Hl.
  apply obind_inv in Hl as (tmp_block & Htmp & [= <-]).
  destruct (vgg_layers_shape _ _ _ _ _ Htmp) as (Hch & Hstr & _).
  destruct (vgg_layers_convolutions _ _ _ _ _ Htmp) as (Hks & Hconv & Hpool).
  assert (Hnopool : Forall (λ l, if l is Blocks.MaxPool2d _ _ then False else True) tmp_block).
  { clear Hch Hstr Hks Hconv Hpool. revert C_in tmp_block Htmp.
    induction kernel_list as [|k ks IH]; intros C_in tmp_block; cbn.
    - intros [= <-]. constructor.
    - intros Htmp. apply obind_inv in Htmp as (padding & _ & Htmp).
      apply obind_inv in Htmp as (rest & Hrest & [= <-]).
      repeat (constructor; [done |]). by apply (IH C_out). }
  destruct (Z.eqb_spec stride 2) as [->|Hs]; [| done].
  split; [| split; [| split; [done |]]].
  - clear Htmp Hstr Hnopool Hks Hconv Hpool. revert Hch.
    generalize (if kernel_list is [] then C_in else C_out). generalize C_in.
    induction tmp_block as [|[ci co k s p b|n| |k s] rest IH]; intros c c'; cbn.
    + by intros [= ->].
    + destruct (c =? ci)%Z; [apply IH | done].
    + destruct (c =? n)%Z; [apply IH | done].
    + apply IH.
    + apply IH.
  - rewrite existsb_app, Hstr. reflexivity.
  - split; [| split].
    + by rewrite kernel_sizes_app, Hks, app_nil_r.
    + apply Forall_app. split; [exact Hconv |]. by constructor.
    + by rewrite List.filter_app, Hpool.
Qed.

Lemma vgg_block_channels_and_stride_witness :
  @Blocks.VGGBlock__init__ Q Examples.Q_ops 16 32 [1; 3]%Z 2 true
    = Ok [Blocks.Conv2d 16 32 1 1 0 false; Blocks.BatchNorm2d 32; Blocks.ReLU;
          Blocks.Conv2d 32 32 3 1 1 false; Blocks.BatchNorm2d 32; Blocks.ReLU;
          Blocks.MaxPool2d 2 2]
  ∧ (∃ layers,
       @Blocks.VGGBlock__init__ Q Examples.Q_ops 16 32 [1; 3]%Z 2 true = Ok layers
       ∧ Blocks.channels_through 16 layers = Some 32%Z
       ∧ Blocks.kernel_sizes layers = [1; 3]%Z
       ∧ List.filter Blocks.pooling layers = [Blocks.MaxPool2d 2 2])
  ∧ (∃ layers,
       @Blocks.VGGBlock__init__ Q Examples.Q_ops 16 32 [1; 3]%Z 3 true = Ok layers
       ∧ existsb Blocks.strided layers = false
       ∧ List.filter Blocks.pooling layers = []).
Proof.
  split; [reflexivity |]. split.
  - eexists. split; [reflexivity |].
    destruct (@vgg_block_channels_and_stride Q Examples.Q_ops 16 32 [1; 3]%Z 2 true _ eq_refl)
      as (Hch & _ & _ & Hks & _ & Hpool).
    split; [exact Hch |]. split; [exact Hks | exact Hpool].
  - eexists. split; [reflexivity |].
    destruct (@vgg_block_channels_and_stride Q Examples.Q_ops 16 32 [1; 3]%Z 3 true _ eq_refl)
      as (_ & Hstr & _ & _ & _ & Hpool).
    split; [exact Hstr | exact Hpool].
Defined.

(** X8. No registered primitive looks at its [affine] argument. *)
Theorem registered_primitives_ignore_affine (name : string) (f : Plugin.primitive)
    (C_in C_out stride : Z) (affine affine' : bool) :
  (name, f) ∈ Plugin.register_primitive_calls →
  f C_in C_out stride affine = f C_in C_out stride affine'.
Proof.
  intros Hin.
  assert (Hall : Forall (λ nf : string * Plugin.primitive,
                           nf.2 C_in C_out stride affine = nf.2 C_in C_out stride affine')
                   Plugin.register_primitive_calls).
  { unfold Plugin.register_primitive_calls. repeat constructor. }
  rewrite Forall_forall in Hall. exact (Hall _ Hin).
Qed.

Lemma registered_primitives_ignore_affine_witness :
  Plugin.Resblock_4 16%Z 32%Z 2%Z true = Plugin.Resblock_4 16%Z 32%Z 2%Z false.
Proof.
  apply (registered_primitives_ignore_affine "Resblock_4" Plugin.Resblock_4 16%Z 32%Z 2%Z
           true false).
  unfold Plugin.register_primitive_calls.
  repeat first [apply list_elem_of_here | apply list_elem_of_further].
Defined.

(** X9. For positive numbers of channels and a positive stride, the
    constructor call of every registered primitive returns (no
    primitive has an unsupported kernel size) when [int] has a value for
    the [float]s that the call hands to it, which are
    [C_in * expansion] for an [expansion] that is a [float] and
    [(kernel_size - 1) / 2] for the kernels of a [VGGBlock]; and it
    makes sequences that take [C_in] channels to [C_out] and have no
    bias in a convolution. *)
Theorem registered_primitives_construct {F : Type} `{FloatOps F}
    (name : string) (f : Plugin.primitive) (C_in C_out stride : Z) (affine : bool) :
  (0 < C_in)%Z → (0 < C_out)%Z → (0 < stride)%Z →
  (name, f) ∈ Plugin.register_primitive_calls →
  Forall (λ x, ∃ z, int_of_float x = Ok z)
    (Blocks.converted (f C_in C_out stride affine)) →
  ∃ seqs, Blocks.construct (f C_in C_out stride affine) = Ok seqs
          ∧ Blocks.well_formed C_in C_out seqs.
Proof.
  intros _ _ _ Hin.
  assert (Hall : Forall (λ nf : string * Plugin.primitive,
                           Forall (λ x, ∃ z, int_of_float x = Ok z)
                             (Blocks.converted (nf.2 C_in C_out stride affine)) →
                           ∃ seqs, Blocks.construct (nf.2 C_in C_out stride affine) = Ok seqs
                                   ∧ Blocks.well_formed C_in C_out seqs)
                   Plugin.register_primitive_calls).
  { unfold Plugin.register_primitive_calls.
    repeat (constructor;
            [ intros Hint;
              first [ apply (construct_mobile _ _ _ _ _ Hint); auto
                    | apply (construct_res _ _ _ _ _ Hint); auto
                    | by apply (construct_vgg _ _ _ _ Hint) ] |]).
    constructor. }
  rewrite Forall_forall in Hall. exact (Hall _ Hin).
Qed.

Lemma registered_primitives_construct_witness :
  @Blocks.construct Q Examples.Q_ops (Plugin.Mobileblock_3 16%Z 32%Z 2%Z true)
    = Ok [[Blocks.Conv2d 16 5 1 1 0 false; Blocks.BatchNorm2d 5; Blocks.ReLU;
           Blocks.Conv2d 5 5 3 2 1 false; Blocks.BatchNorm2d 5; Blocks.ReLU;
           Blocks.Conv2d 5 32 1 1 0 false; Blocks.BatchNorm2d 32]]
  ∧ ∃ seqs,
      @Blocks.construct Q Examples.Q_ops (Plugin.Mobileblock_3 16%Z 32%Z 2%Z true) = Ok seqs
      ∧ Blocks.well_formed 16%Z 32%Z seqs.
Proof.
  split; [reflexivity |].
  apply (@registered_primitives_construct Q Examples.Q_ops "Mobileblock_3"
           Plugin.Mobileblock_3 16%Z 32%Z 2%Z true).
  - lia.
  - lia.
  - lia.
  - unfold Plugin.register_primitive_calls.
    repeat first [apply list_elem_of_here | apply list_elem_of_further].
  - repeat constructor. eexists. reflexivity.
Defined.

(** ** CosineDecayLR: errors, the cosine branch and the warm-up *)

Section SchedulerEdges.

Context {F : Type} `{FloatOps F}.

Import CosineDecayLR.

Local Open Scope Z_scope.

#[local] Abbreviation t := (@CosineDecayLR.t F).


Lemma in_cosine_branch_test (s : t) :
  in_cosine_branch s →
  (last_epoch s - last_restart_step s <=? warmup_step s) && negb (flag s) = false.
Proof.
  intros [-> | Hlt]; [by rewrite andb_false_r |].
  by destruct (Z.leb_spec (last_epoch s - last_restart_step s) (warmup_step s)); [lia |].
Qed.

Lemma get_lr_asserted (s : t) :
  0 ≤ last_epoch s - last_restart_step s →
  get_lr s =
    (do lrs <-
       (if (last_epoch s - last_restart_step s <=? warmup_step s) && negb (flag s)
        then warmup_lrs (last_epoch s - last_restart_step s)
        else lift_outcome (for_list (cosine_lr s) (base_lrs s)));
     do self <- get;
     run when (last_epoch s - last_restart_step s =? T_max self) restart;
     ret lrs) s.
Proof.
  intros H0. unfold get_lr. unfold bind at 1, get at 1.
  rewrite (bind_ok _ _ s s tt); [done |].
  by destruct (Z.leb_spec 0 (last_epoch s - last_restart_step s)); [| lia].
Qed.

Lemma cosine_lrs_zero (s : t) :
  T_max s = 0 → base_lrs s ≠ [] →
  for_list (cosine_lr s) (base_lrs s) = Raise ZeroDivisionError.
Proof.
  intros HT Hne. destruct (base_lrs s) as [|b bs]; [done |].
  cbn. unfold cosine_lr, div_by_int. by rewrite HT.
Qed.

Lemma get_lr_cosine (s : t) :
  0 ≤ last_epoch s - last_restart_step s → in_cosine_branch s →
  last_epoch s - last_restart_step s ≠ T_max s → T_max s ≠ 0 →
  get_lr s =
    (Ok ((λ base_lr,
            fadd (alpha s)
              (fdiv (fmul (fsub base_lr (alpha s))
                       (fadd (float_of_int 1)
                          (fcos (fdiv (fmul fpi (float_of_int (last_epoch s)))
                                   (float_of_int (T_max s))))))
                 (float_of_int 2))) <$> base_lrs s), s).
Proof.
  intros H0 Hcos HT HT0. rewrite (get_lr_asserted s H0).
  rewrite (in_cosine_branch_test s Hcos), (cosine_lrs_ok _ _ HT0).
  erewrite bind_ok; [| reflexivity].
  unfold bind at 1, get at 1.
  by destruct (Z.eqb_spec (last_epoch s - last_restart_step s) (T_max s)).
Qed.

Lemma get_lr_warmup (s : t) :
  flag s = false →
  0 ≤ last_epoch s - last_restart_step s ≤ warmup_step s →
  last_epoch s - last_restart_step s ≠ T_max s →
  get_lr s =
    (Ok (rising_lr (last_epoch s - last_restart_step s)
           <$> zip3 (base_lrs s) (min_lrs s) (rise_lrs s)),
     if last_epoch s - last_restart_step s =? warmup_step s
     then set_flag true (set_last_restart_step (last_epoch s) s)
     else s).
Proof.
  intros Hflag [H0 Hle] HT. rewrite (get_lr_asserted s H0), Hflag.
  destruct (Z.leb_spec (last_epoch s - last_restart_step s) (warmup_step s)); [| lia].
  simpl. erewrite bind_ok; [| apply warmup_lrs_ok].
  unfold bind at 1, get at 1.
  set (s1 := if _ =? _ then _ else s).
  assert (HT1 : T_max s1 = T_max s) by (unfold s1; by destruct (_ =? _)).
  rewrite HT1.
  by destruct (Z.eqb_spec (last_epoch s - last_restart_step s) (T_max s)).
Qed.

Lemma restart_base_lrs (s s' : t) :
  restart s = (Ok tt, s') → base_lrs s' = (λ b_lr, fmul b_lr (lr_mul s)) <$> base_lrs s.
Proof.
  unfold restart, bind, get, modify, lift_outcome. simpl.
  destruct (for_list _ _) as [rise|e]; [| done].
  simpl. destruct (int_of_product _ _) as [T'|e]; [| done].
  by intros [= <-].
Qed.

Lemma get_lr_lengths (s s' : t) (lrs : list F) :
  same_groups s → get_lr s = (Ok lrs, s') →
  length lrs = length (base_lrs s) ∧ length (base_lrs s') = length (base_lrs s).
Proof.
  intros [Hmin Hrise]. unfold get_lr. unfold bind at 1, get at 1.
  intros Hrun.
  apply bind_ok_inv in Hrun as (u & s0 & Hassert & Hrun).
  assert (s0 = s) as ->.
  { destruct (0 <=? _); [by injection Hassert as _ <- | done]. }
  apply bind_ok_inv in Hrun as (lrs' & s1 & Hlrs & Hrun).
  assert (Hs1 : length lrs' = length (base_lrs s) ∧ base_lrs s1 = base_lrs s).
  { destruct (_ && _).
    - rewrite warmup_lrs_ok in Hlrs. injection Hlrs as <- <-.
      split; [| by destruct (_ =? _)].
      unfold zip3. rewrite length_fmap, !length_zip. lia.
    - unfold lift_outcome in Hlrs.
      destruct (for_list _ _) as [l|e] eqn:Hl; [| done].
      injection Hlrs as <- <-. split; [| done]. by apply for_list_length in Hl. }
  destruct Hs1 as [Hlen Hbase].
  unfold bind at 1, get at 1 in Hrun.
  apply bind_ok_inv in Hrun as ([] & s2 & Hwhen & Hrun).
  apply ret_inv in Hrun as [-> ->].
  split; [exact Hlen |]. rewrite <- Hbase.
  destruct (_ =? _); simpl in Hwhen; [| by injection Hwhen as <-].
  by rewrite (restart_base_lrs _ _ Hwhen), length_fmap.
Qed.






End SchedulerEdges.



(** X11. [get_lr] raises [AssertionError] when [last_epoch] is before
    [last_restart_step], and [ZeroDivisionError] when it takes the
    cosine branch with [T_max = 0] and at least one parameter group; in
    both cases the scheduler is left as it was. *)
Theorem get_lr_errors_leave_the_scheduler {F : Type} `{FloatOps F} (s : CosineDecayLR.t) :
  let T_cur := (CosineDecayLR.last_epoch s - CosineDecayLR.last_restart_step s)%Z in
  ((T_cur < 0)%Z → CosineDecayLR.get_lr s = (Raise AssertionError, s))
  ∧ ((0 ≤ T_cur)%Z → CosineDecayLR.in_cosine_branch s →
     CosineDecayLR.T_max s = 0%Z → CosineDecayLR.base_lrs s ≠ [] →
     CosineDecayLR.get_lr s = (Raise ZeroDivisionError, s)).
Proof.
  intros T_cur. split.
  - intros Hneg. unfold CosineDecayLR.get_lr. unfold bind at 1, get at 1.
    fold T_cur. by destruct (Z.leb_spec 0 T_cur); [lia |].
  - intros H0 Hcos HT Hne. rewrite (get_lr_asserted s H0).
    by rewrite (in_cosine_branch_test s Hcos), (cosine_lrs_zero s HT Hne).
Qed.

Lemma get_lr_errors_leave_the_scheduler_witness :
  (let s := CosineDecayLR.Build 4 2%Z (CosineDecayLR.Int 2) 3%Z 2 5 true 1
              [100; 200]%Z [200; 400]%Z [-50; -100]%Z in
   @CosineDecayLR.get_lr Z Examples.Z_ops s = (Raise AssertionError, s))
  ∧ (let s := CosineDecayLR.Build 0 2%Z (CosineDecayLR.Int 2) 3%Z 2 0 true 1
                [100; 200]%Z [200; 400]%Z [-50; -100]%Z in
     @CosineDecayLR.get_lr Z Examples.Z_ops s = (Raise ZeroDivisionError, s)).
Proof.
  split.
  - apply (@get_lr_errors_leave_the_scheduler Z Examples.Z_ops). simpl. lia.
  - apply (@get_lr_errors_leave_the_scheduler Z Examples.Z_ops).
    + simpl. lia.
    + by left.
    + reflexivity.
    + discriminate.
Defined.

(** X12. In the cosine branch, away from a restart, [get_lr] returns
    [alpha + (base_lr - alpha) * (1 + cos(pi * last_epoch / T_max)) / 2]
    for every group, with [last_epoch] counted from the start and not
    from the last restart, and leaves the scheduler as it was. *)
Theorem get_lr_cosine_rates {F : Type} `{FloatOps F} (s : CosineDecayLR.t) :
  let T_cur := (CosineDecayLR.last_epoch s - CosineDecayLR.last_restart_step s)%Z in
  (0 ≤ T_cur)%Z → CosineDecayLR.in_cosine_branch s →
  T_cur ≠ CosineDecayLR.T_max s → CosineDecayLR.T_max s ≠ 0%Z →
  CosineDecayLR.get_lr s =
    (Ok ((λ base_lr,
            fadd (CosineDecayLR.alpha s)
              (fdiv (fmul (fsub base_lr (CosineDecayLR.alpha s))
                       (fadd (float_of_int 1)
                          (fcos (fdiv (fmul fpi (float_of_int (CosineDecayLR.last_epoch s)))
                                   (float_of_int (CosineDecayLR.T_max s))))))
                 (float_of_int 2))) <$> CosineDecayLR.base_lrs s), s).
Proof. intros T_cur. apply get_lr_cosine. Qed.

Lemma get_lr_cosine_rates_witness :
  @CosineDecayLR.get_lr Z Examples.Z_ops Examples.cooling
  = (Ok [2 + (100 - 2) * (1 + (1 - (3 * 1 / 4) * (3 * 1 / 4) / 2)) / 2;
         2 + (200 - 2) * (1 + (1 - (3 * 1 / 4) * (3 * 1 / 4) / 2)) / 2]%Z,
     Examples.cooling).
Proof.
  apply (@get_lr_cosine_rates Z Examples.Z_ops Examples.cooling).
  - simpl. lia.
  - by left.
  - discriminate.
  - discriminate.
Defined.

(** X13. A call of [get_lr] that returns gives one rate for each
    parameter group, and leaves one [base_lr], one [min_lr] and one
    [rise_lr] for each group, as [__init__] does. *)
Theorem get_lr_one_rate_per_group {F : Type} `{FloatOps F} (s s' : CosineDecayLR.t)
    (lrs : list F) :
  CosineDecayLR.same_groups s →
  CosineDecayLR.get_lr s = (Ok lrs, s') →
  length lrs = length (CosineDecayLR.base_lrs s)
  ∧ length (CosineDecayLR.base_lrs s') = length (CosineDecayLR.base_lrs s)
  ∧ CosineDecayLR.same_groups s'.
Proof.
  intros Hs Hrun. destruct (get_lr_lengths s s' lrs Hs Hrun) as [Hlrs Hbase].
  split; [exact Hlrs |]. split; [exact Hbase |].
  exact (get_lr_same_groups s s' lrs Hs Hrun).
Qed.

Lemma get_lr_one_rate_per_group_witness :
  ∃ lrs s',
    @CosineDecayLR.get_lr Z Examples.Z_ops Examples.at_restart = (Ok lrs, s')
    ∧ length lrs = 2%nat
    ∧ length (CosineDecayLR.base_lrs s') = 2%nat
    ∧ CosineDecayLR.same_groups s'.
Proof.
  assert (Hrun : ∃ lrs s',
            @CosineDecayLR.get_lr Z Examples.Z_ops Examples.at_restart = (Ok lrs, s'))
    by (vm_compute; eauto).
  destruct Hrun as (lrs & s' & Hrun). exists lrs, s'. split; [exact Hrun |].
  apply (@get_lr_one_rate_per_group Z Examples.Z_ops Examples.at_restart s' lrs).
  - split; reflexivity.
  - exact Hrun.
Defined.

(** X14. During a warm-up, away from a restart, [get_lr] changes the
    scheduler only at the step [T_cur == warmup_step]: there it sets
    [flag] and moves [last_restart_step] to [last_epoch], so that the
    period of the cosine is counted from the end of the warm-up. *)
Theorem get_lr_warmup_ends_by_restarting_the_count {F : Type} `{FloatOps F}
    (s : CosineDecayLR.t) :
  let T_cur := (CosineDecayLR.last_epoch s - CosineDecayLR.last_restart_step s)%Z in
  CosineDecayLR.flag s = false →
  (0 ≤ T_cur ≤ CosineDecayLR.warmup_step s)%Z →
  T_cur ≠ CosineDecayLR.T_max s →
  ∃ lrs s',
    CosineDecayLR.get_lr s = (Ok lrs, s')
    ∧ s' = (if (T_cur =? CosineDecayLR.warmup_step s)%Z
            then CosineDecayLR.set_flag true
                   (CosineDecayLR.set_last_restart_step (CosineDecayLR.last_epoch s) s)
            else s)
    ∧ ((T_cur = CosineDecayLR.warmup_step s)%Z →
       CosineDecayLR.in_cosine_branch s'
       ∧ (CosineDecayLR.last_epoch s' - CosineDecayLR.last_restart_step s' = 0)%Z).
Proof.
  intros T_cur Hflag Hcur HT.
  eexists _, _. split; [exact (get_lr_warmup s Hflag Hcur HT) |].
  split; [reflexivity |].
  intros Hend. fold T_cur. rewrite Hend, Z.eqb_refl. split.
  - by left.
  - simpl. lia.
Qed.

Lemma get_lr_warmup_ends_by_restarting_the_count_witness :
  ∃ lrs s',
    @CosineDecayLR.get_lr Z Examples.Z_ops Examples.warmed_up = (Ok lrs, s')
    ∧ CosineDecayLR.flag s' = true
    ∧ CosineDecayLR.last_restart_step s' = 6%Z.
Proof.
  destruct (@get_lr_warmup_ends_by_restarting_the_count Z Examples.Z_ops Examples.warmed_up)
    as (lrs & s' & Hrun & Hs' & _).
  - reflexivity.
  - simpl. lia.
  - discriminate.
  - exists lrs, s'. split; [exact Hrun |]. rewrite Hs'. split; reflexivity.
Defined.

(** ** LatencyObjective: get_perfs and the edges of the objective *)

Section ObjectiveEdges.

Context {F : Type} `{FloatOps F} {Outputs Targets : Type}.
Variable accuracy : Outputs → Targets → list F.
Variable CrossEntropyLoss : Outputs → Targets → F.

Import LatencyObjective.

#[local] Abbreviation t := (@LatencyObjective.t F).
#[local] Abbreviation cand_net := (@LatencyObjective.cand_net F).



Lemma get_perfs_inv (self : t) outputs targets (cand : cand_net) rollout_type perfs :
  get_perfs accuracy self outputs targets cand rollout_type = Ok perfs →
  ∃ top1 latency,
    accuracy outputs targets !! 0%nat = Some top1
    ∧ perfs = [fdiv top1 (float_of_int 100); latency]
    ∧ (if String.eqb rollout_type "discrete"
       then penalty_loop self 0
              (take (length (genotypes cand) / 2) (genotypes cand)) (float_of_int 0)
       else perfs_loop self 0 (arch cand) (float_of_int 0)) = Ok latency.
Proof.
  unfold get_perfs. intros Hp.
  apply obind_inv in Hp as (top1 & Htop1%subscript_inv & Hp).
  exists top1. destruct (String.eqb rollout_type "discrete").
  - apply obind_inv in Hp as (latency & Hl & [= <-]). by exists latency.
  - apply obind_inv in Hp as (latency & Hl & [= <-]). by exists latency.
Qed.

End ObjectiveEdges.



(** X16. A call of [get_perfs] that returns gives one value for each
    name of [perf_names]: the top-1 accuracy divided by 100, then the
    latency. *)
Theorem get_perfs_matches_perf_names {F : Type} `{FloatOps F} {Outputs Targets : Type}
    (accuracy : Outputs → Targets → list F) (self : LatencyObjective.t)
    (outputs : Outputs) (targets : Targets) (cand_net : LatencyObjective.cand_net)
    (rollout_type : string) (perfs : list F) :
  LatencyObjective.get_perfs accuracy self outputs targets cand_net rollout_type = Ok perfs →
  length perfs = length LatencyObjective.perf_names
  ∧ ∃ top1, accuracy outputs targets !! 0%nat = Some top1
            ∧ perfs !! 0%nat = Some (fdiv top1 (float_of_int 100)).
Proof.
  intros Hp. apply get_perfs_inv in Hp as (top1 & latency & Htop1 & -> & _).
  split; [reflexivity |]. by exists top1.
Qed.

Lemma get_perfs_matches_perf_names_witness :
  ∃ perfs,
    @LatencyObjective.get_perfs Z Examples.Z_ops unit unit Examples.accuracy
      (Examples.objective None) tt tt Examples.candidate "differentiable" = Ok perfs
    ∧ length perfs = 2%nat.
Proof.
  eexists. split; [reflexivity |].
  eapply (@get_perfs_matches_perf_names Z Examples.Z_ops unit unit Examples.accuracy
            (Examples.objective None) tt tt Examples.candidate "differentiable").
  reflexivity.
Defined.

(** X17. [get_reward] is made of what [get_perfs] returns for a
    discrete rollout: it is the accuracy of [get_perfs] when [lamb] is
    [None], and otherwise that accuracy plus
    [lamb * (1 / latency - 1 / _max_lat)] for the latency of
    [get_perfs]. *)
Theorem get_reward_from_discrete_perfs {F : Type} `{FloatOps F} {Outputs Targets : Type}
    (accuracy : Outputs → Targets → list F) (self : LatencyObjective.t)
    (outputs : Outputs) (targets : Targets) (cand_net : LatencyObjective.cand_net)
    (acc latency : F) :
  LatencyObjective.get_perfs accuracy self outputs targets cand_net "discrete"
    = Ok [acc; latency] →
  LatencyObjective.get_reward accuracy self outputs targets cand_net =
    match LatencyObjective.lamb self with
    | None => Ok acc
    | Some lamb =>
        try a <- LatencyObjective.div_float (float_of_int 1) latency;
        try b <- LatencyObjective.div_float (float_of_int 1)
                   (LatencyObjective._max_lat self);
        Ok (fadd acc (fmul lamb (fsub a b)))
    end.
Proof.
  intros Hp. apply get_perfs_inv in Hp as (top1 & latency' & Htop1 & [= -> ->] & Hloop).
  simpl in Hloop. unfold LatencyObjective.get_reward.
  rewrite (subscript_ok _ _ _ Htop1). simpl.
  destruct (LatencyObjective.lamb self) as [lamb|]; [| done].
  by rewrite Hloop.
Qed.

Lemma get_reward_from_discrete_perfs_witness :
  @LatencyObjective.get_reward Z Examples.Z_ops unit unit Examples.accuracy
    (Examples.objective (Some 1000%Z)) tt tt Examples.candidate
  = Ok (90 / 100 + 1000 * (1 / 55 - 1 / 65))%Z.
Proof.
  exact (@get_reward_from_discrete_perfs Z Examples.Z_ops unit unit Examples.accuracy
           (Examples.objective (Some 1000%Z)) tt tt Examples.candidate
           (90 / 100)%Z 55%Z eq_refl).
Defined.

(** X18. With [lamb] set, [get_reward] on a candidate with fewer than
    two genotype entries has no layer to add up and raises
    [ZeroDivisionError] at [1. / latency_penalty]. *)
Theorem get_reward_divides_by_the_penalty {F : Type} `{FloatOps F} {Outputs Targets : Type}
    (accuracy : Outputs → Targets → list F) (self : LatencyObjective.t)
    (outputs : Outputs) (targets : Targets) (cand_net : LatencyObjective.cand_net) :
  fis_zero (float_of_int 0) = true →
  is_Some (LatencyObjective.lamb self) →
  accuracy outputs targets ≠ [] →
  (length (LatencyObjective.genotypes cand_net) < 2)%nat →
  LatencyObjective.get_reward accuracy self outputs targets cand_net
    = Raise ZeroDivisionError.
Proof.
  intros Hzero [lamb Hlamb] Hacc Hlen. unfold LatencyObjective.get_reward.
  destruct (accuracy outputs targets) as [|top1 accs]; [done |].
  rewrite Hlamb, (Nat.div_small _ 2 Hlen).
  simpl. unfold LatencyObjective.div_float. by rewrite Hzero.
Qed.

Lemma get_reward_divides_by_the_penalty_witness :
  @LatencyObjective.get_reward Z Examples.Z_ops unit unit Examples.accuracy
    (Examples.objective (Some 1000%Z)) tt tt
    {| LatencyObjective.genotypes := [LatencyObjective.Cell [("Resblock_0", 0%nat, 1%nat)]];
       LatencyObjective.arch := [] |}
  = Raise ZeroDivisionError.
Proof.
  apply (@get_reward_divides_by_the_penalty Z Examples.Z_ops unit unit Examples.accuracy
           (Examples.objective (Some 1000%Z))).
  - reflexivity.
  - by eexists.
  - discriminate.
  - simpl. lia.
Defined.

(** X19. On a candidate with no [arch], [get_perfs] for a rollout that
    is not discrete returns the latency [0.], while [get_loss] with the
    controller regularization raises [AttributeError]: [latency_loss]
    is still the [float] it started as, which has no [pow]. *)
Theorem no_arch_perfs_zero_loss_raises {F : Type} `{FloatOps F} {Outputs Targets : Type}
    (accuracy : Outputs → Targets → list F) (CrossEntropyLoss : Outputs → Targets → F)
    (self : LatencyObjective.t) (outputs : Outputs) (targets : Targets)
    (cand_net : LatencyObjective.cand_net) (rollout_type : string) (top1 : F)
    (add_evaluator_regularization : bool) :
  LatencyObjective.arch cand_net = [] →
  rollout_type ≠ "discrete" →
  accuracy outputs targets !! 0%nat = Some top1 →
  LatencyObjective.get_perfs accuracy self outputs targets cand_net rollout_type
    = Ok [fdiv top1 (float_of_int 100); float_of_int 0]
  ∧ LatencyObjective.get_loss CrossEntropyLoss self outputs targets cand_net true
      add_evaluator_regularization
    = Raise (AttributeError "'float' object has no attribute 'pow'").
Proof.
  intros Harch Hrollout Htop1. split.
  - unfold LatencyObjective.get_perfs. rewrite (subscript_ok _ _ _ Htop1). simpl.
    destruct (String.eqb_spec rollout_type "discrete"); [done |].
    by rewrite Harch.
  - unfold LatencyObjective.get_loss. by rewrite Harch.
Qed.

Lemma no_arch_perfs_zero_loss_raises_witness :
  let cand := {| LatencyObjective.genotypes := []; LatencyObjective.arch := [] |} in
  @LatencyObjective.get_perfs Z Examples.Z_ops unit unit Examples.accuracy
    (Examples.objective None) tt tt cand "differentiable" = Ok [90 / 100; 0]%Z
  ∧ @LatencyObjective.get_loss Z Examples.Z_ops unit unit Examples.cross_entropy
      (Examples.objective None) tt tt cand true true
    = Raise (AttributeError "'float' object has no attribute 'pow'").
Proof.
  apply (@no_arch_perfs_zero_loss_raises Z Examples.Z_ops unit unit Examples.accuracy
           Examples.cross_entropy (Examples.objective None) tt tt
           {| LatencyObjective.genotypes := []; LatencyObjective.arch := [] |}
           "differentiable" 90%Z true).
  - reflexivity.
  - discriminate.
  - reflexivity.
Defined.

(** ** LatencyObjective.get_perfs: the latency it reports *)

Section PerfsFacts.

Context {F : Type} `{FloatOps F} {Outputs Targets : Type}.
Variable accuracy : Outputs → Targets → list F.

Import LatencyObjective.

#[local] Abbreviation t := (@LatencyObjective.t F).
#[local] Abbreviation cand_net := (@LatencyObjective.cand_net F).
#[local] Abbreviation tensor := (@LatencyObjective.tensor F).



End PerfsFacts.



(** ** The [sed] pipeline on the lines of a prototxt *)

Section PipelineFacts.

Import Text.

Lemma string_prefix_cons (k x : ascii) (pat s : string) :
  String.prefix (String k pat) (String x s) = Ascii.eqb k x && String.prefix pat s.
Proof.
  simpl. destruct (Ascii.ascii_dec k x) as [->|Hkx].
  - by rewrite Ascii.eqb_refl.
  - by apply Ascii.eqb_neq in Hkx as ->.
Qed.

(** A text that starts with [old] is [old] followed by the rest. *)
Lemma string_prefix_drop (old l : string) :
  String.prefix old l = true → l = old +:+ Py.drop (String.length old) l.
Proof.
  revert l. induction old as [|k old IH]; intros l; [done |].
  destruct l as [|x l]; [done |]. rewrite string_prefix_cons.
  intros [->%Ascii.eqb_eq Hp]%andb_true_iff. rewrite append_cons. simpl.
  by rewrite <- (IH l Hp).
Qed.

(** A character that does not occur in a pattern separates the
    occurrences of the pattern before it from those after it. *)
Lemma string_prefix_app_sep (c : ascii) (pat a b : string) :
  all_chars (λ k, negb (Ascii.eqb k c)) pat = true →
  String.prefix pat (a +:+ String c b) = String.prefix pat a.
Proof.
  revert a. induction pat as [|k pat IH]; intros a; [by destruct a |].
  simpl all_chars. intros [Hk Hpat]%andb_true_iff.
  destruct a as [|x a].
  - change ("" +:+ String c b) with (String c b). rewrite string_prefix_cons.
    apply negb_true_iff in Hk. by rewrite Hk.
  - rewrite append_cons, !string_prefix_cons. by rewrite (IH _ Hpat).
Qed.

Lemma contains_cons (pat : string) (x : ascii) (s : string) :
  Py.contains pat (String x s) = String.prefix pat (String x s) || Py.contains pat s.
Proof. reflexivity. Qed.

Lemma contains_app_sep (c : ascii) (pat a b : string) :
  pat ≠ "" → all_chars (λ k, negb (Ascii.eqb k c)) pat = true →
  Py.contains pat (a +:+ String c b) = Py.contains pat a || Py.contains pat b.
Proof.
  intros Hne Hpat. induction a as [|x a IH].
  - change ("" +:+ String c b) with (String c b).
    rewrite contains_cons. change (String c b) with ("" +:+ String c b) at 1.
    rewrite (string_prefix_app_sep _ _ _ _ Hpat). by destruct pat.
  - rewrite append_cons, !contains_cons, IH.
    rewrite <- (append_cons x a (String c b)), (string_prefix_app_sep _ _ _ _ Hpat).
    by rewrite orb_assoc.
Qed.

(** What [replace_first] does to a line: nothing, or one occurrence
    replaced. *)
Lemma replace_first_cases (old new l : string) :
  old ≠ "" →
  (Py.contains old l = false ∧ replace_first old new l = l)
  ∨ (∃ pre post, l = pre +:+ old +:+ post ∧ replace_first old new l = pre +:+ new +:+ post).
Proof.
  intros Hne. induction l as [|x l IH].
  - left. by destruct old.
  - rewrite contains_cons.
    change (replace_first old new (String x l))
      with (if String.prefix old (String x l)
            then new +:+ Py.drop (String.length old) (String x l)
            else String x (replace_first old new l)).
    destruct (String.prefix old (String x l)) eqn:Hp.
    + right. exists "", (Py.drop (String.length old) (String x l)).
      split; [| done]. by apply string_prefix_drop.
    + destruct IH as [[Hc Hr] | (pre & post & Hl & Hr)].
      * left. by rewrite Hc, Hr.
      * right. exists (String x pre), post. rewrite !append_cons.
        split; [by rewrite <- Hl | by rewrite Hr].
Qed.

Lemma string_prefix_app (old post : string) : String.prefix old (old +:+ post) = true.
Proof.
  induction old as [|k old IH]; [by destruct post |].
  by rewrite append_cons, string_prefix_cons, Ascii.eqb_refl, IH.
Qed.

Lemma contains_occurrence (old pre post : string) :
  Py.contains old (pre +:+ old +:+ post) = true.
Proof.
  induction pre as [|x pre IH].
  - change ("" +:+ ?s) with s. pose proof (string_prefix_app old post) as Hp.
    destruct (old +:+ post) as [|y rest].
    + change (Py.contains old "") with (String.prefix old "" || false). by rewrite Hp.
    + by rewrite contains_cons, Hp.
  - by rewrite append_cons, contains_cons, IH, orb_true_r.
Qed.

Lemma has_nl_app (a b : string) : has_nl (a +:+ b) = has_nl a || has_nl b.
Proof.
  induction a as [|x a IH]; [done |]. rewrite append_cons. simpl.
  by rewrite IH, orb_assoc.
Qed.

(** The occurrences of a word without quotes in a text around a quoted
    name. *)
Lemma contains_quoted (pat pre s post : string) :
  pat ≠ "" → all_chars (λ k, negb (Ascii.eqb k "034")) pat = true →
  Py.contains pat (pre +:+ (Py.dq +:+ s +:+ Py.dq) +:+ post) =
    Py.contains pat pre || (Py.contains pat s || Py.contains pat post).
Proof.
  intros Hne Hpat. unfold Py.dq.
  rewrite append_assoc, append_cons. change ("" +:+ ?t) with t.
  rewrite append_assoc, append_cons. change ("" +:+ ?t) with t.
  by rewrite !(contains_app_sep "034" pat) by done.
Qed.

(** Replacing the first ["blob1"] of a line brings none of the three
    words into it. *)
Lemma replace_first_kept (l : string) :
  DPU.kept l → DPU.kept (replace_first DPU.blob1 DPU.data l).
Proof.
  intros Hkept.
  destruct (replace_first_cases DPU.blob1 DPU.data l) as [[_ ->] | (pre & post & -> & ->)];
    [done | done |].
  unfold DPU.kept, DPU.blob1, DPU.data in *.
  rewrite !contains_quoted in * by done.
  destruct Hkept as (H1 & H2 & H3).
  apply orb_false_elim in H1 as [H1a [_ H1b]%orb_false_elim].
  apply orb_false_elim in H2 as [H2a [_ H2b]%orb_false_elim].
  apply orb_false_elim in H3 as [H3a [_ H3b]%orb_false_elim].
  by rewrite H1a, H1b, H2a, H2b, H3a, H3b.
Qed.

Lemma filter_Forall_id {A} (P : A → Prop) `{∀ x, Decision (P x)} (l : list A) :
  Forall P l → filter P l = l.
Proof.
  induction 1 as [|x l Hx Hl IH]; [done |].
  by rewrite filter_cons_True, IH.
Qed.

Lemma drop_prefix_app (old l rest : string) :
  String.prefix old l = true →
  Py.drop (String.length old) (l +:+ rest) = Py.drop (String.length old) l +:+ rest.
Proof.
  revert l. induction old as [|k old IH]; intros l; [done |].
  destruct l as [|x l]; [done |]. rewrite string_prefix_cons.
  intros [_ Hp]%andb_true_iff. rewrite append_cons. simpl. by apply IH.
Qed.

(** The line feed that ends a line stays where it is. *)
Lemma replace_first_line (old new b : string) :
  old ≠ "" → all_chars (λ k, negb (Ascii.eqb k "010")) old = true →
  replace_first old new (b +:+ Py.nl) = replace_first old new b +:+ Py.nl.
Proof.
  intros Hne Hold. unfold Py.nl. induction b as [|x b IH].
  - change ("" +:+ ?s) with s.
    change (replace_first old new (String "010" ""))
      with (if String.prefix old (String "010" "")
            then new +:+ Py.drop (String.length old) (String "010" "")
            else String "010" (replace_first old new "")).
    change (String "010" "") with ("" +:+ String "010" "") at 1.
    rewrite (string_prefix_app_sep _ _ _ _ Hold). by destruct old.
  - rewrite append_cons.
    change (replace_first old new (String x ?l))
      with (if String.prefix old (String x l)
            then new +:+ Py.drop (String.length old) (String x l)
            else String x (replace_first old new l)).
    rewrite <- (append_cons x b (String "010" "")), (string_prefix_app_sep _ _ _ _ Hold).
    destruct (String.prefix old (String x b)) eqn:Hp.
    + by rewrite (drop_prefix_app _ _ _ Hp), append_assoc.
    + by rewrite IH, append_cons.
Qed.

Lemma replace_first_no_nl (old new l : string) :
  old ≠ "" → has_nl new = false → has_nl l = false →
  has_nl (replace_first old new l) = false.
Proof.
  intros Hne Hnew Hl.
  destruct (replace_first_cases old new l Hne) as [[_ ->] | (pre & post & -> & ->)];
    [done |].
  rewrite !has_nl_app in *.
  apply orb_false_elim in Hl as [Hpre [_ Hpost]%orb_false_elim].
  by rewrite Hpre, Hnew, Hpost.
Qed.

Lemma replace_first_not_empty (old new l : string) :
  old ≠ "" → new ≠ "" → l ≠ "" → replace_first old new l ≠ "".
Proof.
  intros Hne Hnew Hl.
  destruct (replace_first_cases old new l Hne) as [[_ ->] | (pre & post & -> & ->)];
    [done |].
  destruct pre; [| done]. by destruct new.
Qed.

Lemma lines_ok_replace_first (old new : string) (ls : list string) :
  old ≠ "" → all_chars (λ k, negb (Ascii.eqb k "010")) old = true →
  new ≠ "" → has_nl new = false →
  lines_ok ls → lines_ok (replace_first old new <$> ls).
Proof.
  intros Hne Hold Hnew Hnl. induction 1 as [|l Hl Hlnl|b ls Hb Hls IH].
  - constructor.
  - apply lines_last; [by apply replace_first_not_empty | by apply replace_first_no_nl].
  - rewrite fmap_cons, (replace_first_line _ _ _ Hne Hold).
    apply lines_cons; [by apply replace_first_no_nl | exact IH].
Qed.

(** The lines of what the pipeline makes of a text. *)
Lemma sed_pipeline_lines (content : string) :
  split_lines (DPU.sed_pipeline content) =
    replace_first DPU.blob1 DPU.data <$> filter DPU.kept (split_lines content).
Proof.
  rewrite sed_pipeline_one_pass. unfold DPU.first_blob1_replaced.
  apply split_join_lines, lines_ok_replace_first; [done.. |].
  apply lines_ok_filter, split_lines_ok.
Qed.

End PipelineFacts.

(** X20. No line of what the [sed] pipeline of [_caffe_fix] makes of a
    text has [ceil_mode], [input_dim] or [input:] in it: the
    replacement of ["blob1"] by ["data"] brings none of the three words
    back. *)
Theorem sed_pipeline_leaves_no_deleted_word (content : string) :
  Forall DPU.kept (Text.split_lines (DPU.sed_pipeline content)).
Proof.
  rewrite sed_pipeline_lines.
  apply Forall_fmap, Forall_forall. intros l [Hl _]%list_elem_of_filter.
  by apply replace_first_kept.
Qed.

(** X21. The [sed] pipeline gives back, as it is, a text in which no
    line has one of the three words or ["blob1"] in it. *)
Theorem sed_pipeline_keeps_other_text (content : string) :
  Forall (λ l, DPU.kept l ∧ Py.contains (Py.dq +:+ "blob1" +:+ Py.dq) l = false)
    (Text.split_lines content) →
  DPU.sed_pipeline content = content.
Proof.
  intros Hlines. rewrite sed_pipeline_one_pass. unfold DPU.first_blob1_replaced.
  rewrite filter_Forall_id; [| by eapply Forall_impl; [exact Hlines | intros l [Hk _]]].
  rewrite <- (join_split_lines content) at 2. f_equal.
  rewrite <- (list_fmap_id (Text.split_lines content)) at 2.
  apply Forall_fmap_ext_1. eapply Forall_impl; [exact Hlines |].
  intros l [_ Hblob]. simpl.
  destruct (replace_first_cases DPU.blob1 DPU.data l) as [[_ Hr] | (pre & post & -> & _)];
    [done | exact Hr |].
  fold DPU.blob1 in Hblob. by rewrite contains_occurrence in Hblob.
Qed.

Lemma sed_pipeline_keeps_other_text_witness :
  DPU.sed_pipeline Examples.plain_layer = Examples.plain_layer.
Proof.
  apply sed_pipeline_keeps_other_text.
  apply (bool_decide_unpack _). vm_compute. exact I.
Defined.

(** ** Runs of the compiler that raise *)

Lemma bind_raise_inv {S A B} (c : SE S A) (k : A → SE S B) (s s' : S) (e : exn) :
  bind c k s = (Raise e, s') →
  c s = (Raise e, s') ∨ ∃ a s1, c s = (Ok a, s1) ∧ k a s1 = (Raise e, s').
Proof.
  unfold bind. destruct (c s) as [[a|e1] s1]; [eauto |].
  intros [= -> ->]. by left.
Qed.

Section DPUFailures.

Context {Model NetCfg SearchSpace : Type}.
Variable X : @DPU.externals Model NetCfg SearchSpace.

Import DPU.

#[local] Abbreviation world := (@DPU.world Model NetCfg).
#[local] Abbreviation event := (@DPU.event Model NetCfg).
#[local] Abbreviation M := (@DPU.M Model NetCfg).

Lemma check_call_raise (cmd : string) (w w' : world) (e : exn) :
  check_call X cmd w = (Raise e, w') →
  e = CalledProcessError cmd ∧ trace w' = trace w ++ [EvShell cmd].
Proof.
  unfold check_call, bind, emit, modify, get_fs, get, ret, put_fs, raise. simpl.
  destruct (sh X cmd (fs w)); [done |]. by intros [= <- <-].
Qed.

Lemma run_sed_raise (p q : string) (w w' : world) (e : exn) :
  run_sed X p q w = (Raise e, w') →
  e = CalledProcessError (sed_command p q)
  ∧ trace w' = trace w ++ [EvShell (sed_command p q)].
Proof.
  unfold run_sed. destruct (_ && _); [| apply check_call_raise].
  unfold bind, emit, modify, get_fs, get, ret, put_fs, raise. simpl.
  destruct (os_error X (OpenWrite q) (fs w)); [| done]. by intros [= <- <-].
Qed.

(** No refusal of the operating system is a [CalledProcessError]. *)
Lemma os_exception_not_shell (x : errno * string) (cmd : string) :
  os_exception x ≠ CalledProcessError cmd.
Proof. by destruct x as [[] p]. Qed.

Lemma read_text_raise (p : string) (w w' : world) (e : exn) :
  read_text X p w = (Raise e, w') → ∀ cmd, e ≠ CalledProcessError cmd.
Proof.
  unfold read_text, bind, get_fs, get, ret, raise. simpl.
  destruct (os_error X (OpenRead p) (fs w)) as [x|].
  - intros [= <- _] cmd. apply os_exception_not_shell.
  - destruct (files (fs w) !! p); [destruct (decodable X _); [done |] |];
      by intros [= <- _] cmd.
Qed.

Lemma open_w_raise (p : string) (w w' : world) (e : exn) :
  open_w X p w = (Raise e, w') → ∀ cmd, e ≠ CalledProcessError cmd.
Proof.
  unfold open_w, bind, get_fs, get, ret, put_fs, modify, raise. simpl.
  destruct (os_error X (OpenWrite p) (fs w)) as [x|]; [| done].
  intros [= <- _] cmd. apply os_exception_not_shell.
Qed.

(** A write that raises has raised at the opening or at the write. *)
Lemma write_text_raise (p c : string) (w w' : world) (e : exn) :
  write_text X p c w = (Raise e, w') →
  (trace w' = trace w ∨ trace w' = trace w ++ [EvWrite p c])
  ∧ ∀ cmd, e ≠ CalledProcessError cmd.
Proof.
  unfold write_text. intros Hrun.
  apply bind_raise_inv in Hrun as [Hopen | (u & w1 & Hopen & Hrun)].
  - split; [left | by eapply open_w_raise].
    apply emits_open_w in Hopen. by rewrite Hopen, app_nil_r.
  - apply emits_open_w in Hopen. rewrite app_nil_r in Hopen.
    unfold bind, emit, modify, get_fs, get, ret, put_fs, raise in Hrun. simpl in Hrun.
    destruct (os_error X (WriteText p) _) as [x|]; [| done].
    injection Hrun as <- <-. simpl. rewrite Hopen.
    split; [by right | intros cmd; apply os_exception_not_shell].
Qed.

Lemma shutil_copy_raise (src dst : string) (w w' : world) (e : exn) :
  shutil_copy src dst w = (Raise e, w') →
  e = FileNotFoundError src ∧ trace w' = trace w ++ [EvCopy src dst].
Proof.
  unfold shutil_copy, bind, emit, modify, get_fs, get, ret, put_fs, raise. simpl.
  destruct (files (fs w) !! src); [done |]. by intros [= <- <-].
Qed.

Lemma when_makedirs_returns (b : bool) (p : string) (w w' : world) (e : exn) :
  when b (makedirs p) w ≠ (Raise e, w').
Proof. by destruct b. Qed.

(** A call of [_caffe_fix] that raises has done the first of its steps
    and none of the rest; a command that failed is the last of them. *)
Lemma caffe_fix_raise prototxt caffemodel output_dir gpu calib_iter input_size debug
    (w w' : world) (e : exn) :
  _caffe_fix X prototxt caffemodel output_dir gpu calib_iter input_size debug w
    = (Raise e, w') →
  ∃ content mk evs rest,
    (mk = [] ∨ mk = [EvMakedirs output_dir])
    ∧ trace w' = trace w ++ evs
    ∧ evs ≠ []
    ∧ evs ++ rest =
        [EvShell (sed_command prototxt (prototxt +:+ ".tofix.prototxt"));
         EvWrite (prototxt +:+ ".tofix.prototxt") content]
        ++ mk
        ++ [EvShell (deephi_fix_command calib_iter gpu (prototxt +:+ ".tofix.prototxt")
                       caffemodel output_dir);
            EvCopy (Py.os_path_join output_dir "deploy.prototxt")
              (Py.os_path_join output_dir "deploy_dnnc.prototxt");
            EvShell ("python modify_for_dnnc.py "
                     +:+ Py.os_path_join output_dir "deploy_dnnc.prototxt")]
    ∧ ∀ cmd, e = CalledProcessError cmd → last evs = Some (EvShell cmd).
Proof.
  unfold _caffe_fix. intros Hrun.
  set (sed := EvShell (sed_command prototxt (prototxt +:+ ".tofix.prototxt")) : event).
  apply bind_raise_inv in Hrun as [Hsed | (u1 & w1 & Hsed & Hrun)].
  { apply run_sed_raise in Hsed as [-> Ht].
    exists "", [], [sed]. eexists.
    split; [by left |]. split; [exact Ht |]. split; [done |]. split; [reflexivity |].
    by intros cmd [= <-]. }
  apply emits_run_sed in Hsed. fold sed in Hsed.
  apply bind_raise_inv in Hrun as [Hread | (r_f & w2 & Hread & Hrun)].
  { pose proof (read_text_raise _ _ _ _ Hread) as Hne.
    apply emits_read_text in Hread. rewrite app_nil_r in Hread.
    exists "", [], [sed]. eexists.
    split; [by left |]. split; [by rewrite Hread |]. split; [done |].
    split; [reflexivity |]. intros cmd ->. by destruct (Hne cmd). }
  apply emits_read_text in Hread. rewrite app_nil_r in Hread.
  set (content := Py.replace "INPUT_SIZE" (Py.str_opt_int input_size) CAFFE_DATA_LAYER_STR
                  +:+ r_f) in *.
  set (write := EvWrite (prototxt +:+ ".tofix.prototxt") content : event).
  apply bind_raise_inv in Hrun as [Hwrite | (u3 & w3 & Hwrite & Hrun)].
  { apply write_text_raise in Hwrite as [[Ht | Ht] Hne].
    - exists content, [], [sed]. eexists.
      split; [by left |]. split; [by rewrite Ht, Hread |]. split; [done |].
      split; [reflexivity |]. intros cmd ->. by destruct (Hne cmd).
    - exists content, [], [sed; write]. eexists.
      split; [by left |]. split; [by rewrite Ht, Hread, Hsed, <- app_assoc |].
      split; [done |]. split; [reflexivity |]. intros cmd ->. by destruct (Hne cmd). }
  apply write_text_ok in Hwrite. fold write in Hwrite.
  apply bind_raise_inv in Hrun as [Hget | (f & w4 & Hget & Hrun)]; [done |].
  apply emits_get_fs in Hget. rewrite app_nil_r in Hget.
  apply bind_raise_inv in Hrun as [Hmk | (u5 & w5 & Hmk & Hrun)].
  { by apply when_makedirs_returns in Hmk. }
  apply emits_when_makedirs in Hmk.
  set (mk := if negb (fs_exists output_dir f) then [EvMakedirs output_dir] else []) in *.
  assert (Hcases : mk = [] ∨ mk = [EvMakedirs output_dir]).
  { unfold mk. destruct (negb _); auto. }
  assert (Hw5 : trace w5 = trace w ++ [sed; write] ++ mk).
  { rewrite Hmk, Hget, Hwrite, Hread, Hsed. by rewrite <- !app_assoc. }
  clearbody mk. clear Hmk Hget Hwrite Hread Hsed.
  apply bind_raise_inv in Hrun as [Hopen | (u6 & w6 & Hopen & Hrun)].
  { pose proof (open_w_raise _ _ _ _ Hopen) as Hne.
    apply emits_open_w in Hopen. rewrite app_nil_r in Hopen.
    exists content, mk, ([sed; write] ++ mk). eexists.
    split; [exact Hcases |]. split; [by rewrite Hopen |].
    split; [done |]. split; [by rewrite <- app_assoc |].
    intros cmd ->. by destruct (Hne cmd). }
  apply emits_open_w in Hopen. rewrite app_nil_r in Hopen.
  apply bind_raise_inv in Hrun as [Hfix | (u7 & w7 & Hfix & Hrun)].
  { apply check_call_raise in Hfix as [-> Ht].
    exists content, mk, ([sed; write] ++ mk ++ [EvShell
      (deephi_fix_command calib_iter gpu (prototxt +:+ ".tofix.prototxt") caffemodel
         output_dir)]).
    eexists.
    split; [exact Hcases |]. split; [by rewrite Ht, Hopen, Hw5, <- !app_assoc |].
    split; [done |]. split; [by rewrite <- !app_assoc |].
    intros cmd [= <-]. by destruct Hcases as [-> | ->]. }
  apply emits_check_call in Hfix.
  apply bind_raise_inv in Hrun as [Hcopy | (u8 & w8 & Hcopy & Hrun)].
  { apply shutil_copy_raise in Hcopy as [-> Ht].
    exists content, mk, ([sed; write] ++ mk ++ [EvShell
      (deephi_fix_command calib_iter gpu (prototxt +:+ ".tofix.prototxt") caffemodel
         output_dir);
      EvCopy (Py.os_path_join output_dir "deploy.prototxt")
        (Py.os_path_join output_dir "deploy_dnnc.prototxt")]).
    eexists.
    split; [exact Hcases |]. split; [by rewrite Ht, Hfix, Hopen, Hw5, <- !app_assoc |].
    split; [done |]. split; [by rewrite <- !app_assoc |]. done. }
  apply emits_shutil_copy in Hcopy.
  apply bind_raise_inv in Hrun as [Hmod | (u9 & w9 & Hmod & Hrun)]; [| done].
  apply check_call_raise in Hmod as [-> Ht].
  exists content, mk, ([sed; write] ++ mk ++ [EvShell
    (deephi_fix_command calib_iter gpu (prototxt +:+ ".tofix.prototxt") caffemodel
       output_dir);
    EvCopy (Py.os_path_join output_dir "deploy.prototxt")
      (Py.os_path_join output_dir "deploy_dnnc.prototxt");
    EvShell ("python modify_for_dnnc.py "
             +:+ Py.os_path_join output_dir "deploy_dnnc.prototxt")]), [].
  split; [exact Hcases |].
  split; [by rewrite Ht, Hcopy, Hfix, Hopen, Hw5, <- !app_assoc |].
  split; [done |]. split; [by rewrite app_nil_r |].
  intros cmd [= <-]. by destruct Hcases as [-> | ->].
Qed.


End DPUFailures.

(** X22. When the converter raises and the debug output is off,
    [_run_pytorch_to_caffe] lets the exception through with
    [sys.stdout] still redirected: nothing restores it, and no
    directory or file has been made. *)
Theorem converter_failure_leaves_stdout_redirected {Model NetCfg SearchSpace : Type}
    (X : @DPU.externals Model NetCfg SearchSpace)
    (model name : DPU.pyval) (output_dir : string) (n : Z) (e : exn)
    (w : @DPU.world Model NetCfg) :
  (0 ≤ n)%Z →
  DPU.trans_net X model n name = Raise e →
  DPU._run_pytorch_to_caffe X model name output_dir (Some n) false w
    = (Raise e,
       DPU.World (DPU.fs w)
         (DPU.trace w ++ [DPU.EvRedirectStdout; DPU.EvTransNet model n name])).
Proof.
  intros Hn Htrans. unfold DPU._run_pytorch_to_caffe, DPU.torch_ones_1_3.
  destruct (Z.ltb_spec n 0); [lia |].
  unfold bind, ret, when, DPU.emit, modify, lift_outcome. simpl.
  rewrite Htrans. by rewrite <- app_assoc.
Qed.

Lemma converter_failure_leaves_stdout_redirected_witness :
  DPU._run_pytorch_to_caffe Examples.broken_converter (DPU.PyStr "net") (DPU.PyModel "Net")
    "out/ptc" (Some 224%Z) false Examples.empty_world
  = (Raise (RuntimeError "unsupported layer"),
     DPU.World (DPU.Fsys ∅ ∅)
       [DPU.EvRedirectStdout; DPU.EvTransNet (DPU.PyStr "net") 224 (DPU.PyModel "Net")]).
Proof.
  apply (converter_failure_leaves_stdout_redirected Examples.broken_converter
           (DPU.PyStr "net") (DPU.PyModel "Net") "out/ptc" 224 (RuntimeError "unsupported layer")
           Examples.empty_world).
  - lia.
  - reflexivity.
Defined.

(** X23. A call of [_caffe_fix] that raises has raised at the last
    thing it did, and nothing was run after it: what it did is the
    first part of the pipeline, the write of the fixed prototxt, the
    making of [output_dir] if it was not there, [deephi_fix], the copy
    of [deploy.prototxt] and [modify_for_dnnc.py], in this order; and a
    [CalledProcessError] names the command that the shell ran last. *)
Theorem caffe_fix_stops_where_it_fails {Model NetCfg SearchSpace : Type}
    (X : @DPU.externals Model NetCfg SearchSpace)
    (prototxt caffemodel output_dir : string) (gpu calib_iter : Z)
    (input_size : option Z) (debug : bool) (w w' : @DPU.world Model NetCfg) (e : exn) :
  DPU._caffe_fix X prototxt caffemodel output_dir gpu calib_iter input_size debug w
    = (Raise e, w') →
  ∃ content mk evs rest,
    (mk = [] ∨ mk = [DPU.EvMakedirs output_dir])
    ∧ DPU.trace w' = DPU.trace w ++ evs
    ∧ evs ≠ []
    ∧ evs ++ rest =
        [DPU.EvShell (DPU.sed_command prototxt (prototxt +:+ ".tofix.prototxt"));
         DPU.EvWrite (prototxt +:+ ".tofix.prototxt") content]
        ++ mk
        ++ [DPU.EvShell
              (DPU.deephi_fix_command calib_iter gpu (prototxt +:+ ".tofix.prototxt")
                 caffemodel output_dir);
            DPU.EvCopy (Py.os_path_join output_dir "deploy.prototxt")
              (Py.os_path_join output_dir "deploy_dnnc.prototxt");
            DPU.EvShell ("python modify_for_dnnc.py "
                         +:+ Py.os_path_join output_dir "deploy_dnnc.prototxt")]
    ∧ ∀ cmd, e = CalledProcessError cmd → last evs = Some (DPU.EvShell cmd).
Proof. apply caffe_fix_raise. Qed.

Lemma caffe_fix_stops_where_it_fails_witness :
  ∃ evs,
    DPU.trace
      (DPU._caffe_fix Examples.failing_fix "net.prototxt" "net.caffemodel" "out/fix" 0 8
         (Some 224%Z) false (Examples.world_with "net.prototxt" Examples.two_blobs)).2
    = evs
    ∧ last evs =
        Some (DPU.EvShell
                (DPU.deephi_fix_command 8 0 "net.prototxt.tofix.prototxt" "net.caffemodel"
                   "out/fix")).
Proof.
  destruct (caffe_fix_stops_where_it_fails Examples.failing_fix
              "net.prototxt" "net.caffemodel" "out/fix" 0%Z 8%Z (Some 224%Z) false
              (Examples.world_with "net.prototxt" Examples.two_blobs)
              (DPU._caffe_fix Examples.failing_fix "net.prototxt" "net.caffemodel" "out/fix"
                 0 8 (Some 224%Z) false
                 (Examples.world_with "net.prototxt" Examples.two_blobs)).2
              (CalledProcessError
                 (DPU.deephi_fix_command 8 0 "net.prototxt.tofix.prototxt" "net.caffemodel"
                    "out/fix")))
    as (content & mk & evs & rest & _ & Htrace & _ & _ & Hlast).
  - vm_compute. reflexivity.
  - exists evs. split; [exact Htrace | by apply Hlast].
Defined.



(** Where the two events on [sys.stdout] are in a list in which they
    stand, or not, around one other event. *)
Lemma stdout_events {Model NetCfg : Type} (redirect : bool)
    (before : list (@DPU.event Model NetCfg)) (conversion : @DPU.event Model NetCfg)
    (after : list (@DPU.event Model NetCfg)) :
  DPU.EvRedirectStdout ∉ before → DPU.EvRestoreStdout ∉ before →
  DPU.EvRedirectStdout ∉ conversion :: after → DPU.EvRestoreStdout ∉ conversion :: after →
  let pre := before ++ (if redirect then [DPU.EvRedirectStdout] else [])
             ++ [conversion] ++ (if redirect then [DPU.EvRestoreStdout] else []) ++ after in
  (DPU.EvRedirectStdout ∈ pre ↔ negb redirect = false)
  ∧ (DPU.EvRestoreStdout ∈ pre ↔ negb redirect = false).
Proof.
  intros Hb1 Hb2 Ha1 Ha2 pre. unfold pre.
  destruct redirect; simpl; rewrite !elem_of_app, !elem_of_cons; (split; split);
    first [ done | by auto 6 | idtac ].
  - intros [Hin | Hin]; [done |]. exfalso. apply Ha1. by apply elem_of_cons.
  - intros [Hin | Hin]; [done |]. exfalso. apply Ha2. by apply elem_of_cons.
Qed.

(** X25. For a compiler made by [__init__], the debug output follows
    the log level through a whole [compile]: at [DEBUG] or below the
    conversion leaves [sys.stdout] alone and [dnnc], the last thing
    run, is given [--dump=all]; above it, [sys.stdout] is redirected
    and restored around the conversion and [dnnc] gets no [--dump].
    [dnnc] is run with the [dcf] and the [mode] given to [__init__]. *)
Theorem compile_debug_output_follows_log_level {Model NetCfg SearchSpace : Type}
    (X : @DPU.externals Model NetCfg SearchSpace)
    (dcf : option string) (mode : string) (calib_iter gpu : Z) (input_size : option Z)
    (self : DPU.DPUCompiler) (compile_name : string) (net_cfg : NetCfg)
    (result_dir : string) (w w' : @DPU.world Model NetCfg) (u : unit) :
  DPU.__init__ X dcf mode calib_iter gpu input_size = Ok self →
  DPU.compile X self compile_name net_cfg result_dir w = (Ok u, w') →
  let debug := (DPU.LEVEL X <=? DPU.logging_DEBUG)%Z in
  ∃ pre,
    DPU.trace w' =
      DPU.trace w ++ pre
      ++ [DPU.EvShell
            (DPU.dnnc_command compile_name
               (Py.os_path_join (Py.os_path_join result_dir "fix") "deploy_dnnc.prototxt")
               (Py.os_path_join (Py.os_path_join result_dir "fix") "deploy.caffemodel")
               (Py.os_path_join result_dir ("dnnc_" +:+ mode)) dcf mode debug)]
    ∧ (DPU.EvRedirectStdout ∈ pre ↔ debug = false)
    ∧ (DPU.EvRestoreStdout ∈ pre ↔ debug = false).
Proof.
  intros Hinit Hrun debug.
  assert (Hself : self = DPU.Build_DPUCompiler dcf mode calib_iter debug gpu input_size).
  { unfold DPU.__init__ in Hinit.
    destruct (DPU.expect X _ _ _); [| done].
    destruct (DPU.expect X _ _ _); [| done].
    by injection Hinit as <-. }
  apply compile_ok in Hrun
    as (ss & m & d & n & content & mk1 & mk2 & _ & _ & _ & _ & Hmk1 & Hmk2 & Htrace).
  rewrite Hself in Htrace, Hmk2.
  cbn [DPU.mode DPU.dcf DPU._debug_output DPU.gpu DPU.calib_iter] in Htrace, Hmk2.
  destruct (stdout_events (negb debug)
              [DPU.EvInitSearchSpace net_cfg;
               DPU.EvInitFinalModel net_cfg ("cuda:" +:+ Py.str_int gpu);
               DPU.EvMakedir (Py.os_path_join result_dir "pytorch_to_caffe")]
              (DPU.EvTransNet (DPU.PyStr compile_name) n (DPU.PyModel m))
              ([DPU.EvMakedir d;
                DPU.EvSavePrototxt (d +:+ "/" +:+ DPU.model_str X m +:+ ".prototxt");
                DPU.EvSaveCaffemodel (d +:+ "/" +:+ DPU.model_str X m +:+ ".caffemodel")]
               ++ [DPU.EvShell
                     (DPU.sed_command (d +:+ "/" +:+ DPU.model_str X m +:+ ".prototxt")
                        ((d +:+ "/" +:+ DPU.model_str X m +:+ ".prototxt")
                         +:+ ".tofix.prototxt"));
                   DPU.EvWrite
                     ((d +:+ "/" +:+ DPU.model_str X m +:+ ".prototxt") +:+ ".tofix.prototxt")
                     content]
               ++ mk1
               ++ [DPU.EvShell
                     (DPU.deephi_fix_command calib_iter gpu
                        ((d +:+ "/" +:+ DPU.model_str X m +:+ ".prototxt")
                         +:+ ".tofix.prototxt")
                        (d +:+ "/" +:+ DPU.model_str X m +:+ ".caffemodel")
                        (Py.os_path_join result_dir "fix"));
                   DPU.EvCopy
                     (Py.os_path_join (Py.os_path_join result_dir "fix") "deploy.prototxt")
                     (Py.os_path_join (Py.os_path_join result_dir "fix")
                        "deploy_dnnc.prototxt");
                   DPU.EvShell
                     ("python modify_for_dnnc.py "
                      +:+ Py.os_path_join (Py.os_path_join result_dir "fix")
                            "deploy_dnnc.prototxt")]
               ++ mk2))
    as [Hredirect Hrestore].
  { intros Hin. repeat (apply elem_of_cons in Hin as [Hin | Hin]; [discriminate Hin |]).
    by apply elem_of_nil in Hin. }
  { intros Hin. repeat (apply elem_of_cons in Hin as [Hin | Hin]; [discriminate Hin |]).
    by apply elem_of_nil in Hin. }
  { by destruct Hmk1 as [-> | ->], Hmk2 as [-> | ->];
      intros Hin;
      repeat (apply elem_of_cons in Hin as [Hin | Hin]; [discriminate Hin |]);
      apply elem_of_nil in Hin. }
  { by destruct Hmk1 as [-> | ->], Hmk2 as [-> | ->];
      intros Hin;
      repeat (apply elem_of_cons in Hin as [Hin | Hin]; [discriminate Hin |]);
      apply elem_of_nil in Hin. }
  rewrite negb_involutive in Hredirect, Hrestore.
  match type of Hredirect with (_ ∈ ?p ↔ _) => exists p end.
  split; [| split; [exact Hredirect | exact Hrestore]].
  rewrite Htrace.
  repeat rewrite <- app_assoc. by repeat rewrite <- app_comm_cons.
Qed.

Lemma compile_debug_output_follows_log_level_witness :
  ∃ pre,
    DPU.trace
      (DPU.compile Examples.tools Examples.dpu "net" tt "out" Examples.empty_world).2
    = pre
      ++ [DPU.EvShell
            (DPU.dnnc_command "net" "out/fix/deploy_dnnc.prototxt" "out/fix/deploy.caffemodel"
               "out/dnnc_debug" (Some "dpu.dcf") "debug" false)]
    ∧ DPU.EvRedirectStdout ∈ pre.
Proof.
  destruct (compile_debug_output_follows_log_level Examples.tools
              (Some "dpu.dcf") "debug" 0%Z 0%Z (Some 224%Z) Examples.dpu "net" tt "out"
              Examples.empty_world
              (DPU.compile Examples.tools Examples.dpu "net" tt "out" Examples.empty_world).2
              tt)
    as (pre & Htrace & Hredirect & _).
  - reflexivity.
  - vm_compute. reflexivity.
  - exists pre. split; [exact Htrace | by apply Hredirect].
Defined.
